(** * hnswlib-wasm-node: the persistence layer of [index.js]

    A shallow embedding of [src/index.js] (the JSON and binary codecs for a
    vector index, their validation and the logger slot) together with the
    properties of its specification.

    Layout of the development:
    - [Number], [Float32]: JavaScript numbers and their binary32 image;
    - [Buffer]: the byte-level reads and writes of Node's [Buffer];
    - [value], [error], [Host], the monad [M]: JavaScript values, thrown
      errors, the external collaborators (engine, file system, logger
      sinks) and the effectful computations over them;
    - the functions of [index.js], in source order;
    - [MockHost]: an executable host used to run the functions;
    - the theorems. *)

From Stdlib Require Import ZArith Lia List Bool.
From Stdlib.Strings Require Import Byte Ascii.
From Stdlib.Numbers Require Import DecimalString.
From stdpp Require Import gmap strings list fin_maps.

Set Warnings "-register-all".
Local Open Scope Z_scope.

(** ** JavaScript numbers *)

Module Number.

(** A JavaScript number is an IEEE-754 binary64 datum.  Every such datum is
    NaN, an infinity, a zero or a dyadic rational; the model keeps the
    integers apart from the proper fractions so that counts, offsets and
    labels are plain [Z].  [Frac neg m k] is [±m / 2^k] with [m] odd.  The
    type holds every binary64 value (and dyadic rationals of larger
    precision, which the code never produces). *)
Inductive number :=
| Int (z : Z)
| NegZero
| Frac (neg : bool) (m : positive) (k : positive)
| NaN
| Inf (neg : bool).

#[global] Instance number_eq_dec : EqDecision number.
Proof. solve_decision. Defined.

(** [isFinite(value)] for a value that is a number. *)
Definition isFinite (n : number) : bool :=
  match n with
  | NaN | Inf _ => false
  | _ => true
  end.

(** ToBoolean on numbers: [0], [-0] and [NaN] are falsy. *)
Definition truthy (n : number) : bool :=
  match n with
  | Int 0 | NegZero | NaN => false
  | _ => true
  end.

(** [a === b] on numbers. *)
Definition strict_eq (a b : number) : bool :=
  match a, b with
  | NaN, _ | _, NaN => false
  | Int 0, NegZero | NegZero, Int 0 => true
  | _, _ => bool_decide (a = b)
  end.

(** [n <= 0]. *)
Definition le0 (n : number) : bool :=
  match n with
  | Int z => z <=? 0
  | NegZero => true
  | Frac neg _ _ => neg
  | NaN => false
  | Inf neg => neg
  end.

(** [m / 2^k] in lowest terms, signed: halves [m] while it is even. *)
Fixpoint dyadic (neg : bool) (m k : positive) : number :=
  match m with
  | xO m' =>
      match k with
      | xH => Int (if neg then Z.neg m' else Z.pos m')
      | _ => dyadic neg m' (Pos.pred k)
      end
  | _ => Frac neg m k
  end.

(** The number [±m * 2^e], for [m > 0]. *)
Definition scaled (neg : bool) (m e : Z) : number :=
  if 0 <=? e
  then Int ((if neg then -1 else 1) * (m * 2 ^ e))
  else dyadic neg (Z.to_pos m) (Z.to_pos (- e)).

End Number.
Export Number.

(** ** IEEE-754 binary32, as used by [writeFloatLE] and [readFloatLE] *)

Module Float32.

(** Shift [m] right by [k > 0] bits, rounding to nearest, ties to even. *)
Definition round_half_even (m k : Z) : Z :=
  let q := Z.shiftr m k in
  let r := Z.land m (Z.ones k) in
  let h := 2 ^ (k - 1) in
  if r <? h then q
  else if h <? r then q + 1
  else if Z.even q then q else q + 1.

Definition inf_bits : Z := 0x7f800000.
Definition nan_bits : Z := 0x7fc00000.
Definition sign_bit (neg : bool) : Z := if neg then 0x80000000 else 0.

(** The 31 low bits of the binary32 nearest to [m * 2^e] ([m > 0]).  The
    mantissa is aligned on 24 bits, or on the subnormal exponent -149; the
    biased exponent and the mantissa are added, so that a mantissa rounded
    up to [2^24] carries into the exponent; overflow gives infinity. *)
Definition magnitude (m e : Z) : Z :=
  let d := Z.log2 m + 1 in
  let e' := Z.max (e + d - 24) (-149) in
  let k := e' - e in
  let q := if k <=? 0 then Z.shiftl m (- k) else round_half_even m k in
  Z.min ((e' + 149) * 2 ^ 23 + q) inf_bits.

(** The bit pattern [float32Array[0] = val] stores. *)
Definition bits (n : number) : Z :=
  match n with
  | Int 0 => 0
  | Int z => sign_bit (z <? 0) + magnitude (Z.abs z) 0
  | NegZero => sign_bit true
  | Frac neg m k => sign_bit neg + magnitude (Z.pos m) (- Z.pos k)
  | NaN => nan_bits
  | Inf neg => sign_bit neg + inf_bits
  end.

(** The number a 32-bit pattern denotes. *)
Definition value (b : Z) : number :=
  let neg := Z.testbit b 31 in
  let E := Z.land (Z.shiftr b 23) 255 in
  let f := Z.land b (Z.ones 23) in
  if E =? 255 then (if f =? 0 then Inf neg else NaN)
  else if E =? 0 then
    (if f =? 0 then (if neg then NegZero else Int 0)
     else scaled neg f (-149))
  else scaled neg (2 ^ 23 + f) (E - 150).

(** [Math.fround]: a number at 32-bit float precision. *)
Definition fround (n : number) : number := value (bits n).

End Float32.

(** ** Thrown errors

    [index.js] throws plain [Error] objects told apart by their message; a
    constructor stands for each [throw] site, with the interpolated integers
    as arguments.  A wrapper ([`...: ${error.message}`]) keeps the error it
    wraps.  The last constructors are the errors of the runtime and of the
    external collaborators. *)
Inductive error :=
| IndexRequired                        (* 'Index parameter is required' *)
| MissingMethods                       (* 'Invalid index object: missing required methods' *)
| FilenameNotString                    (* 'Filename must be a non-empty string' *)
| FilenameEmpty                        (* 'Filename cannot be empty' *)
| EmptyIndex                           (* 'Cannot save empty index (no vectors added)' *)
| ExtractFailed (cause : error)        (* 'Failed to extract vectors from index: ...' *)
| WriteJSONFailed (cause : error)      (* 'Failed to write JSON file: ...' *)
| WriteBinaryFailed (cause : error)    (* 'Failed to write binary file: ...' *)
| DimensionMismatch (expected got : Z) (* 'Vector dimension mismatch: expected .., got ..' *)
| InvalidVectorValue (v : number)      (* 'Invalid vector value: ..' *)
| FileNotFound (filename : string)     (* 'File not found: ..' *)
| InvalidHnswlib                       (* 'Invalid hnswlib module: HierarchicalNSW constructor not found' *)
| InvalidJSON (cause : error)          (* 'Invalid JSON file: ...' *)
| ReadFailed (cause : error)           (* 'Failed to read file: ...' *)
| MissingVectors                       (* 'Invalid index file format: missing or invalid vectors array' *)
| InvalidNumDimensionsJSON             (* 'Invalid index file format: invalid numDimensions' *)
| InvalidSpaceName                     (* 'Invalid spaceName: ... Must be 'l2', 'ip', or 'cosine'' *)
| InvalidLabel                         (* 'Invalid label: ... Must be a number' *)
| InvalidVector                        (* 'Invalid vector: expected array of length ..' *)
| RecreateFailed (cause : error)       (* 'Failed to recreate index: ...' *)
| FileTooSmall (len : Z)               (* 'File too small to be a valid index file (.. bytes, minimum 40 bytes)' *)
| UnsupportedVersion (version : Z)     (* 'Unsupported binary format version: ... Expected version 1' *)
| HeaderEOF                            (* 'Unexpected end of file while reading header' *)
| InvalidNumDimensions (n : Z)         (* 'Invalid numDimensions: ..' *)
| InvalidNumVectors (n : Z)            (* 'Invalid numVectors: ..' *)
| SizeMismatch (expected actual : Z)   (* 'File size mismatch: expected .. bytes, got .. bytes' *)
| VectorEOF (i : Z)                    (* 'Unexpected end of file while reading vector ..' *)
| VectorDimEOF (i j : Z)               (* 'Unexpected end of file while reading vector .., dimension ..' *)
| NotAFunction (callee : string)       (* TypeError: .. is not a function / not a constructor *)
| NoProperties                         (* TypeError: cannot read properties of undefined or null *)
| OutOfRange                           (* RangeError of Buffer: value or offset out of range *)
| SyntaxError                          (* thrown by JSON.parse *)
| Thrown (message : string).           (* thrown by the engine, the file system or a logger sink *)

#[global] Instance error_eq_dec : EqDecision error.
Proof. solve_decision. Defined.

(** The taxonomy of the specification, read off the messages. *)
Inductive error_class :=
| ValidationError | FormatError | DataError | IOError | RehydrationError
| ExtractionError | RuntimeError.

Fixpoint classify (e : error) : error_class :=
  match e with
  | IndexRequired | MissingMethods | FilenameNotString | FilenameEmpty
  | EmptyIndex | InvalidHnswlib => ValidationError
  | InvalidJSON _ | MissingVectors | InvalidNumDimensionsJSON | InvalidSpaceName
  | FileTooSmall _ | UnsupportedVersion _ | HeaderEOF | InvalidNumDimensions _
  | InvalidNumVectors _ | SizeMismatch _ _ | VectorEOF _ | VectorDimEOF _ _ => FormatError
  | DimensionMismatch _ _ | InvalidVectorValue _ | InvalidLabel | InvalidVector => DataError
  | FileNotFound _ | ReadFailed _ => IOError
  | ExtractFailed _ => ExtractionError
  | WriteJSONFailed c | WriteBinaryFailed c =>
      match c with Thrown _ => IOError | _ => classify c end
  | RecreateFailed c =>
      match c with Thrown _ => RehydrationError | _ => classify c end
  | NotAFunction _ | NoProperties | OutOfRange | SyntaxError | Thrown _ => RuntimeError
  end.

(** ** Node's [Buffer] *)

Module Buffer.

Definition t := list byte.

Definition byte_to_Z (b : byte) : Z := Z.of_N (Byte.to_N b).
Definition byte_of_Z (z : Z) : byte :=
  default x00 (Byte.of_N (Z.to_N (z mod 256))).

(** The [n] low bytes of [z], least significant first. *)
Fixpoint le_bytes (n : nat) (z : Z) : list byte :=
  match n with
  | O => []
  | S n' => byte_of_Z z :: le_bytes n' (Z.shiftr z 8)
  end.

(** The unsigned integer a little-endian byte sequence denotes. *)
Fixpoint le_value (bs : list byte) : Z :=
  match bs with
  | [] => 0
  | b :: bs' => byte_to_Z b + 256 * le_value bs'
  end.

Definition size (buf : t) : Z := Z.of_nat (length buf).

(** The bounds check of every read and write: [n] bytes at [offset]. *)
Definition in_bounds (buf : t) (offset : Z) (n : nat) : bool :=
  (0 <=? offset) && (offset + Z.of_nat n <=? size buf).

Definition slice (buf : t) (offset : Z) (n : nat) : error + list byte :=
  if in_bounds buf offset n
  then inr (take n (drop (Z.to_nat offset) buf))
  else inl OutOfRange.

Definition splice (buf : t) (offset : Z) (bs : list byte) : error + t :=
  if in_bounds buf offset (length bs)
  then inr (take (Z.to_nat offset) buf ++ bs
            ++ drop (Z.to_nat offset + length bs) buf)
  else inl OutOfRange.

(** [Buffer.allocUnsafe(size)]: the content is unspecified; [garbage] is
    what the allocator happens to return. *)
Definition allocUnsafe (kMaxLength : Z) (garbage : byte) (n : Z) : error + t :=
  if (0 <=? n) && (n <=? kMaxLength)
  then inr (replicate (Z.to_nat n) garbage)
  else inl OutOfRange.

Definition readUInt8 (buf : t) (offset : Z) : error + Z :=
  match slice buf offset 1 with
  | inr bs => inr (le_value bs)
  | inl e => inl e
  end.

Definition readUInt32LE (buf : t) (offset : Z) : error + Z :=
  match slice buf offset 4 with
  | inr bs => inr (le_value bs)
  | inl e => inl e
  end.

Definition readFloatLE (buf : t) (offset : Z) : error + number :=
  match slice buf offset 4 with
  | inr bs => inr (Float32.value (le_value bs))
  | inl e => inl e
  end.

(** [value = +value; checkInt(value, 0, max)] followed by the conversion
    of the typed-array store: the integer written for a number, or the
    range error.  NaN passes the comparison and is stored as 0; a fraction
    is truncated. *)
Definition checkInt (v : number) (max : Z) : error + Z :=
  match v with
  | Int z => if (0 <=? z) && (z <=? max) then inr z else inl OutOfRange
  | NegZero | NaN => inr 0
  | Frac true _ _ => inl OutOfRange
  | Frac false m k =>
      let z := Z.shiftr (Z.pos m) (Z.pos k) in
      if z <? max then inr z else inl OutOfRange
  | Inf _ => inl OutOfRange
  end.

Definition writeUInt8 (buf : t) (v : number) (offset : Z) : error + t :=
  match checkInt v 0xff with
  | inr z => splice buf offset (le_bytes 1 z)
  | inl e => inl e
  end.

Definition writeUInt32LE (buf : t) (v : number) (offset : Z) : error + t :=
  match checkInt v 0xffffffff with
  | inr z => splice buf offset (le_bytes 4 z)
  | inl e => inl e
  end.

Definition writeFloatLE (buf : t) (v : number) (offset : Z) : error + t :=
  splice buf offset (le_bytes 4 (Float32.bits v)).

(** [buffer.fill(0, start, end)]. *)
Definition fill0 (buf : t) (start stop : Z) : error + t :=
  splice buf start (replicate (Z.to_nat (stop - start)) x00).

End Buffer.

(** ** JavaScript values *)

(** Objects are finite maps from property names to values: the map of an
    object holds every property that a read finds on it, own or inherited.
    A function is known by a name; what calling it does belongs to the
    [Host].  Objects are immutable as values: the only object [index.js]
    mutates is the engine's index, whose state lives in the host. *)
Inductive value :=
| Undefined
| Null
| Bool (b : bool)
| Num (n : number)
| Str (s : string)
| Arr (items : list value)
| Obj (props : gmap string value)
| Fun (f : string)
| Exn (e : error).

(** [typeof v]. *)
Definition typeof (v : value) : string :=
  match v with
  | Undefined => "undefined"
  | Null | Arr _ | Obj _ | Exn _ => "object"
  | Bool _ => "boolean"
  | Num _ => "number"
  | Str _ => "string"
  | Fun _ => "function"
  end.

(** ToBoolean. *)
Definition truthy (v : value) : bool :=
  match v with
  | Undefined | Null => false
  | Bool b => b
  | Num n => Number.truthy n
  | Str s => negb (String.eqb s "")
  | Arr _ | Obj _ | Fun _ | Exn _ => true
  end.

(** [a || b]. *)
Definition or_else (a b : value) : value := if truthy a then a else b.

Definition isArray (v : value) : bool :=
  match v with Arr _ => true | _ => false end.

(** [v.p] for the property names the code reads.  Reading a property of
    [undefined] or [null] throws; a primitive, a function or an array has
    none of the named properties except [length]. *)
Definition get (v : value) (p : string) : error + value :=
  match v with
  | Undefined | Null => inl NoProperties
  | Obj props => inr (default Undefined (props !! p))
  | Arr items =>
      inr (if String.eqb p "length"
           then Num (Int (Z.of_nat (length items))) else Undefined)
  | Str s =>
      inr (if String.eqb p "length"
           then Num (Int (Z.of_nat (String.length s))) else Undefined)
  | Bool _ | Num _ | Fun _ | Exn _ => inr Undefined
  end.

(** [a !== b] where [b] is a number: used for the length tests. *)
Definition strict_neq_num (a : value) (b : number) : bool :=
  match a with
  | Num n => negb (Number.strict_eq n b)
  | _ => true
  end.

(** ** Text files

    The content of a text file is kept as the JSON document it denotes:
    [JSON.parse] either yields that document or throws a [SyntaxError].
    [JSON.stringify] writes a value as the document that parsing gives back:
    a non-finite number becomes [null], negative zero becomes [0], an
    [undefined] or function member of an object is left out and one of an
    array becomes [null]. *)
Inductive text :=
| JSONText (doc : value)
| Garbled.

Definition json_number (n : number) : value :=
  match n with
  | NaN | Inf _ => Null
  | NegZero => Num (Int 0)
  | _ => Num n
  end.

Fixpoint to_json (v : value) : option value :=
  match v with
  | Undefined | Fun _ => None
  | Null => Some Null
  | Bool b => Some (Bool b)
  | Num n => Some (json_number n)
  | Str s => Some (Str s)
  | Arr items => Some (Arr (map (fun x => default Null (to_json x)) items))
  | Obj props => Some (Obj (omap to_json props))
  | Exn _ => Some (Obj ∅)
  end.

(** (A value that [JSON.stringify] maps to [undefined] is not written by
    [index.js], whose [data] is always an object.) *)
Definition JSON_stringify (v : value) : text :=
  match to_json v with
  | Some doc => JSONText doc
  | None => Garbled
  end.

Definition JSON_parse (content : text) : error + value :=
  match content with
  | JSONText doc => inr doc
  | Garbled => inl SyntaxError
  end.

(** ** The host: engine, file system and function values

    Everything [index.js] calls but does not define.  A function value is
    called through the host, at the type its call site uses the result at:
    a count ([getNumDimensions], [getCurrentCount], [getMaxElements]), the
    labels ([getUsedLabels]), a point ([getPoint], after [Array.from]),
    nothing ([initIndex], [addPoint], the logger's sinks) or a new object
    ([new HierarchicalNSW]).  Each call may throw and may change the state
    of the host. *)
Class Host := {
  hstate : Type;
  kMaxLength : Z;                       (* buffer.constants.MAX_LENGTH *)
  garbage : byte;                       (* content of uninitialised memory *)
  call_count : string -> value -> hstate -> (error + Z) * hstate;
  call_labels : string -> value -> hstate -> (error + list number) * hstate;
  call_point : string -> value -> number -> hstate -> (error + list number) * hstate;
  call_void : string -> value -> list value -> hstate -> (error + unit) * hstate;
  construct : string -> list value -> hstate -> (error + value) * hstate;
  fs_access : string -> hstate -> (error + unit) * hstate;
  fs_readFile : string -> hstate -> (error + Buffer.t) * hstate;
  fs_readFile_utf8 : string -> hstate -> (error + text) * hstate;
  fs_writeFile : string -> Buffer.t -> hstate -> (error + unit) * hstate;
  fs_writeFile_utf8 : string -> text -> hstate -> (error + unit) * hstate;
}.

(** The calls the code makes through function values and its requests to
    the file system, in order.  A call records the name the function was
    read under ([addPoint], [logger.log], ...) and the function found
    there. *)
Inductive event :=
| Call (name f : string) (args : list value)
| New (name f : string) (args : list value)
| Access (filename : string)
| ReadFile (filename : string)
| ReadText (filename : string)
| WriteFile (filename : string) (data : Buffer.t)
| WriteText (filename : string) (data : text).

Section Program.
Context `{Host}.

(** The state a call runs in: the module variable [logger], the events so
    far, and the host's own state. *)
Record state := State {
  logger : gmap string value;
  trace : list event;
  host : hstate;
}.

(** A computation returns a result or throws, and changes the state. *)
Definition M (A : Type) : Type := state -> (error + A) * state.

Definition ret {A} (a : A) : M A := fun s => (inr a, s).
Definition throw {A} (e : error) : M A := fun s => (inl e, s).
Definition bind {A B} (m : M A) (k : A -> M B) : M B :=
  fun s => match m s with
           | (inr a, s') => k a s'
           | (inl e, s') => (inl e, s')
           end.
(** [try { m } catch (error) { handler }]. *)
Definition try_catch {A} (m : M A) (handler : error -> M A) : M A :=
  fun s => match m s with
           | (inr a, s') => (inr a, s')
           | (inl e, s') => handler e s'
           end.
(** A pure step that may throw. *)
Definition lift {A} (r : error + A) : M A := fun s => (r, s).
(** [if (c) throw e]. *)
Definition throw_if (c : bool) (e : error) : M unit :=
  if c then throw e else ret tt.

(** A request to the host: noted in the trace, then answered. *)
Definition ask {A} (ev : event) (h : hstate -> (error + A) * hstate) : M A :=
  fun s => let '(r, h') := h (host s) in
           (r, State (logger s) (trace s ++ [ev]) h').

End Program.

Declare Scope js_scope.
Delimit Scope js_scope with js.
Notation "x <- m ;; k" := (bind m (fun x => k))
  (at level 100, m at next level, right associativity) : js_scope.
Notation "m ;;; k" := (bind m (fun _ => k))
  (at level 100, right associativity) : js_scope.
Local Open Scope js_scope.

Section Calls.
Context `{Host}.

(** The one function value whose body is in [index.js]: [() => {}]. *)
Definition noop : string := "() => {}".

(** A call of [() => {}]: noted in the trace, and nothing else. *)
Definition call_noop (ev : event) : M unit :=
  fun s => (inr tt, State (logger s) (trace s ++ [ev]) (host s)).

(** [callee(...args)] for a callee read as [what], with a result that is
    not used. *)
Definition invoke (what : string) (callee this : value) (args : list value) : M unit :=
  match callee with
  | Fun f =>
      if String.eqb f noop then call_noop (Call what f args)
      else ask (Call what f args) (call_void f this args)
  | _ => throw (NotAFunction what)
  end.

(** [obj.name(...args)], result not used. *)
Definition method (obj : value) (name : string) (args : list value) : M unit :=
  callee <- lift (get obj name) ;;
  invoke name callee obj args.

(** [obj.name()] returning a count. *)
Definition method_count (obj : value) (name : string) : M Z :=
  callee <- lift (get obj name) ;;
  match callee with
  | Fun f => ask (Call name f []) (call_count f obj)
  | _ => throw (NotAFunction name)
  end.

(** [obj.name()] returning the labels. *)
Definition method_labels (obj : value) (name : string) : M (list number) :=
  callee <- lift (get obj name) ;;
  match callee with
  | Fun f => ask (Call name f []) (call_labels f obj)
  | _ => throw (NotAFunction name)
  end.

(** [obj.name(label)] returning a point. *)
Definition method_point (obj : value) (name : string) (label : number) : M (list number) :=
  callee <- lift (get obj name) ;;
  match callee with
  | Fun f => ask (Call name f [Num label]) (call_point f obj label)
  | _ => throw (NotAFunction name)
  end.

(** [new obj.name(...args)]. *)
Definition method_new (obj : value) (name : string) (args : list value) : M value :=
  callee <- lift (get obj name) ;;
  match callee with
  | Fun f => ask (New name f args) (construct f args)
  | _ => throw (NotAFunction name)
  end.

(** [logger.log(message)] and [logger.error(message, error)]. *)
Definition logger_log (message : string) : M unit :=
  fun s => invoke "logger.log" (default Undefined (logger s !! "log"))
             (Obj (logger s)) [Str message] s.

Definition logger_error (message : string) (e : error) : M unit :=
  fun s => invoke "logger.error" (default Undefined (logger s !! "error"))
             (Obj (logger s)) [Str message; Exn e] s.

End Calls.

(** ** Strings *)

(** Decimal rendering of an integer inside a template literal. *)
Definition dec (z : Z) : string := NilZero.string_of_int (Z.to_int z).

(** White space as [String.prototype.trim] sees it, for code units below
    256: TAB, LF, VT, FF, CR, space and the no-break space. *)
Definition is_whitespace (c : ascii) : bool :=
  let n := nat_of_ascii c in
  ((9 <=? n)%nat && (n <=? 13)%nat) || (n =? 32)%nat || (n =? 160)%nat.

Fixpoint trimStart (s : string) : string :=
  match s with
  | String c s' => if is_whitespace c then trimStart s' else s
  | EmptyString => EmptyString
  end.

Fixpoint trimEnd (s : string) : string :=
  match s with
  | EmptyString => EmptyString
  | String c s' =>
      match trimEnd s' with
      | EmptyString => if is_whitespace c then EmptyString else String c EmptyString
      | t => String c t
      end
  end.

Definition trim (s : string) : string := trimEnd (trimStart s).

Definition endsWith (s suffix : string) : bool :=
  let n := String.length s in
  let k := String.length suffix in
  (k <=? n)%nat && String.eqb (String.substring (n - k) k s) suffix.

(** ** The data of [index.js] *)

(** A vector as [extractVectorsFromIndex] builds it: [{ label, point }]. *)
Record VectorRecord := { label : number; point : list number }.

(** The optional [metadata] argument of [saveIndexToFile]:
    [(spaceName, maxElements, m, efConstruction, randomSeed)], each of
    which may be missing. *)
Module Options.
Record t := {
  spaceName : option string;
  maxElements : option number;
  m : option number;
  efConstruction : option number;
  randomSeed : option number;
}.
(** [metadata = {}]. *)
Definition empty : t := Build_t None None None None None.
End Options.

(** The [metadata] object that the load functions return. *)
Module Metadata.
Record t := {
  spaceName : value;
  numDimensions : value;
  maxElements : value;
  m : value;
  efConstruction : value;
  randomSeed : value;
}.
End Metadata.

(** [o || d] for an optional string and for an optional number. *)
Definition str_or (o : option string) (d : string) : string :=
  match o with
  | Some s => if String.eqb s "" then d else s
  | None => d
  end.

Definition num_or (o : option number) (d : number) : number :=
  match o with
  | Some n => if Number.truthy n then n else d
  | None => d
  end.

(** The JavaScript value of a vector record and of the [vectors] array. *)
Definition record_value (r : VectorRecord) : value :=
  Obj (<["label" := Num (label r)]>
       (<["point" := Arr (map Num (point r))]> ∅)).

Definition vectors_value (vectors : list VectorRecord) : value :=
  Arr (map record_value vectors).

(** Own enumerable properties, as object spread copies them. *)
Definition indexed (items : list value) : gmap string value :=
  list_to_map (imap (fun i v => (dec (Z.of_nat i), v)) items).

Definition spread (v : value) : gmap string value :=
  match v with
  | Obj props => props
  | Arr items => indexed items
  | Str s => indexed (map (fun c => Str (String c EmptyString)) (String.list_ascii_of_string s))
  | Undefined | Null | Bool _ | Num _ | Fun _ | Exn _ => ∅
  end.

(** ** The functions of [index.js] *)

(** [const defaultLogger = { log: () => {}, error: console.error }]. *)
Definition defaultLogger : gmap string value :=
  <["log" := Fun noop]> (<["error" := Fun "console.error"]> ∅).

Section IndexJs.
Context `{Host}.

(** [let logger = defaultLogger]: the state before any call. *)
Definition initial (h : hstate) : state := State defaultLogger [] h.

(** [logger = { ...defaultLogger, ...customLogger }]: the later spread
    wins, so the union is biased towards [customLogger]. *)
Definition setLogger (customLogger : value) : M unit :=
  fun s => (inr tt, State (spread customLogger ∪ defaultLogger) (trace s) (host s)).

(** The body of [for (const label of usedLabels)]; [vectors.push] appends. *)
Fixpoint extract_loop (index : value) (usedLabels : list number)
    (vectors : list VectorRecord) : M (list VectorRecord) :=
  match usedLabels with
  | [] => ret vectors
  | label :: rest =>
      point <- method_point index "getPoint" label ;;
      extract_loop index rest (vectors ++ [{| label := label; point := point |}])
  end.

Definition extractVectorsFromIndex (index : value) : M (list VectorRecord) :=
  try_catch
    (usedLabels <- method_labels index "getUsedLabels" ;;
     extract_loop index usedLabels [])
    (fun error => throw (ExtractFailed error)).

Definition is_function (v : value) : bool := String.eqb (typeof v) "function".

Definition validateIndex (index : value) : M unit :=
  throw_if (negb (truthy index)) IndexRequired ;;;
  getNumDimensions <- lift (get index "getNumDimensions") ;;
  getCurrentCount <- lift (get index "getCurrentCount") ;;
  getUsedLabels <- lift (get index "getUsedLabels") ;;
  getPoint <- lift (get index "getPoint") ;;
  throw_if (negb (is_function getNumDimensions)
            || negb (is_function getCurrentCount)
            || negb (is_function getUsedLabels)
            || negb (is_function getPoint)) MissingMethods.

Definition validateFilename (filename : value) : M unit :=
  throw_if (negb (truthy filename) || negb (String.eqb (typeof filename) "string"))
    FilenameNotString ;;;
  match filename with
  | Str s => throw_if (String.length (trim s) =? 0)%nat FilenameEmpty
  | _ => ret tt
  end.

(** The string that a value accepted by [validateFilename] is. *)
Definition filename_string (filename : value) : string :=
  match filename with Str s => s | _ => "" end.

(** [metadata.maxElements || index.getMaxElements()]. *)
Definition maxElements_or_index (metadata : Options.t) (index : value) : M number :=
  match Options.maxElements metadata with
  | Some n =>
      if Number.truthy n then ret n
      else (c <- method_count index "getMaxElements" ;; ret (Int c))
  | None => c <- method_count index "getMaxElements" ;; ret (Int c)
  end.

(** Lines 172-182 of [saveIndexJSON]: the object literal [data]. *)
Definition build_document (index : value) (metadata : Options.t)
    (numDimensions : Z) (vectors : list VectorRecord) : M value :=
  maxElements <- maxElements_or_index metadata index ;;
  ret (Obj (
    <["version" := Num (Int 1)]> (
    <["spaceName" := Str (str_or (Options.spaceName metadata) "l2")]> (
    <["numDimensions" := Num (Int numDimensions)]> (
    <["maxElements" := Num maxElements]> (
    <["m" := Num (num_or (Options.m metadata) (Int 16))]> (
    <["efConstruction" := Num (num_or (Options.efConstruction metadata) (Int 200))]> (
    <["randomSeed" := Num (num_or (Options.randomSeed metadata) (Int 100))]> (
    <["numVectors" := Num (Int (Z.of_nat (length vectors)))]> (
    <["vectors" := vectors_value vectors]> ∅)))))))))).

Definition saveIndexJSON (index : value) (filename : string) (metadata : Options.t)
    (numDimensions : Z) (vectors : list VectorRecord) : M unit :=
  data <- build_document index metadata numDimensions vectors ;;
  try_catch
    (ask (WriteText filename (JSON_stringify data))
         (fs_writeFile_utf8 filename (JSON_stringify data)) ;;;
     logger_log ("Index saved to " +:+ filename +:+ " (JSON format, "
                 +:+ dec (Z.of_nat (length vectors)) +:+ " vectors)"))
    (fun error => throw (WriteJSONFailed error)).

(** [spaceNameMap[metadata.spaceName || 'l2'] || 0] with
    [spaceNameMap = { 'l2': 0, 'ip': 1, 'cosine': 2 }].  (A name inherited
    from [Object.prototype] reads a function, which [writeUInt8] stores as
    0 like the default.) *)
Definition spaceNameCode_of (name : string) : number :=
  if String.eqb name "l2" then Int 0
  else if String.eqb name "ip" then Int 1
  else if String.eqb name "cosine" then Int 2
  else Int 0.

(** [for (const value of point)]: check and write one component.  The
    components are numbers, so [typeof value !== 'number'] is false and
    the test is [!isFinite(value)]. *)
Fixpoint write_point (buffer : Buffer.t) (offset : Z) (point : list number)
    : error + (Buffer.t * Z) :=
  match point with
  | [] => inr (buffer, offset)
  | value :: rest =>
      if negb (isFinite value) then inl (InvalidVectorValue value)
      else match Buffer.writeFloatLE buffer value offset with
           | inr buffer' => write_point buffer' (offset + 4) rest
           | inl e => inl e
           end
  end.

(** [for (const { label, point } of vectors)]. *)
Fixpoint write_vectors (numDimensions : Z) (buffer : Buffer.t) (offset : Z)
    (vectors : list VectorRecord) : error + (Buffer.t * Z) :=
  match vectors with
  | [] => inr (buffer, offset)
  | r :: rest =>
      if negb (Z.of_nat (length (point r)) =? numDimensions)
      then inl (DimensionMismatch numDimensions (Z.of_nat (length (point r))))
      else match Buffer.writeUInt32LE buffer (label r) offset with
           | inl e => inl e
           | inr buffer1 =>
               match write_point buffer1 (offset + 4) (point r) with
               | inl e => inl e
               | inr (buffer2, offset2) =>
                   write_vectors numDimensions buffer2 offset2 rest
               end
           end
  end.

(** Lines 214-241 of [saveIndexBinary]: the buffer is allocated, then the
    header and the vectors are written at a moving [offset]. *)
Definition build_buffer (index : value) (metadata : Options.t)
    (numDimensions : Z) (vectors : list VectorRecord) : M Buffer.t :=
  let spaceNameCode := spaceNameCode_of (str_or (Options.spaceName metadata) "l2") in
  let headerSize := 40 in
  let reservedSize := 14 in
  let vectorSize := 4 + numDimensions * 4 in
  let bufferSize := headerSize + Z.of_nat (length vectors) * vectorSize in
  buffer <- lift (Buffer.allocUnsafe kMaxLength garbage bufferSize) ;;
  let offset := 0 in
  buffer <- lift (Buffer.writeUInt8 buffer (Int 1) offset) ;;
  let offset := offset + 1 in
  buffer <- lift (Buffer.writeUInt8 buffer spaceNameCode offset) ;;
  let offset := offset + 1 in
  buffer <- lift (Buffer.writeUInt32LE buffer (Int numDimensions) offset) ;;
  let offset := offset + 4 in
  maxElements <- maxElements_or_index metadata index ;;
  buffer <- lift (Buffer.writeUInt32LE buffer maxElements offset) ;;
  let offset := offset + 4 in
  buffer <- lift (Buffer.writeUInt32LE buffer
                    (num_or (Options.m metadata) (Int 16)) offset) ;;
  let offset := offset + 4 in
  buffer <- lift (Buffer.writeUInt32LE buffer
                    (num_or (Options.efConstruction metadata) (Int 200)) offset) ;;
  let offset := offset + 4 in
  buffer <- lift (Buffer.writeUInt32LE buffer
                    (num_or (Options.randomSeed metadata) (Int 100)) offset) ;;
  let offset := offset + 4 in
  buffer <- lift (Buffer.writeUInt32LE buffer
                    (Int (Z.of_nat (length vectors))) offset) ;;
  let offset := offset + 4 in
  buffer <- lift (Buffer.fill0 buffer offset (offset + reservedSize)) ;;
  let offset := offset + reservedSize in
  written <- lift (write_vectors numDimensions buffer offset vectors) ;;
  ret (fst written).

Definition saveIndexBinary (index : value) (filename : string) (metadata : Options.t)
    (numDimensions : Z) (vectors : list VectorRecord) : M unit :=
  let bufferSize := 40 + Z.of_nat (length vectors) * (4 + numDimensions * 4) in
  try_catch
    (buffer <- build_buffer index metadata numDimensions vectors ;;
     ask (WriteFile filename buffer) (fs_writeFile filename buffer) ;;;
     logger_log ("Index saved to " +:+ filename +:+ " (binary format, "
                 +:+ dec (Z.of_nat (length vectors)) +:+ " vectors, "
                 +:+ dec bufferSize +:+ " bytes)"))
    (fun error => throw (WriteBinaryFailed error)).

Definition isBinary (filename : string) : bool :=
  endsWith filename ".bin" || endsWith filename ".dat".

Definition saveIndexToFile (index filename : value) (metadata : Options.t) : M unit :=
  validateIndex index ;;;
  validateFilename filename ;;;
  let name := filename_string filename in
  try_catch
    (numDimensions <- method_count index "getNumDimensions" ;;
     numVectors <- method_count index "getCurrentCount" ;;
     throw_if (numVectors =? 0) EmptyIndex ;;;
     vectors <- extractVectorsFromIndex index ;;
     if isBinary name
     then saveIndexBinary index name metadata numDimensions vectors
     else saveIndexJSON index name metadata numDimensions vectors)
    (fun error =>
       logger_error ("Failed to save index to " +:+ name +:+ ":") error ;;;
       throw error).

End IndexJs.

Section IndexJsLoad.
Context `{Host}.

(** [['l2', 'ip', 'cosine'].includes(v)]. *)
Definition is_space_name (v : value) : bool :=
  match v with
  | Str s => String.eqb s "l2" || String.eqb s "ip" || String.eqb s "cosine"
  | _ => false
  end.

(** [typeof v !== 'number' || v <= 0]. *)
Definition not_positive_number (v : value) : bool :=
  match v with
  | Num n => Number.le0 n
  | _ => true
  end.

(** [!Array.isArray(point) || point.length !== numDimensions]. *)
Definition bad_point (point numDimensions : value) : bool :=
  match point with
  | Arr items => strict_neq_num numDimensions (Int (Z.of_nat (length items)))
  | _ => true
  end.

(** [for (const { label, point } of data.vectors)] in [loadIndexJSON]. *)
Fixpoint add_vectors (index numDimensions : value) (vectors : list value) : M unit :=
  match vectors with
  | [] => ret tt
  | entry :: rest =>
      label <- lift (get entry "label") ;;
      point <- lift (get entry "point") ;;
      throw_if (negb (String.eqb (typeof label) "number")) InvalidLabel ;;;
      throw_if (bad_point point numDimensions) InvalidVector ;;;
      method index "addPoint" [point; label; Bool false] ;;;
      add_vectors index numDimensions rest
  end.

(** The elements of [data.vectors] once it is known to be an array. *)
Definition items_of (v : value) : list value :=
  match v with Arr items => items | _ => [] end.

(** [loadIndexJSON] from the parsed [data] on (lines 304-353). *)
Definition load_document (hnswlib : value) (filename : string) (data : value)
    : M (value * Metadata.t) :=
  vectors <- lift (get data "vectors") ;;
  throw_if (negb (truthy vectors) || negb (isArray vectors)) MissingVectors ;;;
  numDimensions <- lift (get data "numDimensions") ;;
  throw_if (not_positive_number numDimensions) InvalidNumDimensionsJSON ;;;
  spaceName <- lift (get data "spaceName") ;;
  throw_if (negb (truthy spaceName) || negb (is_space_name spaceName)) InvalidSpaceName ;;;
  try_catch
    (index <- method_new hnswlib "HierarchicalNSW" [spaceName; numDimensions; Str ""] ;;
     maxElements <- lift (get data "maxElements") ;;
     m <- lift (get data "m") ;;
     efConstruction <- lift (get data "efConstruction") ;;
     randomSeed <- lift (get data "randomSeed") ;;
     method index "initIndex"
       [or_else maxElements (Num (Int 100)); or_else m (Num (Int 16));
        or_else efConstruction (Num (Int 200)); or_else randomSeed (Num (Int 100))] ;;;
     add_vectors index numDimensions (items_of vectors) ;;;
     logger_log ("Index loaded from " +:+ filename +:+ " (JSON format, "
                 +:+ dec (Z.of_nat (length (items_of vectors))) +:+ " vectors)") ;;;
     ret (index,
          {| Metadata.spaceName := spaceName;
             Metadata.numDimensions := numDimensions;
             Metadata.maxElements := or_else maxElements (Num (Int 100));
             Metadata.m := or_else m (Num (Int 16));
             Metadata.efConstruction := or_else efConstruction (Num (Int 200));
             Metadata.randomSeed := or_else randomSeed (Num (Int 100)) |}))
    (fun error => throw (RecreateFailed error)).

Definition loadIndexJSON (hnswlib : value) (filename : string) : M (value * Metadata.t) :=
  data <- try_catch
            (content <- ask (ReadText filename) (fs_readFile_utf8 filename) ;;
             lift (JSON_parse content))
            (fun error =>
               match error with
               | SyntaxError => throw (InvalidJSON error)
               | _ => throw (ReadFailed error)
               end) ;;
  load_document hnswlib filename data.

(** [spaceNameMap[spaceNameCode] || 'l2'] with
    [spaceNameMap = ['l2', 'ip', 'cosine']]. *)
Definition spaceName_of (spaceNameCode : Z) : string :=
  default "l2" (["l2"; "ip"; "cosine"] !! Z.to_nat spaceNameCode).

(** [for (let j = 0; j < numDimensions; j++)]: [todo] iterations are left,
    [j] is the current one. *)
Fixpoint read_point (buffer : Buffer.t) (i : Z) (todo : nat) (j offset : Z)
    (point : list value) : error + (list value * Z) :=
  match todo with
  | O => inr (point, offset)
  | S todo' =>
      if Buffer.size buffer <? offset + 4 then inl (VectorDimEOF i j)
      else match Buffer.readFloatLE buffer offset with
           | inl e => inl e
           | inr x => read_point buffer i todo' (j + 1) (offset + 4) (point ++ [Num x])
           end
  end.

(** [for (let i = 0; i < numVectors; i++)]: [todo] iterations are left,
    [i] is the current one. *)
Fixpoint read_vectors (index : value) (buffer : Buffer.t) (numDimensions : Z)
    (todo : nat) (i offset : Z) : M unit :=
  match todo with
  | O => ret tt
  | S todo' =>
      throw_if (Buffer.size buffer <? offset + 4) (VectorEOF i) ;;;
      label <- lift (Buffer.readUInt32LE buffer offset) ;;
      let offset := offset + 4 in
      read <- lift (read_point buffer i (Z.to_nat numDimensions) 0 offset []) ;;
      let '(point, offset) := read in
      method index "addPoint" [Arr point; Num (Int label); Bool false] ;;;
      read_vectors index buffer numDimensions todo' (i + 1) offset
  end.

(** [loadIndexBinary] from the [buffer] on (lines 371-452). *)
Definition load_buffer (hnswlib : value) (filename : string) (buffer : Buffer.t)
    : M (value * Metadata.t) :=
  let minSize := 40 in
  throw_if (Buffer.size buffer <? minSize) (FileTooSmall (Buffer.size buffer)) ;;;
  let offset := 0 in
  version <- lift (Buffer.readUInt8 buffer offset) ;;
  let offset := offset + 1 in
  throw_if (negb (version =? 1)) (UnsupportedVersion version) ;;;
  throw_if (Buffer.size buffer <=? offset) HeaderEOF ;;;
  spaceNameCode <- lift (Buffer.readUInt8 buffer offset) ;;
  let offset := offset + 1 in
  let spaceName := spaceName_of spaceNameCode in
  throw_if (Buffer.size buffer <? offset + 24) HeaderEOF ;;;
  numDimensions <- lift (Buffer.readUInt32LE buffer offset) ;;
  let offset := offset + 4 in
  maxElements <- lift (Buffer.readUInt32LE buffer offset) ;;
  let offset := offset + 4 in
  m <- lift (Buffer.readUInt32LE buffer offset) ;;
  let offset := offset + 4 in
  efConstruction <- lift (Buffer.readUInt32LE buffer offset) ;;
  let offset := offset + 4 in
  randomSeed <- lift (Buffer.readUInt32LE buffer offset) ;;
  let offset := offset + 4 in
  numVectors <- lift (Buffer.readUInt32LE buffer offset) ;;
  let offset := offset + 4 in
  let offset := offset + 14 in
  throw_if ((numDimensions <=? 0) || (100000 <? numDimensions))
    (InvalidNumDimensions numDimensions) ;;;
  throw_if ((numVectors <? 0) || (100000000 <? numVectors))
    (InvalidNumVectors numVectors) ;;;
  let vectorSize := 4 + numDimensions * 4 in
  let expectedSize := 40 + numVectors * vectorSize in
  throw_if (Buffer.size buffer <? expectedSize)
    (SizeMismatch expectedSize (Buffer.size buffer)) ;;;
  try_catch
    (index <- method_new hnswlib "HierarchicalNSW"
                [Str spaceName; Num (Int numDimensions); Str ""] ;;
     method index "initIndex"
       [Num (Int maxElements); Num (Int m); Num (Int efConstruction);
        Num (Int randomSeed)] ;;;
     read_vectors index buffer numDimensions (Z.to_nat numVectors) 0 offset ;;;
     logger_log ("Index loaded from " +:+ filename +:+ " (binary format, "
                 +:+ dec numVectors +:+ " vectors)") ;;;
     ret (index,
          {| Metadata.spaceName := Str spaceName;
             Metadata.numDimensions := Num (Int numDimensions);
             Metadata.maxElements := Num (Int maxElements);
             Metadata.m := Num (Int m);
             Metadata.efConstruction := Num (Int efConstruction);
             Metadata.randomSeed := Num (Int randomSeed) |}))
    (fun error => throw (RecreateFailed error)).

Definition loadIndexBinary (hnswlib : value) (filename : string) : M (value * Metadata.t) :=
  buffer <- try_catch (ask (ReadFile filename) (fs_readFile filename))
              (fun error => throw (ReadFailed error)) ;;
  load_buffer hnswlib filename buffer.

Definition loadIndexFromFile (hnswlib filename : value) : M (value * Metadata.t) :=
  validateFilename filename ;;;
  let name := filename_string filename in
  HierarchicalNSW <- (if truthy hnswlib then lift (get hnswlib "HierarchicalNSW")
                      else ret Undefined) ;;
  throw_if (negb (truthy hnswlib) || negb (is_function HierarchicalNSW)) InvalidHnswlib ;;;
  try_catch (ask (Access name) (fs_access name))
    (fun _ => throw (FileNotFound name)) ;;;
  try_catch
    (if isBinary name then loadIndexBinary hnswlib name
     else loadIndexJSON hnswlib name)
    (fun error =>
       logger_error ("Failed to load index from " +:+ name +:+ ":") error ;;;
       throw error).

End IndexJsLoad.

(** ** An executable host

    One in-memory index that accepts every call, and an in-memory file
    system.  It is used to run the functions above on concrete inputs. *)
Module MockHost.

Record mstate := {
  dims : Z;
  capacity : Z;
  points : list VectorRecord;
  bin_files : gmap string Buffer.t;
  text_files : gmap string text;
}.

Definition empty : mstate := Build_mstate 0 0 [] ∅ ∅.

(** The object [new HierarchicalNSW(...)] returns, and the module. *)
Definition index_object : value :=
  Obj (list_to_map
         (map (fun name => (name, Fun name))
            ["initIndex"; "addPoint"; "getNumDimensions"; "getCurrentCount";
             "getUsedLabels"; "getPoint"; "getMaxElements"])).

Definition hnswlib : value := Obj {[ "HierarchicalNSW" := Fun "HierarchicalNSW" ]}.

Definition as_int (v : value) : Z :=
  match v with Num (Int z) => z | _ => 0 end.
Definition as_number (v : value) : number :=
  match v with Num n => n | _ => NaN end.

Definition m_count (f : string) (this : value) (s : mstate) : (error + Z) * mstate :=
  (inr (if String.eqb f "getNumDimensions" then dims s
        else if String.eqb f "getCurrentCount" then Z.of_nat (length (points s))
        else capacity s), s).

Definition m_labels (f : string) (this : value) (s : mstate)
    : (error + list number) * mstate :=
  (inr (map label (points s)), s).

Definition m_point (f : string) (this : value) (l : number) (s : mstate)
    : (error + list number) * mstate :=
  (inr (default [] (point <$> list_find (fun r => label r = l) (points s) ≫= Some ∘ snd)), s).

Definition m_void (f : string) (this : value) (args : list value) (s : mstate)
    : (error + unit) * mstate :=
  if String.eqb f "initIndex" then
    (inr tt, Build_mstate (dims s) (as_int (default Undefined (args !! 0%nat)))
               (points s) (bin_files s) (text_files s))
  else if String.eqb f "addPoint" then
    let r := {| label := as_number (default Undefined (args !! 1%nat));
                point := map as_number (items_of (default Undefined (args !! 0%nat))) |} in
    (inr tt, Build_mstate (dims s) (capacity s) (points s ++ [r])
               (bin_files s) (text_files s))
  else (inr tt, s).

Definition m_construct (f : string) (args : list value) (s : mstate)
    : (error + value) * mstate :=
  (inr index_object,
   Build_mstate (as_int (default Undefined (args !! 1%nat))) 0 []
     (bin_files s) (text_files s)).

Definition m_access (name : string) (s : mstate) : (error + unit) * mstate :=
  (match bin_files s !! name, text_files s !! name with
   | None, None => inl (Thrown "ENOENT")
   | _, _ => inr tt
   end, s).

Definition m_readFile (name : string) (s : mstate) : (error + Buffer.t) * mstate :=
  (match bin_files s !! name with
   | Some b => inr b
   | None => inl (Thrown "ENOENT")
   end, s).

Definition m_readFile_utf8 (name : string) (s : mstate) : (error + text) * mstate :=
  (match text_files s !! name with
   | Some t => inr t
   | None => inl (Thrown "ENOENT")
   end, s).

Definition m_writeFile (name : string) (b : Buffer.t) (s : mstate)
    : (error + unit) * mstate :=
  (inr tt, Build_mstate (dims s) (capacity s) (points s)
             (<[name := b]> (bin_files s)) (text_files s)).

Definition m_writeFile_utf8 (name : string) (t : text) (s : mstate)
    : (error + unit) * mstate :=
  (inr tt, Build_mstate (dims s) (capacity s) (points s)
             (bin_files s) (<[name := t]> (text_files s))).

Definition mock : Host := {|
  hstate := mstate;
  kMaxLength := 2 ^ 32;
  garbage := "a"%byte;
  call_count := m_count;
  call_labels := m_labels;
  call_point := m_point;
  call_void := m_void;
  construct := m_construct;
  fs_access := m_access;
  fs_readFile := m_readFile;
  fs_readFile_utf8 := m_readFile_utf8;
  fs_writeFile := m_writeFile;
  fs_writeFile_utf8 := m_writeFile_utf8;
|}.

(** The scenario of the specification and of the repository's example:
    three unit vectors of dimension 3. *)
Definition unit_vectors : list VectorRecord :=
  [ {| label := Int 0; point := [Int 1; Int 0; Int 0] |};
    {| label := Int 1; point := [Int 0; Int 1; Int 0] |};
    {| label := Int 2; point := [Int 0; Int 0; Int 1] |} ].

Definition options : Options.t :=
  {| Options.spaceName := Some "l2";
     Options.maxElements := Some (Int 10);
     Options.m := Some (Int 16);
     Options.efConstruction := Some (Int 200);
     Options.randomSeed := Some (Int 100) |}.

(** The host after [index.initIndex(10, 16, 200, 100)] and the three
    [addPoint] calls of the example. *)
Definition loaded : mstate := Build_mstate 3 10 unit_vectors ∅ ∅.

(** The initial state of the module on the empty host, and on the host
    of the example. *)
Definition start : @state mock := @initial mock empty.
Definition ready : @state mock := @initial mock loaded.

(** The binary encoding of the example. *)
Definition encoded : Buffer.t :=
  Eval vm_compute in
    match fst (@build_buffer mock index_object options 3 unit_vectors ready) with
    | inr buffer => buffer
    | inl _ => []
    end.

End MockHost.

(** ** The binary layout and the rehydration, as the specification words them

    These definitions describe what the code above is compared with: the
    byte layout of section 4.4 and the replay of section 4.5. *)

(** The integer [writeUInt32LE] stores for a number it accepts. *)
Definition stored_u32 (n : number) : Z :=
  match Buffer.checkInt n 0xffffffff with
  | inr z => z
  | inl _ => 0
  end.

(** The 40-byte header. *)
Definition header_bytes (code numDimensions maxElements m efConstruction
    randomSeed numVectors : Z) : list byte :=
  Buffer.le_bytes 1 1 ++ Buffer.le_bytes 1 code
  ++ Buffer.le_bytes 4 numDimensions ++ Buffer.le_bytes 4 maxElements
  ++ Buffer.le_bytes 4 m ++ Buffer.le_bytes 4 efConstruction
  ++ Buffer.le_bytes 4 randomSeed ++ Buffer.le_bytes 4 numVectors
  ++ replicate 14 x00.

(** A point: 4 bytes per component; a record: the label, then the point. *)
Definition point_bytes (p : list number) : list byte :=
  flat_map (fun x => Buffer.le_bytes 4 (Float32.bits x)) p.

Definition record_bytes (r : VectorRecord) : list byte :=
  Buffer.le_bytes 4 (stored_u32 (label r)) ++ point_bytes (point r).

Definition records_bytes (vectors : list VectorRecord) : list byte :=
  flat_map record_bytes vectors.

(** The unsigned 32-bit integer at an offset of a buffer. *)
Definition u32_at (buffer : Buffer.t) (offset : Z) : Z :=
  Buffer.le_value (take 4 (drop (Z.to_nat offset) buffer)).

(** The [n] components of a point that starts at [offset]. *)
Fixpoint point_at (buffer : Buffer.t) (n : nat) (offset : Z) : list value :=
  match n with
  | O => []
  | S n' => Num (Float32.value (u32_at buffer offset))
            :: point_at buffer n' (offset + 4)
  end.

(** The [n] records that start at [offset], each as the arguments
    [(point, label)] of its insertion. *)
Fixpoint records_at (buffer : Buffer.t) (numDimensions : Z) (n : nat) (offset : Z)
    : list (value * value) :=
  match n with
  | O => []
  | S n' =>
      (Arr (point_at buffer (Z.to_nat numDimensions) (offset + 4)),
       Num (Int (u32_at buffer offset)))
      :: records_at buffer numDimensions n' (offset + 4 + 4 * numDimensions)
  end.

(** The size the header announces. *)
Definition expected_size (buffer : Buffer.t) : Z :=
  40 + u32_at buffer 22 * (4 + u32_at buffer 2 * 4).

Section Rehydrate.
Context `{Host}.

(** Insert each record in order, with "replace deleted" disabled. *)
Fixpoint insert_all (index : value) (records : list (value * value)) : M unit :=
  match records with
  | [] => ret tt
  | (point, label) :: rest =>
      method index "addPoint" [point; label; Bool false] ;;;
      insert_all index rest
  end.

(** Construct an index, initialise it once, insert the records. *)
Definition replay (hnswlib : value) (md : Metadata.t)
    (records : list (value * value)) : M value :=
  index <- method_new hnswlib "HierarchicalNSW"
             [Metadata.spaceName md; Metadata.numDimensions md; Str ""] ;;
  method index "initIndex"
    [Metadata.maxElements md; Metadata.m md; Metadata.efConstruction md;
     Metadata.randomSeed md] ;;;
  insert_all index records ;;;
  ret index.

(** The rehydration of a decoded index: the replay, the log line, and the
    index returned with its metadata; a failure is reported as
    'Failed to recreate index'. *)
Definition rehydrate (hnswlib : value) (message : string) (md : Metadata.t)
    (records : list (value * value)) : M (value * Metadata.t) :=
  try_catch
    (index <- replay hnswlib md records ;;
     logger_log message ;;;
     ret (index, md))
    (fun error => throw (RecreateFailed error)).

(** A host whose engine and sinks accept every call: the constructor
    returns an object with [initIndex] and [addPoint], and no call whose
    result is unused throws. *)
Definition cooperative (hnswlib : value) : Prop :=
  (exists f, get hnswlib "HierarchicalNSW" = inr (Fun f)
     /\ forall args h, exists index fi fa h',
          construct f args h = (inr index, h')
          /\ get index "initIndex" = inr (Fun fi)
          /\ get index "addPoint" = inr (Fun fa))
  /\ (forall f this args h, exists h', call_void f this args h = (inr tt, h')).

(** The insertions among the events: the [(point, label)] of each call
    made under the name [addPoint]. *)
Definition insertion (ev : event) : option (value * value) :=
  match ev with
  | Call name _ [point; label; _] =>
      if String.eqb name "addPoint" then Some (point, label) else None
  | _ => None
  end.

Definition inserted (events : list event) : list (value * value) :=
  omap insertion events.

Definition insertions (events : list event) : nat := length (inserted events).

Definition is_construction (ev : event) : bool :=
  match ev with
  | New _ _ _ => true
  | _ => false
  end.

End Rehydrate.

(** The index and the metadata a load returned, and the state it left. *)
Definition returned_index `{Host} (r : (error + value * Metadata.t) * state) : value :=
  match fst r with
  | inr (index, _) => index
  | inl _ => Undefined
  end.

Definition returned_metadata `{Host} (r : (error + value * Metadata.t) * state)
    : Metadata.t :=
  match fst r with
  | inr (_, md) => md
  | inl _ => Metadata.Build_t Undefined Undefined Undefined Undefined Undefined Undefined
  end.

(** A load function decodes as the rehydration of [md] and [records]:
    it is that rehydration; whenever it returns, it returns [md] and has
    inserted exactly [records], in order; and on a cooperative host with a
    callable [logger.log] it does return. *)
Definition decodes_as `{Host} (load : value -> string -> M (value * Metadata.t))
    (message : string -> string) (md : Metadata.t)
    (records : list (value * value)) : Prop :=
  forall (hnswlib : value) (filename : string) (s : state),
    load hnswlib filename s = rehydrate hnswlib (message filename) md records s
    /\ (forall index md' s',
          load hnswlib filename s = (inr (index, md'), s') ->
          md' = md /\ exists events, trace s' = trace s ++ events
                        /\ inserted events = records)
    /\ (cooperative hnswlib ->
        is_function (default Undefined (logger s !! "log")) = true ->
        exists index s', load hnswlib filename s = (inr (index, md), s')).

(** The adapter exposes operation [name]: [typeof index.name === 'function']. *)
Definition exposes (index : value) (name : string) : bool :=
  match get index name with
  | inr v => is_function v
  | inl _ => false
  end.

(** The four operations [validateIndex] looks for. *)
Definition exposes_checked (index : value) : bool :=
  exposes index "getNumDimensions" && exposes index "getCurrentCount"
  && exposes index "getUsedLabels" && exposes index "getPoint".

(** The seven operations of the adapter interface. *)
Definition exposes_all (index : value) : bool :=
  exposes_checked index && exposes index "addPoint"
  && exposes index "initIndex" && exposes index "getMaxElements".

(** The byte at an offset of a buffer. *)
Definition u8_at (buffer : Buffer.t) (offset : Z) : Z :=
  Buffer.le_value (take 1 (drop (Z.to_nat offset) buffer)).

(** A header that passes the length, version, numDimensions and numVectors
    checks of [loadIndexBinary]. *)
Definition header_ok (buffer : Buffer.t) : bool :=
  (40 <=? Buffer.size buffer) && (u8_at buffer 0 =? 1)
  && (0 <? u32_at buffer 2) && (u32_at buffer 2 <=? 100000)
  && (u32_at buffer 22 <=? 100000000).

(** The header check of [loadIndexBinary] that fails first, if any. *)
Definition header_error (buffer : Buffer.t) : option error :=
  if Buffer.size buffer <? 40 then Some (FileTooSmall (Buffer.size buffer))
  else if negb (u8_at buffer 0 =? 1) then Some (UnsupportedVersion (u8_at buffer 0))
  else if (u32_at buffer 2 <=? 0) || (100000 <? u32_at buffer 2)
  then Some (InvalidNumDimensions (u32_at buffer 2))
  else if (u32_at buffer 22 <? 0) || (100000000 <? u32_at buffer 22)
  then Some (InvalidNumVectors (u32_at buffer 22))
  else if Buffer.size buffer <? expected_size buffer
  then Some (SizeMismatch (expected_size buffer) (Buffer.size buffer))
  else None.

(** The metadata and the records a buffer holds. *)
Definition header_metadata (buffer : Buffer.t) : Metadata.t :=
  {| Metadata.spaceName := Str (spaceName_of (u8_at buffer 1));
     Metadata.numDimensions := Num (Int (u32_at buffer 2));
     Metadata.maxElements := Num (Int (u32_at buffer 6));
     Metadata.m := Num (Int (u32_at buffer 10));
     Metadata.efConstruction := Num (Int (u32_at buffer 14));
     Metadata.randomSeed := Num (Int (u32_at buffer 18)) |}.

Definition buffer_records (buffer : Buffer.t) : list (value * value) :=
  records_at buffer (u32_at buffer 2) (Z.to_nat (u32_at buffer 22)) 40.

(** The log lines of the two load functions. *)
Definition loaded_binary (filename : string) (numVectors : Z) : string :=
  "Index loaded from " +:+ filename +:+ " (binary format, "
  +:+ dec numVectors +:+ " vectors)".

Definition loaded_json (filename : string) (numVectors : Z) : string :=
  "Index loaded from " +:+ filename +:+ " (JSON format, "
  +:+ dec numVectors +:+ " vectors)".

(** ** Valid input of the codecs *)

(** A label, and the four numeric options, are unsigned 32-bit integers;
    the options are moreover present and non-zero. *)
Definition is_u32 (n : number) : bool :=
  match n with
  | Int z => (0 <=? z) && (z <? 2 ^ 32)
  | _ => false
  end.

Definition positive_u32 (o : option number) : bool :=
  match o with
  | Some n => is_u32 n && Number.truthy n
  | None => false
  end.

Definition valid_record (numDimensions : Z) (r : VectorRecord) : bool :=
  is_u32 (label r)
  && (Z.of_nat (length (point r)) =? numDimensions)
  && forallb isFinite (point r).

Definition valid_options (metadata : Options.t) : bool :=
  match Options.spaceName metadata with
  | Some name => is_space_name (Str name)
  | None => false
  end
  && positive_u32 (Options.maxElements metadata)
  && positive_u32 (Options.m metadata)
  && positive_u32 (Options.efConstruction metadata)
  && positive_u32 (Options.randomSeed metadata).

(** The value of an optional property. *)
Definition given_number (o : option number) : value :=
  match o with Some n => Num n | None => Undefined end.

Definition given_string (o : option string) : value :=
  match o with Some s => Str s | None => Undefined end.

(** The metadata the caller passed, with the dimension of the index. *)
Definition options_metadata (metadata : Options.t) (numDimensions : Z) : Metadata.t :=
  {| Metadata.spaceName := given_string (Options.spaceName metadata);
     Metadata.numDimensions := Num (Int numDimensions);
     Metadata.maxElements := given_number (Options.maxElements metadata);
     Metadata.m := given_number (Options.m metadata);
     Metadata.efConstruction := given_number (Options.efConstruction metadata);
     Metadata.randomSeed := given_number (Options.randomSeed metadata) |}.

(** A record as the arguments [(point, label)] of its insertion: with the
    components at 32-bit float precision, and with the components as JSON
    writes them. *)
Definition binary_args (r : VectorRecord) : value * value :=
  (Arr (map (fun x => Num (Float32.fround x)) (point r)), Num (label r)).

Definition text_args (r : VectorRecord) : value * value :=
  (Arr (map json_number (point r)), Num (label r)).

(** The header [saveIndexBinary] writes for options that are all given. *)
Definition options_header (metadata : Options.t) (numDimensions numVectors : Z)
    : list byte :=
  header_bytes
    (stored_u32 (spaceNameCode_of (str_or (Options.spaceName metadata) "l2")))
    numDimensions
    (stored_u32 (num_or (Options.maxElements metadata) (Int 0)))
    (stored_u32 (num_or (Options.m metadata) (Int 16)))
    (stored_u32 (num_or (Options.efConstruction metadata) (Int 200)))
    (stored_u32 (num_or (Options.randomSeed metadata) (Int 100)))
    numVectors.

(** ** The text document, as the decoder reads it *)

(** [v.p] when [v] is neither [undefined] nor [null]. *)
Definition prop (v : value) (p : string) : value :=
  match get v p with
  | inr x => x
  | inl _ => Undefined
  end.

(** The three structural checks of [loadIndexJSON]: a [vectors] array, a
    positive [numDimensions], a [spaceName] among the three names. *)
Definition document_ok (doc : value) : bool :=
  match get doc "vectors" with
  | inr vectors =>
      truthy vectors && isArray vectors
      && negb (not_positive_number (prop doc "numDimensions"))
      && truthy (prop doc "spaceName") && is_space_name (prop doc "spaceName")
  | inl _ => false
  end.

Definition document_entries (doc : value) : list value :=
  items_of (prop doc "vectors").

(** The metadata [loadIndexJSON] returns for a document. *)
Definition document_metadata (doc : value) : Metadata.t :=
  {| Metadata.spaceName := prop doc "spaceName";
     Metadata.numDimensions := prop doc "numDimensions";
     Metadata.maxElements := or_else (prop doc "maxElements") (Num (Int 100));
     Metadata.m := or_else (prop doc "m") (Num (Int 16));
     Metadata.efConstruction := or_else (prop doc "efConstruction") (Num (Int 200));
     Metadata.randomSeed := or_else (prop doc "randomSeed") (Num (Int 100)) |}.

(** What the loop throws on an entry instead of inserting it, if anything:
    the entry cannot be destructured, its label is not a number, or its
    point is not an array of [numDimensions] elements. *)
Definition entry_error (numDimensions entry : value) : option error :=
  match get entry "label" with
  | inl e => Some e
  | inr label =>
      if negb (String.eqb (typeof label) "number") then Some InvalidLabel
      else if bad_point (prop entry "point") numDimensions then Some InvalidVector
      else None
  end.

(** An entry as the arguments [(point, label)] of its insertion. *)
Definition entry_args (entry : value) : value * value :=
  (prop entry "point", prop entry "label").

(** ** Sample inputs *)
Module Samples.

(** An adapter with the four operations [validateIndex] looks for and
    nothing else: no [addPoint], no [initIndex], no [getMaxElements]. *)
Definition adapter_four : value :=
  Obj (list_to_map
         (map (fun name => (name, Fun name))
            ["getNumDimensions"; "getCurrentCount"; "getUsedLabels"; "getPoint"])).

(** The options of the example with a random seed of 0. *)
Definition options_seed0 : Options.t :=
  {| Options.spaceName := Some "l2";
     Options.maxElements := Some (Int 10);
     Options.m := Some (Int 16);
     Options.efConstruction := Some (Int 200);
     Options.randomSeed := Some (Int 0) |}.

Definition entry (l : value) (p : list value) : value :=
  Obj (<["label" := l]> (<["point" := Arr p]> ∅)).

(** A document of dimension 2 with the given extra keys and entries. *)
Definition document (extra : list (string * value)) (entries : list value) : value :=
  Obj (list_to_map
         (extra ++ [("version", Num (Int 1)); ("spaceName", Str "l2");
                    ("numDimensions", Num (Int 2)); ("vectors", Arr entries)])).

(** [numVectors] announces five vectors, [vectors] holds one. *)
Definition doc_count5 : value :=
  document [("numVectors", Num (Int 5))]
    [entry (Num (Int 7)) [Num (Int 1); Num (Int 0)]].

(** The key [m] is present, with the value 0. *)
Definition doc_m0 : value :=
  document [("m", Num (Int 0)); ("numVectors", Num (Int 1))]
    [entry (Num (Int 7)) [Num (Int 1); Num (Int 0)]].

(** A valid record followed by one whose label is a string. *)
Definition doc_bad_label : value :=
  document [("numVectors", Num (Int 2))]
    [entry (Num (Int 7)) [Num (Int 1); Num (Int 0)];
     entry (Str "eight") [Num (Int 0); Num (Int 1)]].

Definition bytes (l : list Z) : Buffer.t := map Buffer.byte_of_Z l.

(** A header: version 1, the given space code, dimension 1, maxElements
    10, m 16, efConstruction 200, randomSeed 100, the given count. *)
Definition header (code numVectors : Z) : Buffer.t :=
  bytes ([1; code; 1; 0; 0; 0; 10; 0; 0; 0; 16; 0; 0; 0; 200; 0; 0; 0;
          100; 0; 0; 0; numVectors; 0; 0; 0]
         ++ replicate 14 0).

(** The record (label 5, point [1.0]). *)
Definition record5 : Buffer.t := bytes [5; 0; 0; 0; 0; 0; 128; 63].

(** Space code 7, one record. *)
Definition buffer_code7 : Buffer.t := header 7 1 ++ record5.

(** Two records announced, one present. *)
Definition buffer_truncated : Buffer.t := header 0 2 ++ record5.

(** One record announced and present, three more bytes after it. *)
Definition buffer_trailing : Buffer.t := header 0 1 ++ record5 ++ bytes [9; 9; 9].

(** The options of the example with a random seed of 0 are encoded, in
    the binary form and in the text form, as follows. *)
Definition encoded_seed0 : Buffer.t :=
  Eval vm_compute in
    match fst (@build_buffer MockHost.mock MockHost.index_object options_seed0 3
                 MockHost.unit_vectors MockHost.ready) with
    | inr buffer => buffer
    | inl _ => []
    end.

Definition data_seed0 : value :=
  match fst (@build_document MockHost.mock MockHost.index_object options_seed0 3
               MockHost.unit_vectors MockHost.ready) with
  | inr data => data
  | inl _ => Null
  end.

Definition document_seed0 : value :=
  match JSON_stringify data_seed0 with
  | JSONText doc => doc
  | Garbled => Null
  end.

End Samples.

(** ** File names and file-system requests *)

(** A string without any character other than white space. *)
Fixpoint blank (s : string) : bool :=
  match s with
  | EmptyString => true
  | String c s' => is_whitespace c && blank s'
  end.

(** A file name: a string with a character that is not white space. *)
Definition filename_ok (filename : value) : bool :=
  match filename with
  | Str name => negb (blank name)
  | _ => false
  end.

(** The requests to the file system among the events. *)
Definition is_fs (ev : event) : bool :=
  match ev with
  | Call _ _ _ | New _ _ _ => false
  | Access _ | ReadFile _ | ReadText _ | WriteFile _ _ | WriteText _ _ => true
  end.

Definition fs_requests (events : list event) : list event := filter is_fs events.

Section Frames.
Context `{Host}.

(** From [s] to [s'] the events [events] were added and [logger] was left
    alone. *)
Definition extends (s s' : state) (events : list event) : Prop :=
  logger s' = logger s /\ trace s' = trace s ++ events.

(** A computation that stays away from the file system: whatever its
    outcome, it adds calls and constructions only. *)
Definition quiet {A} (m : M A) : Prop :=
  forall s r s', m s = (r, s') ->
    exists events, extends s s' events /\ fs_requests events = [].

End Frames.

(** A record as a binary load hands it to the engine: the components at
    32-bit float precision. *)
Definition quantised (r : VectorRecord) : VectorRecord :=
  {| label := label r; point := map Float32.fround (point r) |}.

(** ** What the decoders hand to the engine *)

(** An insertion [(point, label)] with a numeric label and a point that is
    an array of [n] elements. *)
Definition checked_insertion (n : Z) (r : value * value) : bool :=
  match r with
  | (Arr items, Num _) => Z.of_nat (length items) =? n
  | _ => false
  end.

(** An insertion of the binary decoder: moreover the label is an unsigned
    32-bit integer and every component is a number. *)
Definition binary_insertion (n : Z) (r : value * value) : bool :=
  match r with
  | (Arr items, Num l) =>
      (Z.of_nat (length items) =? n) && is_u32 l
      && forallb (fun x => String.eqb (typeof x) "number") items
  | _ => false
  end.

(** An unsigned 32-bit integer, as a value. *)
Definition is_u32_value (v : value) : bool :=
  match v with
  | Num n => is_u32 n
  | _ => false
  end.

(** The read that [loadIndexFromFile] asks for, by the end of the name. *)
Definition read_request (name : string) : event :=
  if isBinary name then ReadFile name else ReadText name.

(** A record as the text form gives it back: each component as JSON
    writes it and a parser reads it. *)
Definition as_json_reads (r : VectorRecord) : VectorRecord :=
  {| label := label r;
     point := map (fun x => MockHost.as_number (json_number x)) (point r) |}.

(** The record the in-memory engine stores for an insertion
    [(point, label)]. *)
Definition stored_record (r : value * value) : VectorRecord :=
  {| label := MockHost.as_number (snd r);
     point := map MockHost.as_number (items_of (fst r)) |}.

(** ** The environment set up for the engine *)

(** [global.indexedDB = { open: () => ({ ... }) }]: the stand-in for
    IndexedDB, an object whose one property is a function of
    [index.js]. *)
Definition indexedDB_open : string :=
  "() => ({ onerror: null, onsuccess: null, onupgradeneeded: null, result: ... })".

Definition indexedDB_polyfill : value := Obj {[ "open" := Fun indexedDB_open ]}.

(** [typeof name] for a global name: an undeclared name has the type
    ['undefined'], like a name bound to [undefined]. *)
Definition typeof_global (global : gmap string value) (name : string) : string :=
  typeof (default Undefined (global !! name)).

(** [setupNodeEnvironment], on the properties of [global]. *)
Definition setupNodeEnvironment (global : gmap string value) : gmap string value :=
  let global :=
    if String.eqb (typeof_global global "indexedDB") "undefined"
    then <["indexedDB" := indexedDB_polyfill]> global
    else global in
  if String.eqb (typeof_global global "window") "undefined"
  then <["window" := Obj ∅]> global
  else global.

(** [metadata.maxElements] is missing or falsy. *)
Definition no_maxElements (metadata : Options.t) : bool :=
  match Options.maxElements metadata with
  | Some n => negb (Number.truthy n)
  | None => true
  end.

(** [a || b] for an optional property. *)
Definition own_or (o : option value) (d : value) : value :=
  match o with
  | Some v => if truthy v then v else d
  | None => d
  end.

(** ** Proof steps *)

(** Unfold the monad. *)
Ltac munfold := unfold bind, lift, throw_if, ret, throw, try_catch.

(** An equation between closed terms, checked by evaluating both sides. *)
Ltac by_evaluation :=
  match goal with |- _ = ?b => vm_cast_no_check (@eq_refl _ b) end.

(** * Properties *)

(** ** The binary32 image of some numbers *)

(** A half and a tenth, to exercise the rounding. *)
Example bits_one : Float32.bits (Int 1) = 0x3f800000.
Proof. reflexivity. Qed.
Example bits_half : Float32.bits (Frac false 1 1) = 0x3f000000.
Proof. reflexivity. Qed.
Example bits_minus_two : Float32.bits (Int (-2)) = 0xc0000000.
Proof. reflexivity. Qed.
Example value_half : Float32.value 0x3f000000 = Frac false 1 1.
Proof. reflexivity. Qed.
Example value_six : Float32.value 0x40c00000 = Int 6.
Proof. reflexivity. Qed.
(** 0.1 as a binary64 is 3602879701896397 / 2^55; as a binary32 it is
    0x3dcccccd. *)
Example bits_tenth : Float32.bits (Frac false 3602879701896397 55) = 0x3dcccccd.
Proof. reflexivity. Qed.
Example bits_max_overflow : Float32.bits (Int (2 ^ 128)) = Float32.inf_bits.
Proof. reflexivity. Qed.
Example bits_min_subnormal : Float32.bits (Frac false 1 149) = 1.
Proof. reflexivity. Qed.
Example bits_underflow : Float32.bits (Frac false 1 150) = 0.
Proof. reflexivity. Qed.
Example bits_16777217 : Float32.bits (Int 16777217) = 0x4b800000.
Proof. reflexivity. Qed.
Example bits_16777219 : Float32.bits (Int 16777219) = 0x4b800002.
Proof. reflexivity. Qed.

(** ** Bytes and little-endian integers *)

Lemma byte_to_Z_range (b : byte) : 0 <= Buffer.byte_to_Z b < 256.
Proof.
  unfold Buffer.byte_to_Z. pose proof (Byte.to_N_bounded b). lia.
Qed.

Lemma byte_to_of_Z (z : Z) : Buffer.byte_to_Z (Buffer.byte_of_Z z) = z mod 256.
Proof.
  unfold Buffer.byte_to_Z, Buffer.byte_of_Z.
  assert (Hr : 0 <= z mod 256 < 256) by (apply Z.mod_pos_bound; lia).
  destruct (Byte.of_N (Z.to_N (z mod 256))) as [b|] eqn:E.
  - apply Byte.to_of_N in E. simpl. rewrite E. lia.
  - apply Byte.of_N_None_iff in E. lia.
Qed.

Lemma length_le_bytes (n : nat) (z : Z) : length (Buffer.le_bytes n z) = n.
Proof. revert z. induction n as [|n IH]; intros z; simpl; [|rewrite IH]; done. Qed.

Lemma le_value_range (bs : list byte) :
  0 <= Buffer.le_value bs < 2 ^ (8 * Z.of_nat (length bs)).
Proof.
  induction bs as [|b bs IH]; simpl Buffer.le_value; simpl length.
  - simpl. lia.
  - pose proof (byte_to_Z_range b).
    replace (8 * Z.of_nat (S (length bs))) with (8 + 8 * Z.of_nat (length bs)) by lia.
    rewrite Z.pow_add_r by lia. change (2 ^ 8) with 256. nia.
Qed.

Lemma le_value_le_bytes (n : nat) (z : Z) :
  Buffer.le_value (Buffer.le_bytes n z) = z mod 2 ^ (8 * Z.of_nat n).
Proof.
  revert z. induction n as [|n IH]; intros z.
  - simpl. by rewrite Z.mod_1_r.
  - cbn [Buffer.le_bytes Buffer.le_value]. rewrite byte_to_of_Z, IH.
    replace (8 * Z.of_nat (S n)) with (8 + 8 * Z.of_nat n) by lia.
    rewrite Z.pow_add_r by lia. change (2 ^ 8) with 256.
    rewrite Z.shiftr_div_pow2 by lia. change (2 ^ 8) with 256.
    rewrite Z.rem_mul_r by lia. lia.
Qed.

Lemma le_value_le_bytes_u32 (z : Z) :
  0 <= z < 2 ^ 32 -> Buffer.le_value (Buffer.le_bytes 4 z) = z.
Proof.
  intros Hz. rewrite le_value_le_bytes. change (8 * Z.of_nat 4) with 32.
  by apply Z.mod_small.
Qed.

Lemma le_value_le_bytes_u8 (z : Z) :
  0 <= z < 256 -> Buffer.le_value (Buffer.le_bytes 1 z) = z.
Proof.
  intros Hz. rewrite le_value_le_bytes. change (2 ^ (8 * Z.of_nat 1)) with 256.
  by apply Z.mod_small.
Qed.

(** ** The binary32 image of a number fits in 32 bits *)

Lemma round_half_even_nonneg (m k : Z) : 0 <= m -> 0 <= Float32.round_half_even m k.
Proof.
  intros Hm. unfold Float32.round_half_even.
  assert (0 <= Z.shiftr m k) by (by apply Z.shiftr_nonneg).
  repeat case_match; lia.
Qed.

Lemma magnitude_range (m e : Z) :
  0 <= m -> 0 <= Float32.magnitude m e <= Float32.inf_bits.
Proof.
  intros Hm. unfold Float32.magnitude.
  set (e' := Z.max (e + (Z.log2 m + 1) - 24) (-149)).
  assert (0 <= e' + 149) by lia.
  assert (0 <= (if e' - e <=? 0 then Z.shiftl m (- (e' - e))
                else Float32.round_half_even m (e' - e))).
  { case_match; [by apply Z.shiftl_nonneg | by apply round_half_even_nonneg]. }
  unfold Float32.inf_bits. split; [|lia].
  apply Z.min_glb; [|lia]. assert (0 < 2 ^ 23) by lia. nia.
Qed.

Lemma bits_range (n : number) : 0 <= Float32.bits n < 2 ^ 32.
Proof.
  destruct n as [z| |neg m k| |neg]; cbn [Float32.bits].
  - destruct z as [|p|p]; [lia| |].
    + pose proof (magnitude_range (Z.abs (Z.pos p)) 0 ltac:(lia)).
      unfold Float32.inf_bits in *. simpl Float32.sign_bit. lia.
    + pose proof (magnitude_range (Z.abs (Z.neg p)) 0 ltac:(lia)).
      unfold Float32.inf_bits in *. simpl Float32.sign_bit. lia.
  - simpl. lia.
  - pose proof (magnitude_range (Z.pos m) (- Z.pos k) ltac:(lia)).
    unfold Float32.inf_bits in *. destruct neg; simpl Float32.sign_bit; lia.
  - unfold Float32.nan_bits. lia.
  - unfold Float32.inf_bits. destruct neg; simpl; lia.
Qed.

(** ** Reads and writes at the end of a written prefix *)

Lemma size_app (a b : Buffer.t) : Buffer.size (a ++ b) = Buffer.size a + Buffer.size b.
Proof. unfold Buffer.size. rewrite length_app. lia. Qed.

Lemma splice_length (buf : Buffer.t) (offset : Z) (bs : list byte) (buf' : Buffer.t) :
  Buffer.splice buf offset bs = inr buf' -> length buf' = length buf.
Proof.
  unfold Buffer.splice, Buffer.in_bounds, Buffer.size. intros Hs.
  case_match eqn:Hb; [|done]. simplify_eq.
  apply andb_true_iff in Hb as [H0 H1].
  apply Z.leb_le in H0, H1.
  rewrite !length_app, length_take, length_drop. lia.
Qed.

Lemma splice_app (w rest : Buffer.t) (offset : Z) (bs : list byte) :
  offset = Z.of_nat (length w) -> (length bs <= length rest)%nat ->
  Buffer.splice (w ++ rest) offset bs = inr ((w ++ bs) ++ drop (length bs) rest).
Proof.
  intros -> Hlen. unfold Buffer.splice, Buffer.in_bounds, Buffer.size.
  rewrite length_app.
  replace ((0 <=? Z.of_nat (length w))
           && (Z.of_nat (length w) + Z.of_nat (length bs)
               <=? Z.of_nat (length w + length rest))) with true
    by (symmetry; apply andb_true_iff; split; apply Z.leb_le; lia).
  rewrite Nat2Z.id. f_equal.
  rewrite take_app_length, drop_app_add'; [|done].
  by rewrite <- app_assoc.
Qed.

Lemma slice_app (w bs rest : Buffer.t) (offset : Z) (n : nat) :
  offset = Z.of_nat (length w) -> n = length bs ->
  Buffer.slice (w ++ bs ++ rest) offset n = inr bs.
Proof.
  intros -> ->. unfold Buffer.slice, Buffer.in_bounds, Buffer.size.
  rewrite !length_app.
  replace ((0 <=? Z.of_nat (length w))
           && (Z.of_nat (length w) + Z.of_nat (length bs)
               <=? Z.of_nat (length w + (length bs + length rest)))) with true
    by (symmetry; apply andb_true_iff; split; apply Z.leb_le; lia).
  rewrite Nat2Z.id, drop_app_length, take_app_length. done.
Qed.

Lemma u32_at_app (w bs rest : Buffer.t) (offset : Z) :
  offset = Z.of_nat (length w) -> length bs = 4%nat ->
  u32_at (w ++ bs ++ rest) offset = Buffer.le_value bs.
Proof.
  intros -> Hlen. unfold u32_at.
  rewrite Nat2Z.id, drop_app_length, <- Hlen, take_app_length. done.
Qed.

Lemma readUInt32LE_in_bounds (buffer : Buffer.t) (offset : Z) :
  0 <= offset -> offset + 4 <= Buffer.size buffer ->
  Buffer.readUInt32LE buffer offset = inr (u32_at buffer offset).
Proof.
  intros H0 H1. unfold Buffer.readUInt32LE, Buffer.slice, Buffer.in_bounds.
  replace ((0 <=? offset) && (offset + Z.of_nat 4 <=? Buffer.size buffer)) with true
    by (symmetry; apply andb_true_iff; split; apply Z.leb_le; lia).
  done.
Qed.

Lemma readFloatLE_in_bounds (buffer : Buffer.t) (offset : Z) :
  0 <= offset -> offset + 4 <= Buffer.size buffer ->
  Buffer.readFloatLE buffer offset = inr (Float32.value (u32_at buffer offset)).
Proof.
  intros H0 H1. unfold Buffer.readFloatLE, Buffer.slice, Buffer.in_bounds.
  replace ((0 <=? offset) && (offset + Z.of_nat 4 <=? Buffer.size buffer)) with true
    by (symmetry; apply andb_true_iff; split; apply Z.leb_le; lia).
  done.
Qed.

(** ** Rounding to binary32 is idempotent *)

Lemma round_half_even_double (m k : Z) :
  0 <= m -> 0 < k ->
  Float32.round_half_even (2 * m) (k + 1) = Float32.round_half_even m k.
Proof.
  intros Hm Hk. unfold Float32.round_half_even.
  rewrite !Z.shiftr_div_pow2, !Z.land_ones by lia.
  replace (k + 1 - 1) with (1 + (k - 1)) by lia.
  replace (k + 1) with (1 + k) by lia.
  rewrite !Z.pow_add_r by lia. change (2 ^ 1) with 2.
  assert (0 < 2 ^ k) by (apply Z.pow_pos_nonneg; lia).
  assert (0 < 2 ^ (k - 1)) by (apply Z.pow_pos_nonneg; lia).
  rewrite Z.div_mul_cancel_l by lia.
  rewrite Z.mul_mod_distr_l by lia.
  set (r := m mod 2 ^ k). set (h := 2 ^ (k - 1)). set (q := m / 2 ^ k).
  destruct (Z.ltb_spec r h), (Z.ltb_spec (2 * r) (2 * h)); try lia; try done.
  destruct (Z.ltb_spec h r), (Z.ltb_spec (2 * h) (2 * r)); try lia; done.
Qed.

Lemma round_half_even_even_1 (m : Z) :
  0 <= m -> Float32.round_half_even (2 * m) 1 = m.
Proof.
  intros Hm. unfold Float32.round_half_even.
  rewrite Z.shiftr_div_pow2, Z.land_ones by lia. change (2 ^ 1) with 2.
  change (2 ^ (1 - 1)) with 1.
  rewrite (Z.mul_comm 2 m), Z.div_mul, Z.mod_mul by lia. done.
Qed.

(** Doubling the mantissa and decrementing the exponent changes nothing. *)
Lemma magnitude_double (m e : Z) :
  0 < m -> Float32.magnitude (2 * m) e = Float32.magnitude m (e + 1).
Proof.
  intros Hm. unfold Float32.magnitude.
  rewrite Z.log2_double by lia.
  replace (e + (Z.succ (Z.log2 m) + 1) - 24) with (e + 1 + (Z.log2 m + 1) - 24) by lia.
  set (e' := Z.max (e + 1 + (Z.log2 m + 1) - 24) (-149)).
  replace (e' - e) with (e' - (e + 1) + 1) by lia.
  set (k := e' - (e + 1)).
  f_equal. f_equal.
  destruct (Z.leb_spec (k + 1) 0), (Z.leb_spec k 0); try lia.
  - rewrite !Z.shiftl_mul_pow2 by lia.
    replace (- k) with (1 + - (k + 1)) by lia.
    rewrite Z.pow_add_r by lia. change (2 ^ 1) with 2. lia.
  - assert (k = 0) as -> by lia. change (0 + 1) with 1.
    rewrite round_half_even_even_1 by lia. by rewrite Z.shiftl_0_r.
  - apply round_half_even_double; lia.
Qed.

Lemma magnitude_scale (m e : Z) (j : Z) :
  0 < m -> 0 <= j -> Float32.magnitude (m * 2 ^ j) e = Float32.magnitude m (e + j).
Proof.
  intros Hm Hj. revert e. pattern j. apply natlike_ind; [| |done].
  - intros e. f_equal; lia.
  - intros i Hi IH e. rewrite Z.pow_succ_r by done.
    replace (m * (2 * 2 ^ i)) with (2 * (m * 2 ^ i)) by lia.
    assert (0 < 2 ^ i) by (apply Z.pow_pos_nonneg; lia).
    rewrite magnitude_double by nia. rewrite IH. f_equal. lia.
Qed.

Lemma bits_dyadic (neg : bool) (m k : positive) :
  Float32.bits (dyadic neg m k)
  = Float32.sign_bit neg + Float32.magnitude (Z.pos m) (- Z.pos k).
Proof.
  revert k. induction m as [m IH|m IH|]; intros k; cbn [dyadic]; try done.
  destruct k as [k|k|].
  - rewrite IH. change (Z.pos m~0) with (2 * Z.pos m).
    rewrite magnitude_double, Pos2Z.inj_pred by done. f_equal; f_equal; lia.
  - rewrite IH. change (Z.pos m~0) with (2 * Z.pos m).
    rewrite magnitude_double, Pos2Z.inj_pred by done. f_equal; f_equal; lia.
  - change (Z.pos m~0) with (2 * Z.pos m).
    rewrite magnitude_double by lia. change (- 1 + 1) with 0.
    by destruct neg.
Qed.

Lemma bits_scaled (neg : bool) (m e : Z) :
  0 < m ->
  Float32.bits (scaled neg m e) = Float32.sign_bit neg + Float32.magnitude m e.
Proof.
  intros Hm. unfold scaled. destruct (Z.leb_spec 0 e).
  - assert (0 < m * 2 ^ e) by (assert (0 < 2 ^ e) by (apply Z.pow_pos_nonneg; lia); nia).
    rewrite <- (Z.add_0_l e) at 2. rewrite <- magnitude_scale by lia.
    destruct neg.
    + destruct (-1 * (m * 2 ^ e)) as [|p|p] eqn:E; try lia.
      cbn [Float32.bits]. replace (Z.abs (Z.neg p)) with (m * 2 ^ e) by lia. done.
    + destruct (1 * (m * 2 ^ e)) as [|p|p] eqn:E; try lia.
      cbn [Float32.bits]. replace (Z.abs (Z.pos p)) with (m * 2 ^ e) by lia. done.
  - rewrite bits_dyadic. rewrite !Z2Pos.id by lia. do 2 f_equal. lia.
Qed.

(** The magnitude of a mantissa that is already aligned is its encoding. *)
Lemma magnitude_subnormal (f : Z) :
  0 < f < 2 ^ 23 -> Float32.magnitude f (-149) = f.
Proof.
  intros Hf. unfold Float32.magnitude.
  assert (Z.log2 f < 23) by (apply Z.log2_lt_pow2; lia).
  rewrite Z.max_r by lia. change (-149 - -149) with 0.
  cbn [Z.leb Z.compare Z.opp]. rewrite Z.shiftl_0_r.
  unfold Float32.inf_bits. lia.
Qed.

Lemma magnitude_normal (E f : Z) :
  1 <= E <= 254 -> 0 <= f < 2 ^ 23 ->
  Float32.magnitude (2 ^ 23 + f) (E - 150) = E * 2 ^ 23 + f.
Proof.
  intros HE Hf. unfold Float32.magnitude.
  assert (Z.log2 (2 ^ 23 + f) = 23) as ->.
  { apply Z.log2_unique; lia. }
  rewrite Z.max_l by lia.
  replace (E - 150 + (23 + 1) - 24 - (E - 150)) with 0 by lia.
  cbn [Z.leb Z.compare Z.opp]. rewrite Z.shiftl_0_r.
  unfold Float32.inf_bits. lia.
Qed.

(** A 32-bit pattern that is not a NaN is the image of the number it
    denotes. *)
Lemma bits_value (b : Z) :
  0 <= b < 2 ^ 32 ->
  Z.land b (Z.ones 31) <= Float32.inf_bits ->
  Float32.bits (Float32.value b) = b.
Proof.
  intros Hb Hnan. unfold Float32.value.
  rewrite Z.land_ones in Hnan by lia.
  rewrite Z.shiftr_div_pow2, !Z.land_ones by lia.
  change (Z.land (b / 2 ^ 23) 255) with (Z.land (b / 2 ^ 23) (Z.ones 8)).
  rewrite Z.land_ones by lia.
  set (E := (b / 2 ^ 23) mod 2 ^ 8). set (f := b mod 2 ^ 23).
  assert (HE : 0 <= E < 256) by (apply Z.mod_pos_bound; lia).
  assert (Hf : 0 <= f < 2 ^ 23) by (apply Z.mod_pos_bound; lia).
  assert (Hs : b = Float32.sign_bit (Z.testbit b 31) + (E * 2 ^ 23 + f)
               /\ b mod 2 ^ 31 = E * 2 ^ 23 + f).
  { assert (Hlow : b mod 2 ^ 31 = E * 2 ^ 23 + f).
    { unfold E, f. change (2 ^ 31) with (2 ^ 23 * 2 ^ 8).
      rewrite Z.rem_mul_r by lia. lia. }
    split; [|done]. rewrite <- Hlow.
    destruct (Z.testbit b 31) eqn:Ht; cbn [Float32.sign_bit].
    - apply Z.testbit_true in Ht; [|lia].
      pose proof (Z.div_mod b (2 ^ 31) ltac:(lia)).
      assert (0 <= b / 2 ^ 31 < 2) by (split; [apply Z.div_pos; lia|apply Z.div_lt_upper_bound; lia]).
      assert (b / 2 ^ 31 = 1) by (rewrite Z.mod_small in Ht; lia). lia.
    - apply Z.testbit_false in Ht; [|lia].
      pose proof (Z.div_mod b (2 ^ 31) ltac:(lia)).
      assert (0 <= b / 2 ^ 31 < 2) by (split; [apply Z.div_pos; lia|apply Z.div_lt_upper_bound; lia]).
      assert (b / 2 ^ 31 = 0) by (rewrite Z.mod_small in Ht; lia). lia. }
  destruct Hs as [Hs Hlow]. rewrite Hlow in Hnan. unfold Float32.inf_bits in Hnan.
  clear Hlow. revert Hs. generalize (Z.testbit b 31). clearbody E f.
  intros neg ->. clear Hb.
  destruct (Z.eqb_spec E 255) as [HE255|HE255].
  - assert (f = 0) as -> by lia. cbn [Z.eqb Float32.bits].
    unfold Float32.inf_bits. lia.
  - destruct (Z.eqb_spec E 0) as [HE0|HE0].
    + destruct (Z.eqb_spec f 0) as [Hf0|Hf0].
      * rewrite HE0, Hf0. by destruct neg.
      * rewrite bits_scaled, magnitude_subnormal by lia. lia.
    + rewrite bits_scaled, magnitude_normal by lia. lia.
Qed.

(** A finite number never rounds to a NaN pattern... *)
Lemma bits_not_nan (x : number) :
  isFinite x = true -> Z.land (Float32.bits x) (Z.ones 31) <= Float32.inf_bits.
Proof.
  intros Hx. rewrite Z.land_ones by lia.
  assert (Hmag : forall neg m e, 0 <= m ->
            (Float32.sign_bit neg + Float32.magnitude m e) mod 2 ^ 31
            <= Float32.inf_bits).
  { intros neg m e Hm. pose proof (magnitude_range m e Hm) as Hr.
    unfold Float32.inf_bits in *.
    destruct neg; cbn [Float32.sign_bit].
    - change 2147483648 with (1 * 2 ^ 31).
      rewrite Z.add_comm, Z.mod_add, Z.mod_small by lia. lia.
    - rewrite Z.add_0_l, Z.mod_small by lia. lia. }
  destruct x as [z| |neg m k| |neg]; try done; cbn [Float32.bits].
  - destruct z; [by apply Z.leb_le| |]; apply Hmag; lia.
  - apply Hmag. lia.
Qed.

(** ...so rounding it twice is rounding it once: at 32-bit float
    precision the rounded number is the number itself. *)
Lemma bits_fround (x : number) :
  isFinite x = true -> Float32.bits (Float32.fround x) = Float32.bits x.
Proof.
  intros Hx. unfold Float32.fround. apply bits_value; [apply bits_range|].
  by apply bits_not_nan.
Qed.

Lemma fround_idempotent (x : number) :
  isFinite x = true -> Float32.fround (Float32.fround x) = Float32.fround x.
Proof. intros Hx. unfold Float32.fround at 1 3. by rewrite bits_fround. Qed.

(** ** The binary decoder reads exactly the records the header announces *)

Lemma leb_true (a b : Z) : a <= b -> (a <=? b) = true.
Proof. intros. by apply Z.leb_le. Qed.
Lemma ltb_false (a b : Z) : b <= a -> (a <? b) = false.
Proof. intros. by apply Z.ltb_ge. Qed.
Lemma ltb_true (a b : Z) : a < b -> (a <? b) = true.
Proof. intros. by apply Z.ltb_lt. Qed.
Lemma leb_false (a b : Z) : b < a -> (a <=? b) = false.
Proof. intros. by apply Z.leb_gt. Qed.

Lemma read_point_in_bounds (buffer : Buffer.t) (i : Z) (todo : nat) :
  forall (j offset : Z) (acc : list value),
    0 <= offset -> offset + 4 * Z.of_nat todo <= Buffer.size buffer ->
    read_point buffer i todo j offset acc
    = inr (acc ++ point_at buffer todo offset, offset + 4 * Z.of_nat todo).
Proof.
  induction todo as [|todo IH]; intros j offset acc H0 H1.
  - simpl. rewrite app_nil_r. do 2 f_equal. lia.
  - cbn [read_point point_at].
    rewrite ltb_false by lia.
    rewrite readFloatLE_in_bounds by lia.
    rewrite IH by lia. rewrite <- app_assoc. simpl. do 2 f_equal. lia.
Qed.

Section Decode.
Context `{Host}.

Lemma read_vectors_in_bounds (index : value) (buffer : Buffer.t)
    (numDimensions : Z) (todo : nat) :
  forall (i offset : Z) (s : state),
    0 <= numDimensions -> 0 <= offset ->
    offset + Z.of_nat todo * (4 + numDimensions * 4) <= Buffer.size buffer ->
    read_vectors index buffer numDimensions todo i offset s
    = insert_all index (records_at buffer numDimensions todo offset) s.
Proof.
  induction todo as [|todo IH]; intros i offset s Hd H0 H1; [done|].
  cbn [read_vectors records_at insert_all]. munfold.
  rewrite ltb_false by nia.
  rewrite readUInt32LE_in_bounds by nia.
  rewrite read_point_in_bounds by (rewrite ?Z2Nat.id; nia).
  simpl app.
  destruct (method index "addPoint" _ s) as [[e|[]] s'] eqn:E; [done|].
  rewrite Z2Nat.id by lia.
  replace (offset + 4 + 4 * numDimensions) with (offset + 4 + 4 * numDimensions) by lia.
  apply IH; nia.
Qed.

Lemma readUInt8_in_bounds (buffer : Buffer.t) (offset : Z) :
  0 <= offset -> offset + 1 <= Buffer.size buffer ->
  Buffer.readUInt8 buffer offset = inr (u8_at buffer offset).
Proof.
  intros H0 H1. unfold Buffer.readUInt8, Buffer.slice, Buffer.in_bounds.
  rewrite !leb_true by (simpl; lia). done.
Qed.

Lemma u32_at_nonneg (buffer : Buffer.t) (offset : Z) : 0 <= u32_at buffer offset.
Proof. unfold u32_at. apply le_value_range. Qed.

(** On a header that passes the checks, [loadIndexBinary] either reports a
    size mismatch or rehydrates the records of the buffer. *)
Lemma load_buffer_spec (hnswlib : value) (filename : string)
    (buffer : Buffer.t) (s : state) :
  header_ok buffer = true ->
  load_buffer hnswlib filename buffer s
  = if Buffer.size buffer <? expected_size buffer
    then (inl (SizeMismatch (expected_size buffer) (Buffer.size buffer)), s)
    else rehydrate hnswlib (loaded_binary filename (u32_at buffer 22))
           (header_metadata buffer) (buffer_records buffer) s.
Proof.
  unfold header_ok. rewrite !andb_true_iff.
  intros [[[[Hsize Hver] Hd0] Hd1] Hv].
  apply Z.leb_le in Hsize, Hd1, Hv. apply Z.eqb_eq in Hver. apply Z.ltb_lt in Hd0.
  pose proof (u32_at_nonneg buffer 22) as Hv0.
  unfold load_buffer. munfold.
  change (0 + 1) with 1. change (1 + 1) with 2. change (2 + 24) with 26.
  change (2 + 4) with 6. change (6 + 4) with 10. change (10 + 4) with 14.
  change (14 + 4) with 18. change (18 + 4) with 22. change (22 + 4 + 14) with 40.
  rewrite (ltb_false (Buffer.size buffer) 40) by lia.
  rewrite (readUInt8_in_bounds buffer 0) by lia.
  rewrite Hver. change (negb (1 =? 1)) with false. cbv iota beta.
  rewrite (leb_false (Buffer.size buffer) 1) by lia.
  rewrite (readUInt8_in_bounds buffer 1) by lia.
  rewrite (ltb_false (Buffer.size buffer) 26) by lia.
  rewrite (readUInt32LE_in_bounds buffer 2), (readUInt32LE_in_bounds buffer 6),
    (readUInt32LE_in_bounds buffer 10), (readUInt32LE_in_bounds buffer 14),
    (readUInt32LE_in_bounds buffer 18), (readUInt32LE_in_bounds buffer 22) by lia.
  rewrite (leb_false (u32_at buffer 2) 0) by lia.
  rewrite (ltb_false 100000) by lia.
  rewrite (ltb_false (u32_at buffer 22) 0) by lia.
  rewrite (ltb_false 100000000) by lia.
  change (false || false) with false. cbv iota beta.
  fold (expected_size buffer).
  destruct (Buffer.size buffer <? expected_size buffer) eqn:Hexp; [done|].
  apply Z.ltb_ge in Hexp. unfold expected_size in Hexp.
  unfold rehydrate, replay, header_metadata, buffer_records, loaded_binary. munfold.
  cbn [Metadata.spaceName Metadata.numDimensions Metadata.maxElements Metadata.m
       Metadata.efConstruction Metadata.randomSeed].
  destruct (method_new hnswlib "HierarchicalNSW" _ s) as [[e|index] s1]; [done|].
  destruct (method index "initIndex" _ s1) as [[e|[]] s2]; [done|].
  rewrite read_vectors_in_bounds by (rewrite ?Z2Nat.id; lia).
  destruct (insert_all index _ s2) as [[e|[]] s3]; [done|].
  destruct (logger_log _ s3) as [[e|[]] s4]; done.
Qed.

End Decode.

(** ** What a rehydration leaves in the trace *)

Lemma inserted_app (a b : list event) : inserted (a ++ b) = inserted a ++ inserted b.
Proof. unfold inserted. by rewrite omap_app. Qed.

Lemma insertions_inserted (events : list event) (records : list (value * value)) :
  inserted events = records -> insertions events = length records.
Proof. unfold insertions. by intros ->. Qed.

Section Traces.
Context `{Host}.

Lemma invoke_inv (what f : string) (this : value) (args : list value)
    (s s' : state) (r : error + unit) :
  invoke what (Fun f) this args s = (r, s') ->
  trace s' = trace s ++ [Call what f args] /\ logger s' = logger s.
Proof.
  unfold invoke, call_noop, ask. destruct (String.eqb f noop).
  - intros [= <- <-]. done.
  - destruct (call_void f this args (host s)) as [r' h']. intros [= <- <-]. done.
Qed.

Lemma method_inv (index : value) (name : string) (args : list value) (s s' : state) :
  method index name args s = (inr tt, s') ->
  exists f, get index name = inr (Fun f)
    /\ trace s' = trace s ++ [Call name f args] /\ logger s' = logger s.
Proof.
  unfold method. munfold. destruct (get index name) as [e|callee]; [done|].
  destruct callee; try done. intros Hi. eexists. split; [done|].
  by eapply invoke_inv.
Qed.

Lemma method_new_inv (obj : value) (name : string) (args : list value)
    (s s' : state) (index : value) :
  method_new obj name args s = (inr index, s') ->
  exists f, trace s' = trace s ++ [New name f args] /\ logger s' = logger s.
Proof.
  unfold method_new. munfold. destruct (get obj name) as [e|callee]; [done|].
  destruct callee; try done. unfold ask.
  destruct (construct f args (host s)) as [r h']. intros [= -> <-]. eauto.
Qed.

Lemma insert_all_inv (index : value) (records : list (value * value)) :
  forall s s', insert_all index records s = (inr tt, s') ->
    exists events, trace s' = trace s ++ events
      /\ inserted events = records /\ logger s' = logger s.
Proof.
  induction records as [|[point label] records IH]; intros s s'.
  - intros [= <-]. exists []. by rewrite app_nil_r.
  - cbn [insert_all]. munfold.
    destruct (method index "addPoint" _ s) as [[e|[]] s1] eqn:E1; [done|].
    apply method_inv in E1 as (f & _ & Ht1 & Hl1).
    intros (events & Ht & Hn & Hl)%IH.
    exists (Call "addPoint" f [point; label; Bool false] :: events).
    rewrite Ht, Ht1, <- app_assoc. split; [done|]. split; [|congruence].
    change (_ :: events) with ([Call "addPoint" f [point; label; Bool false]] ++ events).
    rewrite inserted_app, Hn. done.
Qed.

Lemma logger_log_inv (message : string) (s s' : state) :
  logger_log message s = (inr tt, s') ->
  exists f, trace s' = trace s ++ [Call "logger.log" f [Str message]].
Proof.
  unfold logger_log. destruct (default Undefined (logger s !! "log")); try done.
  intros Hi%invoke_inv. exists f. apply Hi.
Qed.

(** A rehydration that succeeds returns the metadata it was given, and
    has constructed one index and inserted the records, in order. *)
Lemma rehydrate_inv (hnswlib : value) (message : string) (md : Metadata.t)
    (records : list (value * value)) (s s' : state) (index : value) (md' : Metadata.t) :
  rehydrate hnswlib message md records s = (inr (index, md'), s') ->
  md' = md /\ exists events, trace s' = trace s ++ events
                /\ inserted events = records.
Proof.
  unfold rehydrate, replay. munfold.
  destruct (method_new hnswlib _ _ s) as [[e|idx] s1] eqn:E1; [done|].
  apply method_new_inv in E1 as (f & Ht1 & _).
  destruct (method idx "initIndex" _ s1) as [[e|[]] s2] eqn:E2; [done|].
  apply method_inv in E2 as (fi & _ & Ht2 & _).
  destruct (insert_all idx records s2) as [[e|[]] s3] eqn:E3; [done|].
  apply insert_all_inv in E3 as (events & Ht3 & Hn & _).
  destruct (logger_log message s3) as [[e|[]] s4] eqn:E4; [done|].
  apply logger_log_inv in E4 as (fl & Ht4).
  intros [= -> -> ->]. split; [done|].
  eexists. rewrite Ht4, Ht3, Ht2, Ht1, <- !app_assoc. split; [done|].
  rewrite !inserted_app, Hn. cbn. by rewrite app_nil_r.
Qed.

(** ** Rehydration on a cooperative host succeeds *)

Lemma invoke_cooperative (hnswlib : value) (what f : string) (this : value)
    (args : list value) (s : state) :
  cooperative hnswlib ->
  exists s', invoke what (Fun f) this args s = (inr tt, s') /\ logger s' = logger s.
Proof.
  intros [_ Hvoid]. unfold invoke, call_noop, ask. destruct (String.eqb f noop).
  - eauto.
  - destruct (Hvoid f this args (host s)) as [h' ->]. eauto.
Qed.

Lemma insert_all_cooperative (hnswlib index : value) (fa : string)
    (records : list (value * value)) :
  cooperative hnswlib -> get index "addPoint" = inr (Fun fa) ->
  forall s, exists s', insert_all index records s = (inr tt, s') /\ logger s' = logger s.
Proof.
  intros Hc Hget. induction records as [|[point label] records IH]; intros s.
  - by exists s.
  - cbn [insert_all]. unfold method. munfold. rewrite Hget.
    destruct (invoke_cooperative hnswlib "addPoint" fa index
                [point; label; Bool false] s Hc) as (s1 & -> & Hl1).
    destruct (IH s1) as (s2 & -> & Hl2). exists s2. split; [done|congruence].
Qed.

Lemma rehydrate_cooperative (hnswlib : value) (message : string) (md : Metadata.t)
    (records : list (value * value)) (s : state) :
  cooperative hnswlib ->
  is_function (default Undefined (logger s !! "log")) = true ->
  exists index s', rehydrate hnswlib message md records s = (inr (index, md), s').
Proof.
  intros Hc Hlog. pose proof Hc as [(f & Hget & Hnew) _].
  unfold rehydrate, replay, method_new, method. munfold. rewrite Hget. unfold ask.
  destruct (Hnew [Metadata.spaceName md; Metadata.numDimensions md; Str ""] (host s))
    as (index & fi & fa & h' & -> & Hi & Ha).
  rewrite Hi.
  destruct (invoke_cooperative hnswlib "initIndex" fi index
              [Metadata.maxElements md; Metadata.m md; Metadata.efConstruction md;
               Metadata.randomSeed md]
              (State (logger s) (trace s ++ [New "HierarchicalNSW" f
                 [Metadata.spaceName md; Metadata.numDimensions md; Str ""]]) h') Hc)
    as (s2 & -> & Hl2).
  destruct (insert_all_cooperative hnswlib index fa records Hc Ha s2) as (s3 & -> & Hl3).
  unfold logger_log. rewrite Hl3, Hl2. cbn [logger].
  destruct (default Undefined (logger s !! "log")) as [| | | | | | |fl|]; try done.
  destruct (invoke_cooperative hnswlib "logger.log" fl (Obj (logger s))
              [Str message] s3 Hc) as (s4 & -> & _).
  eauto.
Qed.

End Traces.

(** ** Reading inside a prefix of the buffer *)

Lemma take_drop_take {A} (l : list A) (k o n : nat) :
  (o + k <= n)%nat -> take k (drop o (take n l)) = take k (drop o l).
Proof.
  intros Hle. rewrite !take_drop_commute, take_take. do 2 f_equal. lia.
Qed.

Lemma u32_at_take (buffer : Buffer.t) (n : nat) (offset : Z) :
  0 <= offset -> offset + 4 <= Z.of_nat n ->
  u32_at (take n buffer) offset = u32_at buffer offset.
Proof. intros H0 H1. unfold u32_at. rewrite take_drop_take by lia. done. Qed.

Lemma u8_at_take (buffer : Buffer.t) (n : nat) (offset : Z) :
  0 <= offset -> offset + 1 <= Z.of_nat n ->
  u8_at (take n buffer) offset = u8_at buffer offset.
Proof. intros H0 H1. unfold u8_at. rewrite take_drop_take by lia. done. Qed.

Lemma point_at_take (buffer : Buffer.t) (n : nat) (count : nat) :
  forall offset, 0 <= offset -> offset + 4 * Z.of_nat count <= Z.of_nat n ->
    point_at (take n buffer) count offset = point_at buffer count offset.
Proof.
  induction count as [|count IH]; intros offset H0 H1; [done|].
  cbn [point_at]. rewrite u32_at_take, IH by lia. done.
Qed.

Lemma records_at_take (buffer : Buffer.t) (n : nat) (numDimensions : Z) (count : nat) :
  0 <= numDimensions ->
  forall offset, 0 <= offset ->
    offset + Z.of_nat count * (4 + numDimensions * 4) <= Z.of_nat n ->
    records_at (take n buffer) numDimensions count offset
    = records_at buffer numDimensions count offset.
Proof.
  intros Hd. induction count as [|count IH]; intros offset H0 H1; [done|].
  cbn [records_at].
  rewrite u32_at_take, point_at_take, IH by (rewrite ?Z2Nat.id; nia). done.
Qed.

Lemma length_records_at (buffer : Buffer.t) (numDimensions : Z) (count : nat) (offset : Z) :
  length (records_at buffer numDimensions count offset) = count.
Proof.
  revert offset. induction count as [|count IH]; intros offset; [done|].
  cbn [records_at length]. by rewrite IH.
Qed.

Lemma header_ok_inv (buffer : Buffer.t) :
  header_ok buffer = true ->
  40 <= Buffer.size buffer /\ u8_at buffer 0 = 1
  /\ 0 < u32_at buffer 2 <= 100000 /\ 0 <= u32_at buffer 22 <= 100000000.
Proof.
  unfold header_ok. rewrite !andb_true_iff.
  intros [[[[Hsize Hver] Hd0] Hd1] Hv].
  apply Z.leb_le in Hsize, Hd1, Hv. apply Z.eqb_eq in Hver. apply Z.ltb_lt in Hd0.
  pose proof (u32_at_nonneg buffer 22). lia.
Qed.

Lemma expected_size_ge_40 (buffer : Buffer.t) : 40 <= expected_size buffer.
Proof.
  unfold expected_size.
  pose proof (u32_at_nonneg buffer 22). pose proof (u32_at_nonneg buffer 2). nia.
Qed.

(** The prefix of expected size has the same header, announces the same
    size and holds the same records. *)
Lemma take_expected (buffer : Buffer.t) :
  header_ok buffer = true -> expected_size buffer <= Buffer.size buffer ->
  let prefix := take (Z.to_nat (expected_size buffer)) buffer in
  header_ok prefix = true
  /\ expected_size prefix = expected_size buffer
  /\ Buffer.size prefix = expected_size buffer
  /\ header_metadata prefix = header_metadata buffer
  /\ buffer_records prefix = buffer_records buffer
  /\ u32_at prefix 22 = u32_at buffer 22.
Proof.
  intros Hok Hexp prefix. pose proof (expected_size_ge_40 buffer) as H40.
  pose proof (header_ok_inv buffer Hok) as (Hsize & Hver & Hd & Hv).
  assert (Hsz : Buffer.size prefix = expected_size buffer).
  { unfold prefix, Buffer.size in *. rewrite length_take. lia. }
  assert (Hu32 : forall o, 0 <= o -> o + 4 <= 40 -> u32_at prefix o = u32_at buffer o).
  { intros o H0 H1. apply u32_at_take; lia. }
  assert (Hu8 : forall o, 0 <= o -> o + 1 <= 40 -> u8_at prefix o = u8_at buffer o).
  { intros o H0 H1. apply u8_at_take; lia. }
  assert (He : expected_size prefix = expected_size buffer).
  { unfold expected_size. rewrite !Hu32 by lia. done. }
  split; [|split; [done|split; [done|split; [|split]]]].
  - unfold header_ok. rewrite Hsz, Hu8, !Hu32 by lia.
    unfold header_ok in Hok. rewrite !andb_true_iff in *.
    destruct Hok as [[[[_ ?] ?] ?] ?]. repeat split; try done. by apply Z.leb_le.
  - unfold header_metadata. rewrite Hu8, !Hu32 by lia. done.
  - unfold buffer_records. rewrite !Hu32 by lia.
    apply records_at_take; [lia|lia|].
    unfold expected_size. rewrite !Z2Nat.id by lia. lia.
  - apply Hu32; lia.
Qed.

Section Accept.
Context `{Host}.

(** Whatever [loadIndexBinary] accepts has a valid header and is at least
    as long as the header announces. *)
Lemma load_buffer_accepted (hnswlib : value) (filename : string)
    (buffer : Buffer.t) (s s' : state) (r : value * Metadata.t) :
  load_buffer hnswlib filename buffer s = (inr r, s') ->
  header_ok buffer = true /\ expected_size buffer <= Buffer.size buffer.
Proof.
  intros Hload. destruct (header_ok buffer) eqn:Hok.
  - split; [done|]. rewrite load_buffer_spec in Hload by done.
    destruct (Buffer.size buffer <? expected_size buffer) eqn:E; [done|].
    by apply Z.ltb_ge in E.
  - exfalso. revert Hload. unfold load_buffer. munfold.
    change (0 + 1) with 1. change (1 + 1) with 2. change (2 + 24) with 26.
    change (2 + 4) with 6. change (6 + 4) with 10. change (10 + 4) with 14.
    change (14 + 4) with 18. change (18 + 4) with 22. change (22 + 4 + 14) with 40.
    destruct (Buffer.size buffer <? 40) eqn:Hsize; [done|]. apply Z.ltb_ge in Hsize.
    rewrite (readUInt8_in_bounds buffer 0) by lia.
    destruct (u8_at buffer 0 =? 1) eqn:Hver; [|done]. cbn [negb].
    rewrite (leb_false (Buffer.size buffer) 1) by lia.
    rewrite (readUInt8_in_bounds buffer 1) by lia.
    rewrite (ltb_false (Buffer.size buffer) 26) by lia.
    rewrite (readUInt32LE_in_bounds buffer 2), (readUInt32LE_in_bounds buffer 6),
      (readUInt32LE_in_bounds buffer 10), (readUInt32LE_in_bounds buffer 14),
      (readUInt32LE_in_bounds buffer 18), (readUInt32LE_in_bounds buffer 22) by lia.
    destruct (u32_at buffer 2 <=? 0) eqn:Hd0; [done|].
    destruct (100000 <? u32_at buffer 2) eqn:Hd1; [done|]. cbn [orb].
    destruct (u32_at buffer 22 <? 0) eqn:Hv0; [done|].
    destruct (100000000 <? u32_at buffer 22) eqn:Hv1; [done|].
    exfalso. apply Z.leb_gt in Hd0. apply Z.ltb_ge in Hd1, Hv1.
    unfold header_ok in Hok. rewrite Hver in Hok.
    rewrite (leb_true 40), (ltb_true 0), !leb_true in Hok by lia. done.
Qed.

(** [loadIndexBinary] on any buffer: the header check that fails first,
    with nothing done, or else the rehydration of the records of the
    buffer.  No read fails: there is no range error of [Buffer] among
    the outcomes of the decoder itself. *)
Lemma load_buffer_total (hnswlib : value) (filename : string)
    (buffer : Buffer.t) (s : state) :
  load_buffer hnswlib filename buffer s
  = match header_error buffer with
    | Some e => (inl e, s)
    | None => rehydrate hnswlib (loaded_binary filename (u32_at buffer 22))
                (header_metadata buffer) (buffer_records buffer) s
    end.
Proof.
  unfold header_error.
  destruct (Buffer.size buffer <? 40) eqn:Hsize.
  { unfold load_buffer. munfold. by rewrite Hsize. }
  apply Z.ltb_ge in Hsize.
  destruct (u8_at buffer 0 =? 1) eqn:Hver; cbn [negb].
  2: { unfold load_buffer. munfold. rewrite (ltb_false _ 40) by done.
       rewrite (readUInt8_in_bounds buffer 0) by lia. by rewrite Hver. }
  destruct ((u32_at buffer 2 <=? 0) || (100000 <? u32_at buffer 2)) eqn:Hd.
  { unfold load_buffer. munfold.
    change (0 + 1) with 1. change (1 + 1) with 2. change (2 + 24) with 26.
    change (2 + 4) with 6. change (6 + 4) with 10. change (10 + 4) with 14.
    change (14 + 4) with 18. change (18 + 4) with 22.
    rewrite (ltb_false _ 40) by done.
    rewrite (readUInt8_in_bounds buffer 0) by lia. rewrite Hver. cbn [negb].
    rewrite (leb_false (Buffer.size buffer) 1) by lia.
    rewrite (readUInt8_in_bounds buffer 1) by lia.
    rewrite (ltb_false (Buffer.size buffer) 26) by lia.
    rewrite (readUInt32LE_in_bounds buffer 2), (readUInt32LE_in_bounds buffer 6),
      (readUInt32LE_in_bounds buffer 10), (readUInt32LE_in_bounds buffer 14),
      (readUInt32LE_in_bounds buffer 18), (readUInt32LE_in_bounds buffer 22) by lia.
    by rewrite Hd. }
  destruct ((u32_at buffer 22 <? 0) || (100000000 <? u32_at buffer 22)) eqn:Hv.
  { unfold load_buffer. munfold.
    change (0 + 1) with 1. change (1 + 1) with 2. change (2 + 24) with 26.
    change (2 + 4) with 6. change (6 + 4) with 10. change (10 + 4) with 14.
    change (14 + 4) with 18. change (18 + 4) with 22.
    rewrite (ltb_false _ 40) by done.
    rewrite (readUInt8_in_bounds buffer 0) by lia. rewrite Hver. cbn [negb].
    rewrite (leb_false (Buffer.size buffer) 1) by lia.
    rewrite (readUInt8_in_bounds buffer 1) by lia.
    rewrite (ltb_false (Buffer.size buffer) 26) by lia.
    rewrite (readUInt32LE_in_bounds buffer 2), (readUInt32LE_in_bounds buffer 6),
      (readUInt32LE_in_bounds buffer 10), (readUInt32LE_in_bounds buffer 14),
      (readUInt32LE_in_bounds buffer 18), (readUInt32LE_in_bounds buffer 22) by lia.
    by rewrite Hd, Hv. }
  apply orb_false_iff in Hd as [Hd0 Hd1]. apply orb_false_iff in Hv as [Hv0 Hv1].
  apply Z.leb_gt in Hd0. apply Z.ltb_ge in Hd1, Hv1.
  rewrite load_buffer_spec.
  { by destruct (Buffer.size buffer <? expected_size buffer). }
  unfold header_ok. rewrite Hver.
  rewrite (leb_true 40), (ltb_true 0), !leb_true by lia. done.
Qed.

Lemma header_error_is_format_error (buffer : Buffer.t) (e : error) :
  header_error buffer = Some e -> classify e = FormatError.
Proof.
  unfold header_error. repeat case_match; by intros [= <-].
Qed.

End Accept.

(** ** The binary encoder writes the layout *)

Lemma writeUInt32LE_app (w rest : Buffer.t) (v : number) (z offset : Z) :
  Buffer.checkInt v 0xffffffff = inr z ->
  offset = Z.of_nat (length w) -> (4 <= length rest)%nat ->
  Buffer.writeUInt32LE (w ++ rest) v offset
  = inr ((w ++ Buffer.le_bytes 4 z) ++ drop 4 rest).
Proof.
  intros Hc Ho Hl. unfold Buffer.writeUInt32LE. rewrite Hc.
  by rewrite (splice_app w rest offset) by (by rewrite ?length_le_bytes).
Qed.

Lemma writeUInt8_app (w rest : Buffer.t) (v : number) (z offset : Z) :
  Buffer.checkInt v 0xff = inr z ->
  offset = Z.of_nat (length w) -> (1 <= length rest)%nat ->
  Buffer.writeUInt8 (w ++ rest) v offset
  = inr ((w ++ Buffer.le_bytes 1 z) ++ drop 1 rest).
Proof.
  intros Hc Ho Hl. unfold Buffer.writeUInt8. rewrite Hc.
  by rewrite (splice_app w rest offset) by (by rewrite ?length_le_bytes).
Qed.

Lemma writeFloatLE_app (w rest : Buffer.t) (v : number) (offset : Z) :
  offset = Z.of_nat (length w) -> (4 <= length rest)%nat ->
  Buffer.writeFloatLE (w ++ rest) v offset
  = inr ((w ++ Buffer.le_bytes 4 (Float32.bits v)) ++ drop 4 rest).
Proof.
  intros Ho Hl. unfold Buffer.writeFloatLE.
  by rewrite (splice_app w rest offset) by (by rewrite ?length_le_bytes).
Qed.

Lemma length_point_bytes (p : list number) :
  length (point_bytes p) = (4 * length p)%nat.
Proof.
  unfold point_bytes. induction p as [|x p IH]; [done|].
  cbn [flat_map]. rewrite length_app, IH, length_le_bytes. simpl. lia.
Qed.

Lemma length_record_bytes (r : VectorRecord) :
  length (record_bytes r) = (4 + 4 * length (point r))%nat.
Proof. unfold record_bytes. by rewrite length_app, length_le_bytes, length_point_bytes. Qed.

Lemma write_point_app (p : list number) :
  forall (w rest : Buffer.t) (offset : Z),
    forallb isFinite p = true ->
    offset = Z.of_nat (length w) -> (4 * length p <= length rest)%nat ->
    write_point (w ++ rest) offset p
    = inr ((w ++ point_bytes p) ++ drop (4 * length p) rest,
           offset + 4 * Z.of_nat (length p)).
Proof.
  induction p as [|x p IH]; intros w rest offset Hfin Ho Hl.
  - simpl. rewrite app_nil_r, drop_0. do 2 f_equal. lia.
  - cbn [forallb] in Hfin. apply andb_true_iff in Hfin as [Hx Hfin].
    cbn [write_point length] in *. rewrite Hx. cbn [negb].
    rewrite writeFloatLE_app by (done || lia).
    rewrite IH; [|done| |]; clear IH.
    + unfold point_bytes. cbn [flat_map]. rewrite drop_drop, <- !app_assoc.
      f_equal. f_equal; [repeat f_equal; lia | lia].
    + rewrite length_app, length_le_bytes. lia.
    + rewrite length_drop. lia.
Qed.

Lemma is_u32_inv (n : number) :
  is_u32 n = true -> exists z, n = Int z /\ 0 <= z < 2 ^ 32.
Proof.
  destruct n as [z| | | |]; try done. cbn. rewrite andb_true_iff.
  intros [?%Z.leb_le ?%Z.ltb_lt]. eauto.
Qed.

Lemma checkInt_u32 (z : Z) :
  0 <= z < 2 ^ 32 -> Buffer.checkInt (Int z) 0xffffffff = inr z.
Proof.
  intros Hz. cbn [Buffer.checkInt].
  rewrite leb_true by lia. rewrite leb_true by lia. done.
Qed.

Lemma stored_u32_Int (z : Z) : 0 <= z < 2 ^ 32 -> stored_u32 (Int z) = z.
Proof. intros Hz. unfold stored_u32. by rewrite checkInt_u32. Qed.

Lemma valid_record_inv (numDimensions : Z) (r : VectorRecord) :
  valid_record numDimensions r = true ->
  (exists z, label r = Int z /\ 0 <= z < 2 ^ 32)
  /\ Z.of_nat (length (point r)) = numDimensions
  /\ forallb isFinite (point r) = true.
Proof.
  unfold valid_record. rewrite !andb_true_iff.
  intros [[Hl%is_u32_inv Hd%Z.eqb_eq] Hf]. done.
Qed.

Lemma length_records_bytes (numDimensions : Z) (vectors : list VectorRecord) :
  forallb (valid_record numDimensions) vectors = true ->
  Z.of_nat (length (records_bytes vectors))
  = Z.of_nat (length vectors) * (4 + numDimensions * 4).
Proof.
  unfold records_bytes. induction vectors as [|r vectors IH]; [done|].
  cbn [forallb flat_map]. rewrite andb_true_iff. intros [Hr Hv].
  apply valid_record_inv in Hr as (_ & Hd & _).
  rewrite length_app, length_record_bytes. cbn [length]. specialize (IH Hv). lia.
Qed.

Lemma write_vectors_app (numDimensions : Z) (vectors : list VectorRecord) :
  forall (w rest : Buffer.t) (offset : Z),
    forallb (valid_record numDimensions) vectors = true ->
    offset = Z.of_nat (length w) ->
    Z.of_nat (length vectors) * (4 + numDimensions * 4) <= Z.of_nat (length rest) ->
    write_vectors numDimensions (w ++ rest) offset vectors
    = inr ((w ++ records_bytes vectors)
           ++ drop (length (records_bytes vectors)) rest,
           offset + Z.of_nat (length (records_bytes vectors))).
Proof.
  induction vectors as [|r vectors IH]; intros w rest offset Hv Ho Hl.
  - simpl. rewrite app_nil_r, drop_0. do 2 f_equal. lia.
  - cbn [forallb] in Hv. apply andb_true_iff in Hv as [Hr Hv].
    pose proof (valid_record_inv _ _ Hr) as ((z & Hz & Hzr) & Hd & Hf).
    cbn [write_vectors length] in *.
    rewrite Hd, Z.eqb_refl. cbn [negb].
    rewrite Hz. rewrite (writeUInt32LE_app w rest (Int z) z)
      by (done || (by apply checkInt_u32) || lia).
    rewrite write_point_app; [|done| |].
    + rewrite IH; [|done| |]; clear IH.
      * unfold records_bytes. cbn [flat_map]. fold (records_bytes vectors).
        rewrite !drop_drop, !length_app, ?length_record_bytes, ?length_le_bytes,
          ?length_point_bytes.
        unfold record_bytes. rewrite Hz, stored_u32_Int by done.
        rewrite <- !app_assoc.
        f_equal. f_equal. lia.
      * rewrite !length_app, length_le_bytes, length_point_bytes. lia.
      * rewrite !length_drop. lia.
    + clear IH. rewrite length_app, length_le_bytes. lia.
    + clear IH. rewrite length_drop. lia.
Qed.

Lemma spaceNameCode_of_range (name : string) :
  exists c, spaceNameCode_of name = Int c /\ 0 <= c <= 2.
Proof.
  unfold spaceNameCode_of. repeat case_match; eexists; (split; [done|lia]).
Qed.

Lemma positive_u32_inv (o : option number) :
  positive_u32 o = true -> exists z, o = Some (Int z) /\ 0 < z < 2 ^ 32.
Proof.
  destruct o as [n|]; [|done]. cbn. rewrite andb_true_iff.
  intros [(z & -> & Hz)%is_u32_inv Ht]. exists z. split; [done|].
  destruct z; [done|lia|lia].
Qed.

Lemma num_or_positive (z : Z) (d : number) : 0 < z -> num_or (Some (Int z)) d = Int z.
Proof. intros Hz. destruct z; done. Qed.

Lemma valid_options_inv (md : Options.t) :
  valid_options md = true ->
  (exists name, Options.spaceName md = Some name /\ is_space_name (Str name) = true)
  /\ (exists z, Options.maxElements md = Some (Int z) /\ 0 < z < 2 ^ 32)
  /\ (exists z, Options.m md = Some (Int z) /\ 0 < z < 2 ^ 32)
  /\ (exists z, Options.efConstruction md = Some (Int z) /\ 0 < z < 2 ^ 32)
  /\ (exists z, Options.randomSeed md = Some (Int z) /\ 0 < z < 2 ^ 32).
Proof.
  unfold valid_options. rewrite !andb_true_iff.
  intros [[[[Hn H1%positive_u32_inv] H2%positive_u32_inv] H3%positive_u32_inv]
            H4%positive_u32_inv].
  repeat split; try done. destruct (Options.spaceName md); [eauto|done].
Qed.

Section Encode.
Context `{Host}.

Lemma maxElements_or_index_given (md : Options.t) (index : value) (z : Z) (s : state) :
  Options.maxElements md = Some (Int z) -> 0 < z ->
  maxElements_or_index md index s = (inr (Int z), s).
Proof. intros Hm Hz. unfold maxElements_or_index. rewrite Hm. by destruct z. Qed.

(** On valid input the encoder succeeds and produces the header followed
    by the records. *)
Lemma build_buffer_valid (index : value) (md : Options.t) (numDimensions : Z)
    (vectors : list VectorRecord) (s : state) :
  valid_options md = true ->
  0 <= numDimensions < 2 ^ 32 ->
  forallb (valid_record numDimensions) vectors = true ->
  Z.of_nat (length vectors) < 2 ^ 32 ->
  40 + Z.of_nat (length vectors) * (4 + numDimensions * 4) <= kMaxLength ->
  build_buffer index md numDimensions vectors s
  = (inr (options_header md numDimensions (Z.of_nat (length vectors))
          ++ records_bytes vectors), s).
Proof.
  intros (_ & (zE & HE & HzE) & (zm & Hm & Hzm) & (zc & Hc & Hzc) & (zs & Hs & Hzs))
    %valid_options_inv Hd Hv Hn Hmax.
  destruct (spaceNameCode_of_range (str_or (Options.spaceName md) "l2")) as (c & Hcode & Hcr).
  pose proof (length_records_bytes _ _ Hv) as Hlen.
  unfold build_buffer, options_header, header_bytes. munfold.
  rewrite Hcode, HE, Hm, Hc, Hs, !num_or_positive, !stored_u32_Int by lia.
  rewrite (maxElements_or_index_given md index zE) by (done || lia).
  set (N := 40 + Z.of_nat (length vectors) * (4 + numDimensions * 4)) in *.
  unfold Buffer.allocUnsafe. rewrite !leb_true by nia. cbn [andb].
  assert (HN' : N = 40 + Z.of_nat (length (records_bytes vectors))) by (unfold N; by rewrite Hlen).
  clearbody N.
  assert (HN : length (replicate (Z.to_nat N) garbage) = Z.to_nat N)
    by apply length_replicate.
  revert HN. generalize (replicate (Z.to_nat N) garbage). intros rest HN.
  change rest with ([] ++ rest).
  change (0 + 1) with 1. change (1 + 1) with 2.
  change (2 + 4) with 6. change (6 + 4) with 10. change (10 + 4) with 14.
  change (14 + 4) with 18. change (18 + 4) with 22. change (22 + 4) with 26.
  change (26 + 14) with 40.
  rewrite (writeUInt8_app _ _ _ 1) by (done || (rewrite ?length_drop; clear Hlen; lia)).
  rewrite (writeUInt8_app _ _ _ c)
    by (done || (rewrite ?length_drop; clear Hlen; lia)
        || (cbn [Buffer.checkInt]; rewrite !leb_true by lia; done)).
  rewrite (writeUInt32LE_app _ _ _ numDimensions)
    by (done || (by apply checkInt_u32) || (rewrite ?length_drop; clear Hlen; lia)).
  rewrite (writeUInt32LE_app _ _ _ zE)
    by (done || (apply checkInt_u32; lia) || (rewrite ?length_drop; clear Hlen; lia)).
  rewrite (writeUInt32LE_app _ _ _ zm)
    by (done || (apply checkInt_u32; lia) || (rewrite ?length_drop; clear Hlen; lia)).
  rewrite (writeUInt32LE_app _ _ _ zc)
    by (done || (apply checkInt_u32; lia) || (rewrite ?length_drop; clear Hlen; lia)).
  rewrite (writeUInt32LE_app _ _ _ zs)
    by (done || (apply checkInt_u32; lia) || (rewrite ?length_drop; clear Hlen; lia)).
  rewrite (writeUInt32LE_app _ _ _ (Z.of_nat (length vectors)))
    by (done || (apply checkInt_u32; lia) || (rewrite ?length_drop; clear Hlen; lia)).
  unfold Buffer.fill0. change (Z.to_nat (40 - 26)) with 14%nat.
  rewrite splice_app by (done || (rewrite ?length_drop, ?length_replicate; clear Hlen; lia)).
  rewrite write_vectors_app
    by (done || (rewrite <- Hlen, ?length_drop, ?length_replicate; clear Hlen; lia)).
  cbn [fst]. f_equal. rewrite !drop_drop, length_replicate.
  rewrite drop_ge, app_nil_r by (clear Hlen; lia).
  rewrite <- !app_assoc. done.
Qed.

End Encode.

(** ** Reading back what the encoder wrote *)

Lemma point_at_bytes (p : list number) :
  forall (w rest : Buffer.t) (offset : Z),
    offset = Z.of_nat (length w) ->
    point_at (w ++ point_bytes p ++ rest) (length p) offset
    = map (fun x => Num (Float32.fround x)) p.
Proof.
  induction p as [|x p IH]; intros w rest offset Ho; [done|].
  cbn [length point_at map]. unfold point_bytes. cbn [flat_map].
  fold (point_bytes p). rewrite <- (app_assoc _ (point_bytes p)).
  rewrite u32_at_app by (done || apply length_le_bytes).
  rewrite le_value_le_bytes_u32 by apply bits_range.
  f_equal. rewrite (app_assoc w). apply IH.
  rewrite length_app, length_le_bytes. lia.
Qed.

Lemma records_at_bytes (numDimensions : Z) (vectors : list VectorRecord) :
  forall (w rest : Buffer.t) (offset : Z),
    forallb (valid_record numDimensions) vectors = true ->
    offset = Z.of_nat (length w) ->
    records_at (w ++ records_bytes vectors ++ rest) numDimensions
      (length vectors) offset
    = map binary_args vectors.
Proof.
  induction vectors as [|r vectors IH]; intros w rest offset Hv Ho; [done|].
  cbn [forallb] in Hv. apply andb_true_iff in Hv as [Hr Hv].
  pose proof (valid_record_inv _ _ Hr) as ((z & Hz & Hzr) & Hd & Hf).
  cbn [length records_at map]. unfold records_bytes. cbn [flat_map].
  fold (records_bytes vectors). unfold record_bytes at 1 2.
  rewrite Hz, stored_u32_Int by done. rewrite <- !app_assoc.
  rewrite u32_at_app by (done || apply length_le_bytes).
  rewrite le_value_le_bytes_u32 by done.
  rewrite (app_assoc w), <- Hd, Nat2Z.id.
  rewrite point_at_bytes by (rewrite length_app, length_le_bytes; clear IH; lia).
  unfold binary_args at 1. rewrite Hz. f_equal.
  rewrite (app_assoc w (record_bytes r)), Hd. apply IH; [done|].
  rewrite length_app, length_record_bytes. clear IH. lia.
Qed.

Lemma header_fields (c nd zE zm zc zs nv : Z) (body : list byte) :
  0 <= c < 256 -> 0 <= nd < 2 ^ 32 -> 0 <= zE < 2 ^ 32 -> 0 <= zm < 2 ^ 32 ->
  0 <= zc < 2 ^ 32 -> 0 <= zs < 2 ^ 32 -> 0 <= nv < 2 ^ 32 ->
  let buffer := header_bytes c nd zE zm zc zs nv ++ body in
  u8_at buffer 0 = 1 /\ u8_at buffer 1 = c
  /\ u32_at buffer 2 = nd /\ u32_at buffer 6 = zE /\ u32_at buffer 10 = zm
  /\ u32_at buffer 14 = zc /\ u32_at buffer 18 = zs /\ u32_at buffer 22 = nv
  /\ Buffer.size buffer = 40 + Buffer.size body.
Proof.
  intros Hc Hnd HE Hm Hzc Hs Hnv buffer.
  repeat apply conj.
  - change (u8_at buffer 0) with (Buffer.le_value (Buffer.le_bytes 1 1)).
    by apply le_value_le_bytes_u8.
  - change (u8_at buffer 1) with (Buffer.le_value (Buffer.le_bytes 1 c)).
    by apply le_value_le_bytes_u8.
  - change (u32_at buffer 2) with (Buffer.le_value (Buffer.le_bytes 4 nd)).
    by apply le_value_le_bytes_u32.
  - change (u32_at buffer 6) with (Buffer.le_value (Buffer.le_bytes 4 zE)).
    by apply le_value_le_bytes_u32.
  - change (u32_at buffer 10) with (Buffer.le_value (Buffer.le_bytes 4 zm)).
    by apply le_value_le_bytes_u32.
  - change (u32_at buffer 14) with (Buffer.le_value (Buffer.le_bytes 4 zc)).
    by apply le_value_le_bytes_u32.
  - change (u32_at buffer 18) with (Buffer.le_value (Buffer.le_bytes 4 zs)).
    by apply le_value_le_bytes_u32.
  - change (u32_at buffer 22) with (Buffer.le_value (Buffer.le_bytes 4 nv)).
    by apply le_value_le_bytes_u32.
  - unfold buffer. rewrite size_app. done.
Qed.

Lemma records_at_header (c nd zE zm zc zs nv : Z) (numDimensions : Z)
    (vectors : list VectorRecord) :
  forallb (valid_record numDimensions) vectors = true ->
  records_at (header_bytes c nd zE zm zc zs nv ++ records_bytes vectors)
    numDimensions (length vectors) 40
  = map binary_args vectors.
Proof.
  intros Hv. rewrite <- (app_nil_r (records_bytes vectors)).
  by apply records_at_bytes.
Qed.

Lemma spaceName_round_trip (name : string) :
  is_space_name (Str name) = true ->
  spaceName_of (stored_u32 (spaceNameCode_of name)) = name.
Proof.
  cbn [is_space_name]. unfold spaceNameCode_of.
  destruct (String.eqb name "l2") eqn:E1; [by apply String.eqb_eq in E1 as ->|].
  destruct (String.eqb name "ip") eqn:E2; [by apply String.eqb_eq in E2 as ->|].
  destruct (String.eqb name "cosine") eqn:E3; [by apply String.eqb_eq in E3 as ->|].
  done.
Qed.

(** ** The text decoder *)

Lemma get_prop (v : value) (p q : string) (x : value) :
  get v p = inr x -> get v q = inr (prop v q).
Proof. unfold prop. destruct v; done. Qed.

Lemma get_fails (v : value) (p q : string) (e : error) :
  get v p = inl e -> get v q = inl e.
Proof. destruct v; done. Qed.

Section TextDecode.
Context `{Host}.

(** The loop over valid entries is the insertion of each of them. *)
Lemma add_vectors_valid (index numDimensions : value) (entries : list value) :
  forallb (fun entry => bool_decide (entry_error numDimensions entry = None)) entries = true ->
  forall s, add_vectors index numDimensions entries s
            = insert_all index (map entry_args entries) s.
Proof.
  induction entries as [|entry entries IH]; intros Hv s; [done|].
  cbn [forallb] in Hv. apply andb_true_iff in Hv as [He Hv].
  apply bool_decide_eq_true in He. unfold entry_error in He.
  cbn [add_vectors map insert_all]. unfold entry_args at 1. munfold.
  destruct (get entry "label") as [e|label] eqn:Hl; [done|].
  rewrite (get_prop entry "label" "point" label Hl).
  rewrite (get_prop entry "label" "label" label Hl) in Hl. injection Hl as <-.
  destruct (negb (String.eqb (typeof (prop entry "label")) "number")); [done|].
  destruct (bad_point (prop entry "point") numDimensions); [done|].
  destruct (method index "addPoint" _ s) as [[e|[]] s1]; [done|].
  by apply IH.
Qed.

(** The loop stops at the first invalid entry, after inserting the ones
    before it. *)
Lemma add_vectors_invalid (index numDimensions : value)
    (pre : list value) (bad : value) (post : list value) (e : error) :
  forallb (fun entry => bool_decide (entry_error numDimensions entry = None)) pre = true ->
  entry_error numDimensions bad = Some e ->
  forall s, add_vectors index numDimensions (pre ++ bad :: post) s
            = match insert_all index (map entry_args pre) s with
              | (inl e', s') => (inl e', s')
              | (inr _, s') => (inl e, s')
              end.
Proof.
  intros Hv Hbad. induction pre as [|entry pre IH]; intros s.
  - cbn [app add_vectors map insert_all ret]. munfold.
    unfold entry_error in Hbad.
    destruct (get bad "label") as [e'|label] eqn:Hl; [by injection Hbad as ->|].
    rewrite (get_prop bad "label" "point" label Hl).
    rewrite (get_prop bad "label" "label" label Hl) in Hl. injection Hl as <-.
    destruct (negb (String.eqb (typeof (prop bad "label")) "number"));
      [by injection Hbad as ->|].
    destruct (bad_point (prop bad "point") numDimensions); [by injection Hbad as ->|done].
  - cbn [forallb] in Hv. apply andb_true_iff in Hv as [He Hv].
    apply bool_decide_eq_true in He. unfold entry_error in He.
    cbn [app add_vectors map insert_all]. unfold entry_args at 1. munfold.
    destruct (get entry "label") as [e'|label] eqn:Hl; [done|].
    rewrite (get_prop entry "label" "point" label Hl).
    rewrite (get_prop entry "label" "label" label Hl) in Hl. injection Hl as <-.
    destruct (negb (String.eqb (typeof (prop entry "label")) "number")); [done|].
    destruct (bad_point (prop entry "point") numDimensions); [done|].
    destruct (method index "addPoint" _ s) as [[e'|[]] s1]; [done|].
    by apply IH.
Qed.

(** Each entry the loop gets past is inserted. *)
Lemma add_vectors_inv (index numDimensions : value) (entries : list value) :
  forall s s', add_vectors index numDimensions entries s = (inr tt, s') ->
    exists events, trace s' = trace s ++ events
      /\ inserted events = map entry_args entries.
Proof.
  induction entries as [|entry entries IH]; intros s s'.
  - intros [= <-]. exists []. by rewrite app_nil_r.
  - cbn [add_vectors]. munfold. cbn [map]. unfold entry_args at 1.
    destruct (get entry "label") as [e|label] eqn:Hl; [done|].
    rewrite (get_prop entry "label" "point" label Hl).
    rewrite (get_prop entry "label" "label" label Hl) in Hl. injection Hl as <-.
    destruct (negb (String.eqb (typeof (prop entry "label")) "number")); [done|].
    destruct (bad_point (prop entry "point") numDimensions); [done|].
    destruct (method index "addPoint" _ s) as [[e|[]] s1] eqn:E1; [done|].
    apply method_inv in E1 as (f & _ & Ht1 & _).
    intros (events & Ht & Hn)%IH.
    exists (Call "addPoint" f [prop entry "point"; prop entry "label"; Bool false]
            :: events).
    rewrite Ht, Ht1, <- app_assoc. split; [done|].
    change (_ :: events)
      with ([Call "addPoint" f [prop entry "point"; prop entry "label"; Bool false]]
            ++ events).
    rewrite inserted_app, Hn. done.
Qed.

Lemma document_ok_inv (doc : value) :
  document_ok doc = true ->
  (forall q, get doc q = inr (prop doc q))
  /\ truthy (prop doc "vectors") = true /\ isArray (prop doc "vectors") = true
  /\ not_positive_number (prop doc "numDimensions") = false
  /\ truthy (prop doc "spaceName") = true
  /\ is_space_name (prop doc "spaceName") = true.
Proof.
  unfold document_ok. destruct (get doc "vectors") as [e|vectors] eqn:Hg; [done|].
  pose proof (get_prop doc "vectors" "vectors" vectors Hg) as Hv.
  rewrite Hg in Hv. injection Hv as ->.
  rewrite !andb_true_iff, negb_true_iff. intros [[[[? ?] ?] ?] ?].
  repeat apply conj; try done. intros q. by eapply get_prop.
Qed.

(** The structural checks, then the construction and the loop. *)
Lemma load_document_checked (hnswlib : value) (filename : string) (doc : value)
    (s : state) :
  document_ok doc = true ->
  load_document hnswlib filename doc s
  = try_catch
      (index <- method_new hnswlib "HierarchicalNSW"
                  [prop doc "spaceName"; prop doc "numDimensions"; Str ""] ;;
       method index "initIndex"
         [Metadata.maxElements (document_metadata doc);
          Metadata.m (document_metadata doc);
          Metadata.efConstruction (document_metadata doc);
          Metadata.randomSeed (document_metadata doc)] ;;;
       add_vectors index (prop doc "numDimensions") (document_entries doc) ;;;
       logger_log (loaded_json filename (Z.of_nat (length (document_entries doc)))) ;;;
       ret (index, document_metadata doc))
      (fun error => throw (RecreateFailed error)) s.
Proof.
  intros (Hget & Ht & Ha & Hd & Hst & Hsn)%document_ok_inv.
  unfold load_document. munfold. rewrite !Hget, Ht, Ha, Hd, Hst, Hsn. cbn [negb orb].
  unfold document_metadata, document_entries, loaded_json.
  cbn [Metadata.maxElements Metadata.m Metadata.efConstruction Metadata.randomSeed].
  done.
Qed.

(** A document that passes the checks and whose entries are all valid is
    rehydrated from its own metadata and entries. *)
Lemma load_document_spec (hnswlib : value) (filename : string) (doc : value)
    (s : state) :
  document_ok doc = true ->
  forallb (fun entry => bool_decide (entry_error (prop doc "numDimensions") entry = None))
    (document_entries doc) = true ->
  load_document hnswlib filename doc s
  = rehydrate hnswlib (loaded_json filename (Z.of_nat (length (document_entries doc))))
      (document_metadata doc) (map entry_args (document_entries doc)) s.
Proof.
  intros Hok Hv. rewrite load_document_checked by done.
  unfold rehydrate, replay. munfold.
  change (Metadata.spaceName (document_metadata doc)) with (prop doc "spaceName").
  change (Metadata.numDimensions (document_metadata doc)) with (prop doc "numDimensions").
  destruct (method_new hnswlib _ _ s) as [[e|index] s1]; [done|].
  destruct (method index "initIndex" _ s1) as [[e|[]] s2]; [done|].
  rewrite add_vectors_valid by done.
  destruct (insert_all index _ s2) as [[e|[]] s3]; [done|].
  destruct (logger_log _ s3) as [[e|[]] s4]; done.
Qed.

(** Whatever [loadIndexJSON] accepts passes the checks, and comes back
    with the metadata of the document and every entry inserted. *)
Lemma load_document_accepted (hnswlib : value) (filename : string) (doc : value)
    (s s' : state) (index : value) (md : Metadata.t) :
  load_document hnswlib filename doc s = (inr (index, md), s') ->
  document_ok doc = true /\ md = document_metadata doc
  /\ exists events, trace s' = trace s ++ events
       /\ inserted events = map entry_args (document_entries doc).
Proof.
  intros Hload. assert (Hok : document_ok doc = true).
  { revert Hload. unfold load_document, document_ok. munfold.
    destruct (get doc "vectors") as [e|vectors] eqn:Hg; [done|].
    rewrite (get_prop doc "vectors" "numDimensions" vectors Hg).
    rewrite (get_prop doc "vectors" "spaceName" vectors Hg).
    destruct (truthy vectors); [|done]. destruct (isArray vectors); [|done].
    cbn [negb orb andb].
    destruct (not_positive_number (prop doc "numDimensions")); [done|].
    destruct (truthy (prop doc "spaceName")); [|done].
    destruct (is_space_name (prop doc "spaceName")); done. }
  split; [done|]. rewrite load_document_checked in Hload by done.
  revert Hload. munfold.
  destruct (method_new hnswlib _ _ s) as [[e|idx] s1] eqn:E1; [done|].
  apply method_new_inv in E1 as (f & Ht1 & _).
  destruct (method idx "initIndex" _ s1) as [[e|[]] s2] eqn:E2; [done|].
  apply method_inv in E2 as (fi & _ & Ht2 & _).
  destruct (add_vectors idx _ _ s2) as [[e|[]] s3] eqn:E3; [done|].
  apply add_vectors_inv in E3 as (events & Ht3 & Hn).
  destruct (logger_log _ s3) as [[e|[]] s4] eqn:E4; [done|].
  apply logger_log_inv in E4 as (fl & Ht4).
  intros [= -> <- ->]. split; [done|].
  eexists. rewrite Ht4, Ht3, Ht2, Ht1, <- !app_assoc. split; [done|].
  rewrite !inserted_app, Hn. cbn. by rewrite app_nil_r.
Qed.

End TextDecode.

(** ** Reading back the document the text encoder wrote *)

Lemma json_number_finite (x : number) :
  isFinite x = true -> exists n, json_number x = Num n.
Proof. destruct x; try done; cbn; eauto. Qed.

Lemma to_json_record (r : VectorRecord) :
  to_json (record_value r)
  = Some (Obj (<["label" := json_number (label r)]>
               (<["point" := Arr (map json_number (point r))]> ∅))).
Proof.
  unfold record_value. cbn [to_json]. do 2 f_equal.
  rewrite (omap_insert_Some _ _ _ _ (json_number (label r))) by done.
  rewrite (omap_insert_Some _ _ _ _ (Arr (map json_number (point r)))).
  - by rewrite omap_empty.
  - cbn [to_json]. do 2 f_equal. rewrite map_map. done.
Qed.

Lemma text_entry_valid (numDimensions : Z) (r : VectorRecord) :
  valid_record numDimensions r = true ->
  let entry := default Null (to_json (record_value r)) in
  entry_error (Num (Int numDimensions)) entry = None
  /\ entry_args entry = text_args r.
Proof.
  intros ((z & Hz & Hzr) & Hd & Hf)%valid_record_inv entry.
  unfold entry. rewrite to_json_record. cbn [default from_option id].
  unfold entry_error, entry_args, text_args, prop, get.
  rewrite lookup_insert_eq, lookup_insert_ne, lookup_insert_eq by done.
  cbn [default from_option id]. rewrite Hz. cbn [json_number typeof]. split; [|done].
  cbn [String.eqb negb bad_point strict_neq_num].
  rewrite length_map, Hd. unfold Number.strict_eq.
  rewrite bool_decide_eq_true_2 by done. by destruct numDimensions.
Qed.

Lemma is_space_name_truthy (v : value) : is_space_name v = true -> truthy v = true.
Proof.
  destruct v as [| | | |name| | | |]; try done. cbn.
  destruct (String.eqb name "") eqn:E; [|done].
  by apply String.eqb_eq in E as ->.
Qed.

Lemma to_json_vectors (vectors : list VectorRecord) :
  to_json (vectors_value vectors)
  = Some (Arr (map (fun r => default Null (to_json (record_value r))) vectors)).
Proof. unfold vectors_value. cbn [to_json]. by rewrite map_map. Qed.

Section TextEncode.
Context `{Host}.

(** On valid input the text encoder writes a document that passes the
    checks of the decoder and holds the metadata and the records. *)
Lemma build_document_valid (index : value) (md : Options.t) (numDimensions : Z)
    (vectors : list VectorRecord) (s : state) :
  valid_options md = true -> 0 < numDimensions ->
  forallb (valid_record numDimensions) vectors = true ->
  exists data doc,
    build_document index md numDimensions vectors s = (inr data, s)
    /\ JSON_stringify data = JSONText doc
    /\ document_ok doc = true
    /\ document_metadata doc = options_metadata md numDimensions
    /\ prop doc "numDimensions" = Num (Int numDimensions)
    /\ document_entries doc
       = map (fun r => default Null (to_json (record_value r))) vectors.
Proof.
  intros ((name & Hname & Hsp) & (zE & HE & HzE) & (zm & Hm & Hzm) & (zc & Hc & Hzc)
          & (zs & Hs & Hzs))%valid_options_inv Hd Hv.
  unfold build_document. munfold.
  rewrite (maxElements_or_index_given md index zE) by (done || lia).
  rewrite Hname, Hm, Hc, Hs, !num_or_positive by lia.
  assert (Hstr : str_or (Some name) "l2" = name).
  { unfold str_or. destruct (String.eqb name "") eqn:E; [|done].
    apply String.eqb_eq in E as ->. done. }
  rewrite Hstr. eexists. eexists. split; [done|].
  unfold JSON_stringify. cbn [to_json]. split; [done|].
  set (P := <["version":=_]> _).
  assert (Hlk : forall k, prop (Obj (omap to_json P)) k
                          = default Undefined (P !! k ≫= to_json)).
  { intros k. unfold prop, get. by rewrite lookup_omap. }
  assert (Hv' : prop (Obj (omap to_json P)) "vectors"
                = Arr (map (fun r => default Null (to_json (record_value r))) vectors)).
  { rewrite Hlk. change (P !! "vectors") with (Some (vectors_value vectors)).
    cbn [mbind option_bind]. by rewrite to_json_vectors. }
  assert (Hn : prop (Obj (omap to_json P)) "numDimensions" = Num (Int numDimensions)).
  { rewrite Hlk. change (P !! "numDimensions") with (Some (Num (Int numDimensions))).
    done. }
  assert (Hs' : prop (Obj (omap to_json P)) "spaceName" = Str name).
  { rewrite Hlk. by change (P !! "spaceName") with (Some (Str name)). }
  repeat apply conj.
  - unfold document_ok.
    assert (Hg : get (Obj (omap to_json P)) "vectors"
                 = inr (prop (Obj (omap to_json P)) "vectors")) by done.
    rewrite Hg, Hv', Hn, Hs', Hsp.
    rewrite (is_space_name_truthy _ Hsp). cbn.
    by rewrite leb_false by lia.
  - unfold document_metadata, options_metadata. rewrite Hn, Hs', !Hlk.
    rewrite Hname, HE, Hm, Hc, Hs.
    change (P !! "maxElements") with (Some (Num (Int zE))).
    change (P !! "m") with (Some (Num (Int zm))).
    change (P !! "efConstruction") with (Some (Num (Int zc))).
    change (P !! "randomSeed") with (Some (Num (Int zs))).
    cbn. unfold or_else. cbn.
    destruct zE, zm, zc, zs; try lia; done.
  - done.
  - unfold document_entries. by rewrite Hv'.
Qed.

End TextEncode.

(** ** The mock host is cooperative *)

Lemma mock_cooperative : @cooperative MockHost.mock MockHost.hnswlib.
Proof.
  split.
  - exists "HierarchicalNSW". split; [done|]. intros args h.
    exists MockHost.index_object, "initIndex", "addPoint". eexists. done.
  - intros f this args h. cbn [call_void MockHost.mock]. unfold MockHost.m_void.
    repeat case_match; eauto.
Qed.

(** ** The logger slot *)

(** C10: [setLogger] merges its argument with the default logger, never
    with the logger configured before: a method missing from the argument
    is the default one ([log] the no-op, [error] [console.error]), whatever
    the state was; so after [setLogger({log: f})] and then
    [setLogger({error: e})], [logger.log] is the no-op again. *)
Theorem setLogger_merges_with_defaultLogger `{Host} (customLogger : value) (s : state) :
  (forall name,
     logger (snd (setLogger customLogger s)) !! name
     = match spread customLogger !! name with
       | Some v => Some v
       | None => defaultLogger !! name
       end)
  /\ defaultLogger !! "log" = Some (Fun noop)
  /\ defaultLogger !! "error" = Some (Fun "console.error")
  /\ (forall f e : value,
        let s1 := snd (setLogger (Obj {[ "log" := f ]}) s) in
        let s2 := snd (setLogger (Obj {[ "error" := e ]}) s1) in
        logger s1 !! "log" = Some f
        /\ logger s2 !! "log" = Some (Fun noop)
        /\ logger s2 !! "error" = Some e).
Proof.
  repeat apply conj; try done.
  - intros name. cbn [setLogger snd logger]. rewrite lookup_union.
    destruct (spread customLogger !! name), (defaultLogger !! name); done.
Qed.

(** ** Adapter validation *)

Section Validation.
Context `{Host}.

Lemma exposes_get (index : value) (name : string) :
  truthy index = true ->
  exists v, get index name = inr v /\ is_function v = exposes index name.
Proof.
  intros Ht. unfold exposes. destruct index; try done; cbn [get]; eauto.
Qed.

Lemma validateIndex_spec (index : value) (s : state) :
  validateIndex index s
  = (if truthy index
     then if exposes_checked index then inr tt else inl MissingMethods
     else inl IndexRequired, s).
Proof.
  unfold validateIndex. munfold. destruct (truthy index) eqn:Ht; [|done].
  cbn [negb]. unfold exposes_checked.
  destruct (exposes_get index "getNumDimensions" Ht) as (v1 & -> & <-).
  destruct (exposes_get index "getCurrentCount" Ht) as (v2 & -> & <-).
  destruct (exposes_get index "getUsedLabels" Ht) as (v3 & -> & <-).
  destruct (exposes_get index "getPoint" Ht) as (v4 & -> & <-).
  by destruct (is_function v1), (is_function v2), (is_function v3), (is_function v4).
Qed.

End Validation.

Section ValidationOnMock.
Local Existing Instance MockHost.mock.

(** C2, as stated, fails: an adapter that exposes the four operations
    [validateIndex] looks for, and none of point insertion, initialization
    and capacity query, passes the validation. *)
Lemma validateIndex_accepts_four_methods :
  exposes_all Samples.adapter_four = false
  /\ exposes Samples.adapter_four "addPoint" = false
  /\ exposes Samples.adapter_four "initIndex" = false
  /\ exposes Samples.adapter_four "getMaxElements" = false
  /\ validateIndex Samples.adapter_four MockHost.start
     = (inr tt, initial MockHost.empty).
Proof. repeat apply conj; reflexivity. Qed.

End ValidationOnMock.

(** C2, amended: the validation of the save path checks that the adapter
    is truthy and exposes four operations: dimension query, count query,
    label enumeration and point retrieval.  It returns exactly when they
    are all there; otherwise it fails with a ValidationError, and
    [saveIndexToFile] fails with that error before any other work: the
    state, with its trace of calls and file writes, is unchanged. *)
Theorem validateIndex_checks_four_operations `{Host} (index : value) (s : state) :
  (fst (validateIndex index s) = inr tt
   <-> truthy index && exposes_checked index = true)
  /\ (truthy index && exposes_checked index = false ->
      exists e, classify e = ValidationError
        /\ validateIndex index s = (inl e, s)
        /\ forall filename metadata,
             saveIndexToFile index filename metadata s = (inl e, s)).
Proof.
  rewrite validateIndex_spec. split.
  - destruct (truthy index), (exposes_checked index); cbn; split; done.
  - intros Hbad. unfold saveIndexToFile. munfold. rewrite validateIndex_spec.
    destruct (truthy index), (exposes_checked index); try done;
      eexists; (split; [|split; [reflexivity|done]]); done.
Qed.

Section ValidationWitness.
Local Existing Instance MockHost.mock.

Lemma validateIndex_checks_four_operations_witness :
  truthy (Obj ∅) && exposes_checked (Obj ∅) = false
  /\ exists e, classify e = ValidationError
       /\ validateIndex (Obj ∅) MockHost.start
          = (inl e, initial MockHost.empty)
       /\ forall filename metadata,
            saveIndexToFile (Obj ∅) filename metadata MockHost.start
            = (inl e, initial MockHost.empty).
Proof.
  split; [reflexivity|].
  apply (proj2 (@validateIndex_checks_four_operations MockHost.mock (Obj ∅)
                  MockHost.start)).
  reflexivity.
Defined.

End ValidationWitness.

(** ** The binary decoder *)

(** C8: a buffer of at least 40 bytes whose header passes the version,
    numDimensions and numVectors checks, and that is shorter than the size
    the header announces, is rejected with the size-mismatch FormatError.
    The state is unchanged: no index is constructed and no record is read.
    No read is outside the buffer, there or on any other buffer: decode
    either stops at a header check, with a FormatError and nothing done,
    or is the rehydration of the records of the buffer; a range error of
    [Buffer] is not among its outcomes. *)
Theorem truncated_buffer_is_size_mismatch `{Host} (hnswlib : value)
    (filename : string) (buffer : Buffer.t) (s : state) :
  header_ok buffer = true ->
  Buffer.size buffer < expected_size buffer ->
  load_buffer hnswlib filename buffer s
  = (inl (SizeMismatch (expected_size buffer) (Buffer.size buffer)), s)
  /\ classify (SizeMismatch (expected_size buffer) (Buffer.size buffer)) = FormatError
  /\ (forall any : Buffer.t,
        (exists e, classify e = FormatError
           /\ load_buffer hnswlib filename any s = (inl e, s))
        \/ load_buffer hnswlib filename any s
           = rehydrate hnswlib (loaded_binary filename (u32_at any 22))
               (header_metadata any) (buffer_records any) s).
Proof.
  intros Hok Hsize. rewrite load_buffer_spec by done.
  rewrite ltb_true by done. repeat apply conj; try done.
  intros any. rewrite load_buffer_total.
  destruct (header_error any) as [e|] eqn:He; [left|by right].
  exists e. split; [|done]. by eapply header_error_is_format_error.
Qed.

Lemma truncated_buffer_is_size_mismatch_witness :
  header_ok Samples.buffer_truncated = true
  /\ Buffer.size Samples.buffer_truncated = 48
  /\ expected_size Samples.buffer_truncated = 56
  /\ @load_buffer MockHost.mock MockHost.hnswlib "v.bin" Samples.buffer_truncated
       MockHost.start
     = (inl (SizeMismatch 56 48), MockHost.start).
Proof.
  split; [reflexivity|]. split; [reflexivity|]. split; [reflexivity|].
  apply (@truncated_buffer_is_size_mismatch MockHost.mock MockHost.hnswlib "v.bin"
           Samples.buffer_truncated MockHost.start); reflexivity.
Defined.

(** C9: trailing bytes are ignored.  A buffer whose header passes the
    checks and that is at least as long as the size its header announces
    is not rejected: decode is the rehydration of the metadata of the
    header and of the records that lie within the announced size, exactly
    as for the prefix of that size (same result, same calls, same final
    state); the bytes after it are not read.  Whenever decode returns, it
    returns that metadata and has inserted those records; on a host whose
    engine and log sink accept the calls it does return. *)
Theorem trailing_bytes_are_ignored `{Host} (hnswlib : value) (filename : string)
    (buffer : Buffer.t) (s : state) :
  header_ok buffer = true ->
  expected_size buffer <= Buffer.size buffer ->
  let prefix := take (Z.to_nat (expected_size buffer)) buffer in
  load_buffer hnswlib filename buffer s = load_buffer hnswlib filename prefix s
  /\ load_buffer hnswlib filename buffer s
     = rehydrate hnswlib (loaded_binary filename (u32_at prefix 22))
         (header_metadata prefix) (buffer_records prefix) s
  /\ (forall index md s',
        load_buffer hnswlib filename buffer s = (inr (index, md), s') ->
        md = header_metadata prefix
        /\ exists events, trace s' = trace s ++ events
             /\ inserted events = buffer_records prefix)
  /\ (cooperative hnswlib ->
      is_function (default Undefined (logger s !! "log")) = true ->
      exists index s',
        load_buffer hnswlib filename buffer s = (inr (index, header_metadata prefix), s')).
Proof.
  intros Hok Hsize prefix.
  destruct (take_expected buffer Hok Hsize) as (Hok' & He & Hs & Hm & Hr & Hn).
  fold prefix in Hok', He, Hs, Hm, Hr, Hn.
  assert (Hprefix : load_buffer hnswlib filename prefix s
                    = rehydrate hnswlib (loaded_binary filename (u32_at prefix 22))
                        (header_metadata prefix) (buffer_records prefix) s).
  { rewrite load_buffer_spec by done. rewrite ltb_false by lia. done. }
  assert (Hsame : load_buffer hnswlib filename buffer s
                  = load_buffer hnswlib filename prefix s).
  { rewrite Hprefix, load_buffer_spec by done.
    rewrite Hm, Hr, Hn. by rewrite ltb_false by lia. }
  split; [done|]. rewrite Hsame, Hprefix. split; [done|]. split.
  - intros index md s'. apply rehydrate_inv.
  - intros Hc Hlog. by apply rehydrate_cooperative.
Qed.

Lemma trailing_bytes_are_ignored_witness :
  header_ok Samples.buffer_trailing = true
  /\ expected_size Samples.buffer_trailing = 48
  /\ Buffer.size Samples.buffer_trailing = 51
  /\ @load_buffer MockHost.mock MockHost.hnswlib "v.bin" Samples.buffer_trailing
       MockHost.start
     = @load_buffer MockHost.mock MockHost.hnswlib "v.bin"
         (take 48 Samples.buffer_trailing) MockHost.start
  /\ exists index s',
       @load_buffer MockHost.mock MockHost.hnswlib "v.bin" Samples.buffer_trailing
         MockHost.start
       = (inr (index, header_metadata (take 48 Samples.buffer_trailing)), s').
Proof.
  split; [reflexivity|]. split; [reflexivity|]. split; [reflexivity|].
  destruct (@trailing_bytes_are_ignored MockHost.mock MockHost.hnswlib "v.bin"
              Samples.buffer_trailing MockHost.start eq_refl
              ltac:(apply Z.leb_le; reflexivity)) as (Hsame & _ & _ & Hret).
  split; [exact Hsame|]. apply Hret; [exact mock_cooperative|reflexivity].
Defined.

Lemma spaceName_of_out_of_range (code : Z) :
  0 <= code -> ~ (code <= 2) -> spaceName_of code = "l2".
Proof.
  intros H0 H2. unfold spaceName_of.
  destruct (Z.to_nat code) as [|[|[|n]]] eqn:E; try lia. done.
Qed.

(** C6: a space code outside {0, 1, 2} is not rejected.  On a header that
    passes the checks, in a buffer of the announced size, decode goes on
    as for an L2 index: it rehydrates the records of the buffer under the
    space name 'l2'; on a host whose engine and log sink accept the calls
    it succeeds, and the metadata returned has the space name 'l2'. *)
Theorem binary_space_code_defaults_to_l2 `{Host} (hnswlib : value)
    (filename : string) (buffer : Buffer.t) (s : state) :
  header_ok buffer = true ->
  expected_size buffer <= Buffer.size buffer ->
  ~ (u8_at buffer 1 <= 2) ->
  Metadata.spaceName (header_metadata buffer) = Str "l2"
  /\ load_buffer hnswlib filename buffer s
     = rehydrate hnswlib (loaded_binary filename (u32_at buffer 22))
         (header_metadata buffer) (buffer_records buffer) s
  /\ (cooperative hnswlib ->
      is_function (default Undefined (logger s !! "log")) = true ->
      exists index md s',
        load_buffer hnswlib filename buffer s = (inr (index, md), s')
        /\ Metadata.spaceName md = Str "l2").
Proof.
  intros Hok Hsize Hcode.
  assert (Hl2 : Metadata.spaceName (header_metadata buffer) = Str "l2").
  { cbn. f_equal. apply spaceName_of_out_of_range; [|done].
    unfold u8_at. apply le_value_range. }
  rewrite load_buffer_spec by done. rewrite ltb_false by lia.
  repeat apply conj; try done.
  intros Hc Hlog.
  destruct (rehydrate_cooperative hnswlib (loaded_binary filename (u32_at buffer 22))
              (header_metadata buffer) (buffer_records buffer) s Hc Hlog)
    as (index & s' & ->).
  eauto.
Qed.

Lemma binary_space_code_defaults_to_l2_witness :
  header_ok Samples.buffer_code7 = true
  /\ u8_at Samples.buffer_code7 1 = 7
  /\ exists index md s',
       @load_buffer MockHost.mock MockHost.hnswlib "v.bin" Samples.buffer_code7
         MockHost.start = (inr (index, md), s')
       /\ Metadata.spaceName md = Str "l2".
Proof.
  split; [reflexivity|]. split; [reflexivity|].
  apply (@binary_space_code_defaults_to_l2 MockHost.mock MockHost.hnswlib "v.bin"
           Samples.buffer_code7 MockHost.start).
  - reflexivity.
  - apply Z.leb_le. reflexivity.
  - intros Hle. apply Z.leb_le in Hle. discriminate Hle.
  - exact mock_cooperative.
  - reflexivity.
Defined.

(** ** The size of the binary encoding *)

Lemma writeUInt8_length (buf buf' : Buffer.t) (v : number) (offset : Z) :
  Buffer.writeUInt8 buf v offset = inr buf' -> length buf' = length buf.
Proof.
  unfold Buffer.writeUInt8. destruct (Buffer.checkInt v 255); [done|].
  apply splice_length.
Qed.

Lemma writeUInt32LE_length (buf buf' : Buffer.t) (v : number) (offset : Z) :
  Buffer.writeUInt32LE buf v offset = inr buf' -> length buf' = length buf.
Proof.
  unfold Buffer.writeUInt32LE. destruct (Buffer.checkInt v 4294967295); [done|].
  apply splice_length.
Qed.

Lemma writeFloatLE_length (buf buf' : Buffer.t) (v : number) (offset : Z) :
  Buffer.writeFloatLE buf v offset = inr buf' -> length buf' = length buf.
Proof. apply splice_length. Qed.

Lemma fill0_length (buf buf' : Buffer.t) (start stop : Z) :
  Buffer.fill0 buf start stop = inr buf' -> length buf' = length buf.
Proof. apply splice_length. Qed.

Lemma allocUnsafe_length (kMax : Z) (g : byte) (n : Z) (buf : Buffer.t) :
  Buffer.allocUnsafe kMax g n = inr buf -> Buffer.size buf = n.
Proof.
  unfold Buffer.allocUnsafe, Buffer.size. case_match eqn:E; [|done].
  intros [= <-]. apply andb_true_iff in E as [E _]. apply Z.leb_le in E.
  rewrite length_replicate. lia.
Qed.

Lemma write_point_length (p : list number) :
  forall (buf buf' : Buffer.t) (offset offset' : Z),
    write_point buf offset p = inr (buf', offset') -> length buf' = length buf.
Proof.
  induction p as [|x p IH]; intros buf buf' offset offset'; cbn [write_point].
  - by intros [= -> _].
  - destruct (negb (isFinite x)); [done|].
    destruct (Buffer.writeFloatLE buf x offset) as [e|buf1] eqn:E; [done|].
    intros Hw%IH. apply writeFloatLE_length in E. congruence.
Qed.

Lemma write_vectors_length (numDimensions : Z) (vectors : list VectorRecord) :
  forall (buf buf' : Buffer.t) (offset offset' : Z),
    write_vectors numDimensions buf offset vectors = inr (buf', offset') ->
    length buf' = length buf.
Proof.
  induction vectors as [|r vectors IH]; intros buf buf' offset offset';
    cbn [write_vectors].
  - by intros [= -> _].
  - destruct (negb (Z.of_nat (length (point r)) =? numDimensions)); [done|].
    destruct (Buffer.writeUInt32LE buf (label r) offset) as [e|buf1] eqn:E1; [done|].
    destruct (write_point buf1 (offset + 4) (point r)) as [e|[buf2 offset2]] eqn:E2;
      [done|].
    intros Hw%IH. apply writeUInt32LE_length in E1. apply write_point_length in E2.
    congruence.
Qed.

(** C7: a successful binary encode of [numVectors] records of dimension
    [numDimensions] yields exactly [40 + numVectors * (4 + 4 * numDimensions)]
    bytes: the buffer is allocated at that size and every write is in
    place; it is the buffer [saveIndexBinary] hands to [fs.writeFile].
    For 3 records of dimension 3 that is 88 bytes. *)
Theorem binary_encoding_size `{Host} (index : value) (metadata : Options.t)
    (numDimensions : Z) (vectors : list VectorRecord) (s s' : state)
    (buffer : Buffer.t) :
  build_buffer index metadata numDimensions vectors s = (inr buffer, s') ->
  Buffer.size buffer = 40 + Z.of_nat (length vectors) * (4 + 4 * numDimensions)
  /\ (length vectors = 3%nat -> numDimensions = 3 -> Buffer.size buffer = 88)
  /\ (forall filename s'',
        saveIndexBinary index filename metadata numDimensions vectors s = (inr tt, s'') ->
        exists events, trace s'' = trace s' ++ WriteFile filename buffer :: events).
Proof.
  intros Hbuild.
  enough (Buffer.size buffer
          = 40 + Z.of_nat (length vectors) * (4 + 4 * numDimensions)) as Hsize.
  { split; [done|]. split; [intros Hn Hd; rewrite Hsize, Hn, Hd; done|].
    intros filename s''. unfold saveIndexBinary. munfold. rewrite Hbuild.
    unfold ask. destruct (fs_writeFile filename buffer (host s')) as [[e|[]] h']; [done|].
    unfold logger_log. cbn [logger trace].
    destruct (default Undefined (logger s' !! "log")) as [| | | | | | |fl|]; try done.
    destruct (invoke "logger.log" (Fun fl) _ _ _) as [[e|[]] s3] eqn:Hlog; [done|].
    apply invoke_inv in Hlog as [Ht _]. cbn [trace] in Ht.
    intros [= <-]. eexists. rewrite Ht, <- app_assoc. done. }
  revert Hbuild. unfold build_buffer. munfold.
  destruct (Buffer.allocUnsafe _ _ _) as [e|b0] eqn:E0; [done|].
  apply allocUnsafe_length in E0.
  destruct (Buffer.writeUInt8 b0 _ _) as [e|b1] eqn:E1; [done|].
  apply writeUInt8_length in E1.
  destruct (Buffer.writeUInt8 b1 _ _) as [e|b2] eqn:E2; [done|].
  apply writeUInt8_length in E2.
  destruct (Buffer.writeUInt32LE b2 _ _) as [e|b3] eqn:E3; [done|].
  apply writeUInt32LE_length in E3.
  destruct (maxElements_or_index metadata index s) as [[e|maxElements] s1]; [done|].
  destruct (Buffer.writeUInt32LE b3 _ _) as [e|b4] eqn:E4; [done|].
  apply writeUInt32LE_length in E4.
  destruct (Buffer.writeUInt32LE b4 _ _) as [e|b5] eqn:E5; [done|].
  apply writeUInt32LE_length in E5.
  destruct (Buffer.writeUInt32LE b5 _ _) as [e|b6] eqn:E6; [done|].
  apply writeUInt32LE_length in E6.
  destruct (Buffer.writeUInt32LE b6 _ _) as [e|b7] eqn:E7; [done|].
  apply writeUInt32LE_length in E7.
  destruct (Buffer.writeUInt32LE b7 _ _) as [e|b8] eqn:E8; [done|].
  apply writeUInt32LE_length in E8.
  destruct (Buffer.fill0 b8 _ _) as [e|b9] eqn:E9; [done|].
  apply fill0_length in E9.
  destruct (write_vectors numDimensions b9 _ vectors) as [e|[b10 offset]] eqn:E10; [done|].
  apply write_vectors_length in E10.
  intros [= <- _]. cbn [fst]. unfold Buffer.size in *. lia.
Qed.

(** The scenario of the specification: three records of dimension 3 are
    encoded in 88 bytes. *)
Lemma binary_encoding_size_witness :
  @build_buffer MockHost.mock MockHost.index_object MockHost.options 3
    MockHost.unit_vectors MockHost.ready = (inr MockHost.encoded, MockHost.ready)
  /\ Buffer.size MockHost.encoded = 88.
Proof.
  assert (Hbuild : @build_buffer MockHost.mock MockHost.index_object MockHost.options 3
                     MockHost.unit_vectors MockHost.ready
                   = (inr MockHost.encoded, MockHost.ready))
    by by_evaluation.
  split; [exact Hbuild|].
  apply (@binary_encoding_size MockHost.mock MockHost.index_object MockHost.options 3
           MockHost.unit_vectors MockHost.ready MockHost.ready MockHost.encoded Hbuild);
    reflexivity.
Defined.

(** ** The declared vector count *)

Lemma insert_other_get (props : gmap string value) (k q : string) (v : value) :
  k <> q -> get (Obj (<[k := v]> props)) q = get (Obj props) q.
Proof. intros Hne. cbn [get]. by rewrite lookup_insert_ne. Qed.

(** [loadIndexJSON] never reads [numVectors]. *)
Lemma load_document_ignores_numVectors `{Host} (hnswlib : value) (filename : string)
    (props : gmap string value) (v : value) (s : state) :
  load_document hnswlib filename (Obj (<["numVectors" := v]> props)) s
  = load_document hnswlib filename (Obj props) s.
Proof.
  unfold load_document. by rewrite !insert_other_get.
Qed.

(** C3, as stated, fails for the text form: a document that announces
    five vectors and holds one is accepted, and one record is decoded. *)
Lemma text_decode_accepts_wrong_count :
  get Samples.doc_count5 "numVectors" = inr (Num (Int 5))
  /\ length (document_entries Samples.doc_count5) = 1%nat
  /\ exists index md s',
       @load_document MockHost.mock MockHost.hnswlib "v.json" Samples.doc_count5
         MockHost.start = (inr (index, md), s')
       /\ insertions (trace s') = 1%nat
       /\ length (MockHost.points (host s')) = 1%nat.
Proof.
  set (r := @load_document MockHost.mock MockHost.hnswlib "v.json" Samples.doc_count5
              MockHost.start).
  split; [by_evaluation|]. split; [by_evaluation|].
  exists (returned_index r), (returned_metadata r), (snd r).
  repeat apply conj; by_evaluation.
Qed.

(** C3, amended: in the binary form, what decode accepts has as many
    decoded records as the header declares; in the text form it has as
    many as the [vectors] array has entries, and the declared [numVectors]
    is not read: changing it changes nothing. *)
Theorem decoded_record_count `{Host} (hnswlib : value) (filename : string) :
  (forall buffer s s' index md,
     load_buffer hnswlib filename buffer s = (inr (index, md), s') ->
     exists events, trace s' = trace s ++ events
       /\ insertions events = Z.to_nat (u32_at buffer 22))
  /\ (forall doc s s' index md,
        load_document hnswlib filename doc s = (inr (index, md), s') ->
        exists events, trace s' = trace s ++ events
          /\ insertions events = length (document_entries doc))
  /\ (forall props v s,
        load_document hnswlib filename (Obj (<["numVectors" := v]> props)) s
        = load_document hnswlib filename (Obj props) s).
Proof.
  repeat apply conj.
  - intros buffer s s' index md Hload.
    destruct (load_buffer_accepted _ _ _ _ _ _ Hload) as [Hok Hsize].
    rewrite load_buffer_spec in Hload by done. rewrite ltb_false in Hload by lia.
    apply rehydrate_inv in Hload as (_ & events & Ht & Hi).
    exists events. split; [done|]. unfold insertions. rewrite Hi.
    apply length_records_at.
  - intros doc s s' index md Hload.
    apply load_document_accepted in Hload as (_ & _ & events & Ht & Hi).
    exists events. split; [done|]. unfold insertions. by rewrite Hi, length_map.
  - intros props v s. apply load_document_ignores_numVectors.
Qed.

Lemma decoded_record_count_witness :
  exists index md s',
    @load_buffer MockHost.mock MockHost.hnswlib "v.bin" Samples.buffer_code7
      MockHost.start = (inr (index, md), s')
    /\ u32_at Samples.buffer_code7 22 = 1
    /\ exists events, trace s' = trace MockHost.start ++ events
         /\ insertions events = 1%nat.
Proof.
  set (r := @load_buffer MockHost.mock MockHost.hnswlib "v.bin" Samples.buffer_code7
              MockHost.start).
  assert (E : r = (inr (returned_index r, returned_metadata r), snd r))
    by by_evaluation.
  exists (returned_index r), (returned_metadata r), (snd r).
  split; [exact E|]. split; [by_evaluation|].
  exact (proj1 (@decoded_record_count MockHost.mock MockHost.hnswlib "v.bin")
           Samples.buffer_code7 MockHost.start _ _ _ E).
Defined.

(** ** The defaults of the text decoder *)

(** C4, as stated, fails: a document in which the key [m] is present with
    the value 0 is accepted, and the metadata returned has [m = 16]. *)
Lemma text_decode_replaces_zero_m :
  get Samples.doc_m0 "m" = inr (Num (Int 0))
  /\ exists index md s',
       @load_document MockHost.mock MockHost.hnswlib "v.json" Samples.doc_m0
         MockHost.start = (inr (index, md), s')
       /\ Metadata.m md = Num (Int 16)
       /\ Metadata.m md <> Num (Int 0).
Proof.
  set (r := @load_document MockHost.mock MockHost.hnswlib "v.json" Samples.doc_m0
              MockHost.start).
  assert (Hm : Metadata.m (returned_metadata r) = Num (Int 16)) by by_evaluation.
  split; [by_evaluation|].
  exists (returned_index r), (returned_metadata r), (snd r).
  split; [by_evaluation|]. split; [exact Hm|]. rewrite Hm. discriminate.
Qed.

(** C4, amended: for every text document that decode accepts, the
    metadata returned carries the document's own value of [m],
    [efConstruction], [randomSeed] and [maxElements] when the key is
    present with a truthy value, and the default 16, 200, 100 and 100 when
    the key is absent or its value is falsy (0, null, false, the empty
    string). *)
Theorem text_decode_defaults `{Host} (hnswlib : value) (filename : string)
    (doc : value) (s s' : state) (index : value) (md : Metadata.t) :
  load_document hnswlib filename doc s = (inr (index, md), s') ->
  exists props, doc = Obj props
    /\ Metadata.m md = own_or (props !! "m") (Num (Int 16))
    /\ Metadata.efConstruction md = own_or (props !! "efConstruction") (Num (Int 200))
    /\ Metadata.randomSeed md = own_or (props !! "randomSeed") (Num (Int 100))
    /\ Metadata.maxElements md = own_or (props !! "maxElements") (Num (Int 100)).
Proof.
  intros (Hok & -> & _)%load_document_accepted.
  destruct doc as [| | | |str|items|props| |]; try done.
  exists props. split; [done|]. unfold document_metadata, prop, own_or, or_else.
  cbn [get Metadata.m Metadata.efConstruction Metadata.randomSeed Metadata.maxElements].
  repeat apply conj.
  - by destruct (props !! "m").
  - by destruct (props !! "efConstruction").
  - by destruct (props !! "randomSeed").
  - by destruct (props !! "maxElements").
Qed.

Lemma text_decode_defaults_witness :
  exists index md s' props,
    @load_document MockHost.mock MockHost.hnswlib "v.json" Samples.doc_m0
      MockHost.start = (inr (index, md), s')
    /\ Samples.doc_m0 = Obj props
    /\ Metadata.m md = own_or (props !! "m") (Num (Int 16))
    /\ Metadata.efConstruction md = own_or (props !! "efConstruction") (Num (Int 200))
    /\ Metadata.randomSeed md = own_or (props !! "randomSeed") (Num (Int 100))
    /\ Metadata.maxElements md = own_or (props !! "maxElements") (Num (Int 100)).
Proof.
  set (r := @load_document MockHost.mock MockHost.hnswlib "v.json" Samples.doc_m0
              MockHost.start).
  assert (E : r = (inr (returned_index r, returned_metadata r), snd r))
    by by_evaluation.
  destruct (@text_decode_defaults MockHost.mock MockHost.hnswlib "v.json"
              Samples.doc_m0 MockHost.start _ _ _ E) as (props & Hp).
  exists (returned_index r), (returned_metadata r), (snd r), props.
  split; [exact E|]. exact Hp.
Defined.

(** ** Validation and construction in the text decoder *)

(** C5, as stated, fails: on a document whose second record has a string
    for label, decode fails, but only after it has constructed the index,
    initialised it and inserted the first record. *)
Lemma text_decode_constructs_before_validating :
  entry_error (Num (Int 2)) (Samples.entry (Str "eight") [Num (Int 0); Num (Int 1)])
  = Some InvalidLabel
  /\ exists s',
       @load_document MockHost.mock MockHost.hnswlib "v.json" Samples.doc_bad_label
         MockHost.start = (inl (RecreateFailed InvalidLabel), s')
       /\ map is_construction (trace s') = [true; false; false]
       /\ insertions (trace s') = 1%nat
       /\ MockHost.points (host s') = [ {| label := Int 7; point := [Int 1; Int 0] |} ]
       /\ trace s' <> trace MockHost.start.
Proof.
  set (r := @load_document MockHost.mock MockHost.hnswlib "v.json"
              Samples.doc_bad_label MockHost.start).
  assert (Ht : map is_construction (trace (snd r)) = [true; false; false])
    by by_evaluation.
  split; [by_evaluation|]. exists (snd r).
  repeat apply conj; try by_evaluation.
  intros Heq. rewrite Heq in Ht. discriminate Ht.
Qed.

(** C5, amended: on a text document that passes the structural checks and
    contains an invalid record, decode fails, for every host; validation
    is interleaved with insertion, so the failure comes after the index
    has been constructed and initialised and the records before the first
    invalid one have been inserted: the final state is the one this
    replay leaves, and the error is the one of the invalid record unless
    the engine threw first.  (A document that fails a structural check is
    rejected with the state unchanged.) *)
Theorem text_decode_invalid_record `{Host} (hnswlib : value) (filename : string)
    (doc : value) (s : state) :
  (document_ok doc = false ->
   exists e, load_document hnswlib filename doc s = (inl e, s))
  /\ (forall pre bad post e,
        document_ok doc = true ->
        document_entries doc = pre ++ bad :: post ->
        forallb (fun entry =>
                   bool_decide (entry_error (prop doc "numDimensions") entry = None))
          pre = true ->
        entry_error (prop doc "numDimensions") bad = Some e ->
        load_document hnswlib filename doc s
        = match replay hnswlib (document_metadata doc) (map entry_args pre) s with
          | (inl e', s') => (inl (RecreateFailed e'), s')
          | (inr _, s') => (inl (RecreateFailed e), s')
          end).
Proof.
  split.
  - unfold load_document, document_ok. munfold.
    destruct (get doc "vectors") as [e|vectors] eqn:Hg; [eauto|].
    rewrite (get_prop doc "vectors" "numDimensions" vectors Hg).
    rewrite (get_prop doc "vectors" "spaceName" vectors Hg).
    destruct (truthy vectors); [|eauto]. destruct (isArray vectors); [|eauto].
    cbn [negb orb andb].
    destruct (not_positive_number (prop doc "numDimensions")); [eauto|].
    destruct (truthy (prop doc "spaceName")); [|eauto].
    destruct (is_space_name (prop doc "spaceName")); [done|eauto].
  - intros pre bad post e Hok Hentries Hpre Hbad.
    rewrite load_document_checked by done. rewrite Hentries.
    unfold replay. munfold.
    change (Metadata.spaceName (document_metadata doc)) with (prop doc "spaceName").
    change (Metadata.numDimensions (document_metadata doc)) with (prop doc "numDimensions").
    destruct (method_new hnswlib _ _ s) as [[e'|index] s1]; [done|].
    destruct (method index "initIndex" _ s1) as [[e'|[]] s2]; [done|].
    rewrite (add_vectors_invalid index _ pre bad post e Hpre Hbad).
    destruct (insert_all index _ s2) as [[e'|[]] s3]; done.
Qed.

Lemma text_decode_invalid_record_witness :
  document_ok Samples.doc_bad_label = true
  /\ @load_document MockHost.mock MockHost.hnswlib "v.json" Samples.doc_bad_label
       MockHost.start
     = match @replay MockHost.mock MockHost.hnswlib
               (document_metadata Samples.doc_bad_label)
               (map entry_args [Samples.entry (Num (Int 7)) [Num (Int 1); Num (Int 0)]])
               MockHost.start with
       | (inl e', s') => (inl (RecreateFailed e'), s')
       | (inr _, s') => (inl (RecreateFailed InvalidLabel), s')
       end.
Proof.
  split; [reflexivity|].
  apply (proj2 (@text_decode_invalid_record MockHost.mock MockHost.hnswlib "v.json"
                  Samples.doc_bad_label MockHost.start)
           [Samples.entry (Num (Int 7)) [Num (Int 1); Num (Int 0)]]
           (Samples.entry (Str "eight") [Num (Int 0); Num (Int 1)]) [] InvalidLabel);
    reflexivity.
Defined.

(** ** The round trip *)

Section RoundTrip.
Context `{Host}.

Lemma decodes_as_rehydrate (load : value -> string -> M (value * Metadata.t))
    (message : string -> string) (md : Metadata.t) (records : list (value * value)) :
  (forall hnswlib filename s,
     load hnswlib filename s = rehydrate hnswlib (message filename) md records s) ->
  decodes_as load message md records.
Proof.
  intros Hload hnswlib filename s. rewrite Hload. repeat apply conj.
  - done.
  - intros index md' s'. apply rehydrate_inv.
  - intros Hc Hlog. by apply rehydrate_cooperative.
Qed.

(** The buffer the encoder writes for valid input is decoded as the
    rehydration of the metadata and of the records at 32-bit precision. *)
Lemma binary_round_trip (md : Options.t) (numDimensions : Z)
    (vectors : list VectorRecord) :
  valid_options md = true ->
  1 <= numDimensions <= 100000 ->
  forallb (valid_record numDimensions) vectors = true ->
  Z.of_nat (length vectors) <= 100000000 ->
  decodes_as
    (fun hnswlib filename =>
       load_buffer hnswlib filename
         (options_header md numDimensions (Z.of_nat (length vectors))
          ++ records_bytes vectors))
    (fun filename => loaded_binary filename (Z.of_nat (length vectors)))
    (options_metadata md numDimensions) (map binary_args vectors).
Proof.
  intros Hmd Hd Hv Hn. apply decodes_as_rehydrate. intros hnswlib filename s.
  pose proof (valid_options_inv md Hmd)
    as ((name & Hname & Hsp) & (zE & HE & HzE) & (zm & Hm & Hzm) & (zc & Hc & Hzc)
        & (zs & Hs & Hzs)).
  destruct (spaceNameCode_of_range (str_or (Options.spaceName md) "l2"))
    as (c & Hcode & Hcr).
  pose proof (length_records_bytes _ _ Hv) as Hlen.
  set (buffer := options_header md numDimensions (Z.of_nat (length vectors))
                 ++ records_bytes vectors).
  assert (Hfields :
    u8_at buffer 0 = 1 /\ u8_at buffer 1 = c
    /\ u32_at buffer 2 = numDimensions /\ u32_at buffer 6 = zE /\ u32_at buffer 10 = zm
    /\ u32_at buffer 14 = zc /\ u32_at buffer 18 = zs
    /\ u32_at buffer 22 = Z.of_nat (length vectors)
    /\ Buffer.size buffer = 40 + Buffer.size (records_bytes vectors)).
  { unfold buffer, options_header.
    rewrite Hcode, HE, Hm, Hc, Hs, !num_or_positive, !stored_u32_Int by lia.
    apply header_fields; lia. }
  destruct Hfields as (H0 & H1 & H2 & H6 & H10 & H14 & H18 & H22 & Hsize).
  unfold Buffer.size in Hsize at 2. rewrite Hlen in Hsize.
  assert (Hexp : expected_size buffer = Buffer.size buffer).
  { unfold expected_size. rewrite H2, H22, Hsize. done. }
  rewrite load_buffer_spec.
  - rewrite Hexp, Z.ltb_irrefl, H22. f_equal.
    + unfold header_metadata, options_metadata.
      rewrite H1, H2, H6, H10, H14, H18, Hname, HE, Hm, Hc, Hs. cbn [given_number given_string].
      do 2 f_equal. rewrite Hname in Hcode. unfold str_or in Hcode.
      assert (Hne : String.eqb name "" = false).
      { destruct (String.eqb name "") eqn:E; [|done].
        apply String.eqb_eq in E as ->. done. }
      rewrite Hne in Hcode.
      rewrite <- (spaceName_round_trip name Hsp), Hcode, stored_u32_Int by lia. done.
    + unfold buffer_records. rewrite H2, H22, Nat2Z.id. unfold buffer, options_header.
      by apply records_at_header.
  - unfold header_ok. rewrite Hsize, H0, H2, H22.
    rewrite (leb_true 40), (ltb_true 0), !leb_true by nia. done.
Qed.

(** The document the text encoder writes for valid input is decoded as
    the rehydration of the metadata and of the records as JSON writes
    them. *)
Lemma text_round_trip (md : Options.t) (numDimensions : Z)
    (vectors : list VectorRecord) (doc : value) :
  document_ok doc = true ->
  document_metadata doc = options_metadata md numDimensions ->
  prop doc "numDimensions" = Num (Int numDimensions) ->
  document_entries doc
  = map (fun r => default Null (to_json (record_value r))) vectors ->
  forallb (valid_record numDimensions) vectors = true ->
  decodes_as (fun hnswlib filename => load_document hnswlib filename doc)
    (fun filename => loaded_json filename (Z.of_nat (length vectors)))
    (options_metadata md numDimensions) (map text_args vectors).
Proof.
  intros Hok Hmd Hd He Hv. apply decodes_as_rehydrate. intros hnswlib filename s.
  rewrite load_document_spec; [|done|].
  - rewrite Hmd, He, length_map, map_map.
    rewrite (map_ext_in _ text_args); [done|].
    intros r Hr. apply text_entry_valid with numDimensions.
    rewrite forallb_forall in Hv. by apply Hv.
  - rewrite Hd, He. apply forallb_forall. intros entry Hin.
    apply in_map_iff in Hin as (r & <- & Hr). apply bool_decide_eq_true.
    apply text_entry_valid. rewrite forallb_forall in Hv. by apply Hv.
Qed.

End RoundTrip.

Lemma json_number_finite_nonzero (x : number) :
  isFinite x = true -> x <> NegZero -> json_number x = Num x.
Proof. by destruct x. Qed.

Section RoundTripOnMock.
Local Existing Instance MockHost.mock.

(** C1, as stated, fails: metadata with a random seed of 0, a valid
    unsigned 32-bit value, comes back from both codecs with the seed 100,
    because the encoders write [metadata.randomSeed || 100]. *)
Lemma round_trip_replaces_zero_seed :
  Options.randomSeed Samples.options_seed0 = Some (Int 0)
  /\ forallb (valid_record 3) MockHost.unit_vectors = true
  /\ build_buffer MockHost.index_object Samples.options_seed0 3 MockHost.unit_vectors
       MockHost.ready = (inr Samples.encoded_seed0, MockHost.ready)
  /\ (exists index md s',
        load_buffer MockHost.hnswlib "v.bin" Samples.encoded_seed0 MockHost.start
        = (inr (index, md), s')
        /\ Metadata.randomSeed md = Num (Int 100)
        /\ Metadata.randomSeed md <> Num (Int 0))
  /\ build_document MockHost.index_object Samples.options_seed0 3 MockHost.unit_vectors
       MockHost.ready = (inr Samples.data_seed0, MockHost.ready)
  /\ JSON_stringify Samples.data_seed0 = JSONText Samples.document_seed0
  /\ (exists index md s',
        load_document MockHost.hnswlib "v.json" Samples.document_seed0 MockHost.start
        = (inr (index, md), s')
        /\ Metadata.randomSeed md = Num (Int 100)
        /\ Metadata.randomSeed md <> Num (Int 0)).
Proof.
  set (rb := load_buffer MockHost.hnswlib "v.bin" Samples.encoded_seed0 MockHost.start).
  set (rt := load_document MockHost.hnswlib "v.json" Samples.document_seed0 MockHost.start).
  assert (Hb : Metadata.randomSeed (returned_metadata rb) = Num (Int 100))
    by by_evaluation.
  assert (Ht : Metadata.randomSeed (returned_metadata rt) = Num (Int 100))
    by by_evaluation.
  repeat apply conj; try by_evaluation.
  - exists (returned_index rb), (returned_metadata rb), (snd rb).
    split; [by_evaluation|]. split; [exact Hb|]. rewrite Hb. discriminate.
  - exists (returned_index rt), (returned_metadata rt), (snd rt).
    split; [by_evaluation|]. split; [exact Ht|]. rewrite Ht. discriminate.
Qed.

End RoundTripOnMock.

(** C1, amended: take metadata whose space name is one of the three names
    and whose maxElements, m, efConstruction and randomSeed are present,
    non-zero unsigned 32-bit integers, a dimension between 1 and 100000,
    and at most 100000000 records with unsigned 32-bit labels and points
    of that dimension with finite components, such that the buffer fits
    the platform's limit.  Then both encoders succeed, without touching
    the state, and decoding what they wrote is the rehydration of the same
    metadata and the same records in the same order: the binary decoder
    inserts each component rounded to 32-bit float precision, which has
    the same binary32 image as the component; the text decoder inserts
    each component as JSON writes it, that is unchanged unless it is
    negative zero. *)
Theorem codec_round_trip `{Host} (index : value) (metadata : Options.t)
    (numDimensions : Z) (vectors : list VectorRecord) (s : state) :
  valid_options metadata = true ->
  1 <= numDimensions <= 100000 ->
  forallb (valid_record numDimensions) vectors = true ->
  Z.of_nat (length vectors) <= 100000000 ->
  40 + Z.of_nat (length vectors) * (4 + numDimensions * 4) <= kMaxLength ->
  (exists buffer,
     build_buffer index metadata numDimensions vectors s = (inr buffer, s)
     /\ decodes_as (fun hnswlib filename => load_buffer hnswlib filename buffer)
          (fun filename => loaded_binary filename (Z.of_nat (length vectors)))
          (options_metadata metadata numDimensions) (map binary_args vectors))
  /\ (exists data doc,
        build_document index metadata numDimensions vectors s = (inr data, s)
        /\ JSON_stringify data = JSONText doc
        /\ decodes_as (fun hnswlib filename => load_document hnswlib filename doc)
             (fun filename => loaded_json filename (Z.of_nat (length vectors)))
             (options_metadata metadata numDimensions) (map text_args vectors))
  /\ Forall (fun r =>
       Forall (fun x =>
                 Float32.bits (Float32.fround x) = Float32.bits x
                 /\ (x <> NegZero -> json_number x = Num x)) (point r)) vectors.
Proof.
  intros Hmd Hd Hv Hn Hmax. repeat apply conj.
  - eexists. split; [apply build_buffer_valid; (done || lia)|].
    by apply binary_round_trip.
  - destruct (build_document_valid index metadata numDimensions vectors s Hmd
                ltac:(lia) Hv) as (data & doc & Hb & Hj & Hok & Hm & Hnd & He).
    exists data, doc. split; [done|]. split; [done|].
    by apply text_round_trip.
  - apply Forall_forall. intros r Hr. apply Forall_forall. intros x Hx.
    rewrite forallb_forall in Hv. apply list_elem_of_In in Hr, Hx.
    apply Hv in Hr. apply valid_record_inv in Hr as (_ & _ & Hf).
    rewrite forallb_forall in Hf. apply Hf in Hx.
    split; [by apply bits_fround|]. intros Hnz. by apply json_number_finite_nonzero.
Qed.

Lemma codec_round_trip_witness :
  valid_options MockHost.options = true
  /\ forallb (valid_record 3) MockHost.unit_vectors = true
  /\ exists buffer,
       @build_buffer MockHost.mock MockHost.index_object MockHost.options 3
         MockHost.unit_vectors MockHost.ready = (inr buffer, MockHost.ready)
       /\ @decodes_as MockHost.mock
            (fun hnswlib filename => load_buffer hnswlib filename buffer)
            (fun filename => loaded_binary filename 3)
            (options_metadata MockHost.options 3)
            (map binary_args MockHost.unit_vectors).
Proof.
  split; [reflexivity|]. split; [reflexivity|].
  apply (@codec_round_trip MockHost.mock MockHost.index_object MockHost.options 3
           MockHost.unit_vectors MockHost.ready).
  - reflexivity.
  - lia.
  - reflexivity.
  - simpl. lia.
  - apply Z.leb_le. reflexivity.
Defined.

(** * Further properties of [index.js] *)

(** ** File names *)

Lemma trimStart_blank (s : string) : blank (trimStart s) = blank s.
Proof.
  induction s as [|c s IH]; [done|]. cbn [trimStart blank].
  destruct (is_whitespace c) eqn:E; [by rewrite IH|]. cbn [blank]. by rewrite E.
Qed.

Lemma trimEnd_blank (s : string) : (String.length (trimEnd s) =? 0)%nat = blank s.
Proof.
  induction s as [|c s IH]; [done|]. cbn [trimEnd blank].
  destruct (trimEnd s) as [|c' t].
  - rewrite <- IH. by destruct (is_whitespace c).
  - rewrite <- IH. cbn. by rewrite andb_false_r.
Qed.

Lemma trim_blank (s : string) : (String.length (trim s) =? 0)%nat = blank s.
Proof. unfold trim. by rewrite trimEnd_blank, trimStart_blank. Qed.

Lemma validateFilename_spec `{Host} (filename : value) (s : state) :
  validateFilename filename s
  = (match filename with
     | Str name => if String.eqb name "" then inl FilenameNotString
                   else if blank name then inl FilenameEmpty else inr tt
     | _ => inl FilenameNotString
     end, s).
Proof.
  unfold validateFilename. munfold. destruct filename as [| |b|n|name|items|props|f|e];
    try done; cbn [truthy typeof].
  - by destruct b.
  - by destruct (Number.truthy n).
  - destruct (String.eqb name ""); [done|]. cbn. rewrite trim_blank.
    by destruct (blank name).
Qed.

Lemma validateFilename_ok `{Host} (filename : value) (s : state) :
  filename_ok filename = true -> validateFilename filename s = (inr tt, s).
Proof.
  rewrite validateFilename_spec. destruct filename as [| | | |name| | | |]; try done.
  cbn. destruct name; [done|]. cbn [String.eqb]. by destruct (blank _).
Qed.

Lemma validateFilename_bad `{Host} (filename : value) (s : state) :
  filename_ok filename = false ->
  exists e, (e = FilenameNotString \/ e = FilenameEmpty)
    /\ validateFilename filename s = (inl e, s).
Proof.
  rewrite validateFilename_spec. destruct filename as [| | | |name| | | |]; eauto.
  cbn. destruct (String.eqb name ""); [eauto|]. destruct (blank name); [eauto|done].
Qed.

(** X1: [validateFilename] accepts exactly the strings that hold a
    character other than white space, and changes nothing.  What is not a
    string, and the empty string, are refused with 'Filename must be a
    non-empty string'; a string of white space only with 'Filename cannot
    be empty'. *)
Theorem validateFilename_accepts_nonblank_strings `{Host} (filename : value) (s : state) :
  (fst (validateFilename filename s) = inr tt
   <-> exists name, filename = Str name /\ blank name = false)
  /\ (forall name, filename = Str name -> name <> "" -> blank name = true ->
      validateFilename filename s = (inl FilenameEmpty, s))
  /\ (filename = Str "" \/ typeof filename <> "string" ->
      validateFilename filename s = (inl FilenameNotString, s))
  /\ snd (validateFilename filename s) = s.
Proof.
  rewrite validateFilename_spec. split; [|split; [|split]].
  - cbn [fst]. split.
    + intros Hr. destruct filename as [| | | |name| | | |]; try discriminate Hr.
      exists name. split; [done|].
      destruct (String.eqb name ""); [discriminate Hr|]. by destruct (blank name).
    + intros (name & -> & Hb). rewrite Hb. destruct name; done.
  - intros name -> Hne Hb. rewrite Hb.
    destruct (String.eqb name "") eqn:E; [|done]. by apply String.eqb_eq in E.
  - intros [->|Hty]; [done|]. by destruct filename.
  - done.
Qed.

(** X2: both public functions validate the file name before anything is
    done.  With a file name that is refused, [saveIndexToFile] (on an
    adapter that passes its validation) and [loadIndexFromFile] (whatever
    the module passed for [hnswlib]) fail with the error of the file name and
    leave the state as it was: no call of the engine, no request to the
    file system, nothing logged. *)
Theorem invalid_filename_stops_save_and_load `{Host} (index hnswlib filename : value)
    (metadata : Options.t) (s : state) :
  filename_ok filename = false ->
  (truthy index && exposes_checked index = true ->
   exists e, (e = FilenameNotString \/ e = FilenameEmpty)
     /\ saveIndexToFile index filename metadata s = (inl e, s))
  /\ exists e, (e = FilenameNotString \/ e = FilenameEmpty)
       /\ loadIndexFromFile hnswlib filename s = (inl e, s).
Proof.
  intros Hbad. destruct (validateFilename_bad filename s Hbad) as (e & He & Hv).
  split.
  - intros [Ht Hx]%andb_true_iff. exists e. split; [done|].
    unfold saveIndexToFile. munfold. rewrite validateIndex_spec, Ht, Hx, Hv. done.
  - exists e. split; [done|]. unfold loadIndexFromFile. munfold. by rewrite Hv.
Qed.

Lemma invalid_filename_stops_save_and_load_witness :
  filename_ok (Str "  ") = false
  /\ (truthy MockHost.index_object && exposes_checked MockHost.index_object = true ->
      exists e, (e = FilenameNotString \/ e = FilenameEmpty)
        /\ @saveIndexToFile MockHost.mock MockHost.index_object (Str "  ")
             MockHost.options MockHost.ready = (inl e, MockHost.ready))
  /\ exists e, (e = FilenameNotString \/ e = FilenameEmpty)
       /\ @loadIndexFromFile MockHost.mock Undefined (Str "  ") MockHost.ready
          = (inl e, MockHost.ready).
Proof.
  split; [reflexivity|].
  apply (@invalid_filename_stops_save_and_load MockHost.mock MockHost.index_object
           Undefined (Str "  ") MockHost.options MockHost.ready).
  reflexivity.
Defined.

(** ** Calls and requests to the file system *)

Lemma fs_requests_app (a b : list event) :
  fs_requests (a ++ b) = fs_requests a ++ fs_requests b.
Proof. apply filter_app. Qed.

Section Quiet.
Context `{Host}.

Lemma extends_refl (s : state) : extends s s [].
Proof. split; [done|]. by rewrite app_nil_r. Qed.

Lemma extends_trans (s1 s2 s3 : state) (a b : list event) :
  extends s1 s2 a -> extends s2 s3 b -> extends s1 s3 (a ++ b).
Proof.
  intros [Hl1 Ht1] [Hl2 Ht2]. split; [congruence|]. by rewrite Ht2, Ht1, app_assoc.
Qed.

Lemma quiet_ret {A} (a : A) : quiet (ret a).
Proof. intros s r s' [= <- <-]. exists []. split; [apply extends_refl|done]. Qed.

Lemma quiet_throw {A} (e : error) : quiet (@throw _ A e).
Proof. intros s r s' [= <- <-]. exists []. split; [apply extends_refl|done]. Qed.

Lemma quiet_lift {A} (x : error + A) : quiet (lift x).
Proof. intros s r s' [= <- <-]. exists []. split; [apply extends_refl|done]. Qed.

Lemma quiet_throw_if (c : bool) (e : error) : quiet (throw_if c e).
Proof. destruct c; [apply quiet_throw|apply quiet_ret]. Qed.

Lemma quiet_bind {A B} (m : M A) (k : A -> M B) :
  quiet m -> (forall a, quiet (k a)) -> quiet (bind m k).
Proof.
  intros Hm Hk s r s'. unfold bind.
  destruct (m s) as [[e|a] s1] eqn:E1.
  - intros [= <- <-]. destruct (Hm _ _ _ E1) as (ev & He & Hf). eauto.
  - intros E2. destruct (Hm _ _ _ E1) as (ev1 & He1 & Hf1).
    destruct (Hk _ _ _ _ E2) as (ev2 & He2 & Hf2).
    exists (ev1 ++ ev2). split; [by eapply extends_trans|].
    by rewrite fs_requests_app, Hf1, Hf2.
Qed.

Lemma quiet_try_catch {A} (m : M A) (handler : error -> M A) :
  quiet m -> (forall e, quiet (handler e)) -> quiet (try_catch m handler).
Proof.
  intros Hm Hk s r s'. unfold try_catch.
  destruct (m s) as [[e|a] s1] eqn:E1.
  - intros E2. destruct (Hm _ _ _ E1) as (ev1 & He1 & Hf1).
    destruct (Hk _ _ _ _ E2) as (ev2 & He2 & Hf2).
    exists (ev1 ++ ev2). split; [by eapply extends_trans|].
    by rewrite fs_requests_app, Hf1, Hf2.
  - intros [= <- <-]. destruct (Hm _ _ _ E1) as (ev & He & Hf). eauto.
Qed.

Lemma ask_extends {A} (ev : event) (h : hstate -> (error + A) * hstate)
    (s : state) (r : error + A) (s' : state) :
  ask ev h s = (r, s') -> extends s s' [ev] /\ (r, host s') = h (host s).
Proof.
  unfold ask. destruct (h (host s)) as [r' h']. intros [= <- <-]. by split.
Qed.

Lemma quiet_ask {A} (ev : event) (h : hstate -> (error + A) * hstate) :
  is_fs ev = false -> quiet (ask ev h).
Proof.
  intros Hev s r s' [He _]%ask_extends. exists [ev]. split; [done|].
  unfold fs_requests. cbn. by rewrite Hev.
Qed.

Lemma quiet_invoke (what : string) (callee this : value) (args : list value) :
  quiet (invoke what callee this args).
Proof.
  unfold invoke. destruct callee; try apply quiet_throw.
  destruct (String.eqb f noop); [|by apply quiet_ask].
  intros s r s' [= <- <-]. eexists. split; [by split|done].
Qed.

Lemma quiet_method (obj : value) (name : string) (args : list value) :
  quiet (method obj name args).
Proof. apply quiet_bind; [apply quiet_lift|]. intros callee. apply quiet_invoke. Qed.

Lemma quiet_method_count (obj : value) (name : string) : quiet (method_count obj name).
Proof.
  apply quiet_bind; [apply quiet_lift|]. intros [| | | | | | |f|]; try apply quiet_throw.
  by apply quiet_ask.
Qed.

Lemma quiet_method_labels (obj : value) (name : string) : quiet (method_labels obj name).
Proof.
  apply quiet_bind; [apply quiet_lift|]. intros [| | | | | | |f|]; try apply quiet_throw.
  by apply quiet_ask.
Qed.

Lemma quiet_method_point (obj : value) (name : string) (l : number) :
  quiet (method_point obj name l).
Proof.
  apply quiet_bind; [apply quiet_lift|]. intros [| | | | | | |f|]; try apply quiet_throw.
  by apply quiet_ask.
Qed.

Lemma quiet_method_new (obj : value) (name : string) (args : list value) :
  quiet (method_new obj name args).
Proof.
  apply quiet_bind; [apply quiet_lift|]. intros [| | | | | | |f|]; try apply quiet_throw.
  by apply quiet_ask.
Qed.

Lemma quiet_logger_log (message : string) : quiet (logger_log message).
Proof. intros s r s'. unfold logger_log. apply quiet_invoke. Qed.

Lemma quiet_logger_error (message : string) (e : error) : quiet (logger_error message e).
Proof. intros s r s'. unfold logger_error. apply quiet_invoke. Qed.

Lemma quiet_extract_loop (index : value) (usedLabels : list number) :
  forall vectors, quiet (extract_loop index usedLabels vectors).
Proof.
  induction usedLabels as [|l rest IH]; intros vectors; cbn [extract_loop].
  - apply quiet_ret.
  - apply quiet_bind; [apply quiet_method_point|]. intros p. apply IH.
Qed.

Lemma quiet_extractVectorsFromIndex (index : value) :
  quiet (extractVectorsFromIndex index).
Proof.
  apply quiet_try_catch; [|intros e; apply quiet_throw].
  apply quiet_bind; [apply quiet_method_labels|]. intros l. apply quiet_extract_loop.
Qed.

Lemma quiet_maxElements_or_index (metadata : Options.t) (index : value) :
  quiet (maxElements_or_index metadata index).
Proof.
  unfold maxElements_or_index.
  assert (Hq : quiet (c <- method_count index "getMaxElements" ;; ret (Int c))).
  { apply quiet_bind; [apply quiet_method_count|]. intros c. apply quiet_ret. }
  destruct (Options.maxElements metadata) as [n|]; [|done].
  destruct (Number.truthy n); [apply quiet_ret|done].
Qed.

Lemma quiet_build_buffer (index : value) (metadata : Options.t) (numDimensions : Z)
    (vectors : list VectorRecord) :
  quiet (build_buffer index metadata numDimensions vectors).
Proof.
  unfold build_buffer.
  repeat (apply quiet_bind; [first [apply quiet_lift|apply quiet_maxElements_or_index]|];
          intros ?).
  apply quiet_ret.
Qed.

Lemma quiet_build_document (index : value) (metadata : Options.t) (numDimensions : Z)
    (vectors : list VectorRecord) :
  quiet (build_document index metadata numDimensions vectors).
Proof.
  apply quiet_bind; [apply quiet_maxElements_or_index|]. intros c. apply quiet_ret.
Qed.

Lemma quiet_insert_all (index : value) (records : list (value * value)) :
  quiet (insert_all index records).
Proof.
  induction records as [|[p l] rest IH]; cbn [insert_all]; [apply quiet_ret|].
  apply quiet_bind; [apply quiet_method|]. by intros [].
Qed.

Lemma quiet_add_vectors (index numDimensions : value) (vectors : list value) :
  quiet (add_vectors index numDimensions vectors).
Proof.
  induction vectors as [|entry rest IH]; cbn [add_vectors]; [apply quiet_ret|].
  apply quiet_bind; [apply quiet_lift|]. intros l.
  apply quiet_bind; [apply quiet_lift|]. intros p.
  apply quiet_bind; [apply quiet_throw_if|]. intros _.
  apply quiet_bind; [apply quiet_throw_if|]. intros _.
  apply quiet_bind; [apply quiet_method|]. by intros _.
Qed.

Lemma quiet_rehydrate (hnswlib : value) (message : string) (md : Metadata.t)
    (records : list (value * value)) :
  quiet (rehydrate hnswlib message md records).
Proof.
  apply quiet_try_catch; [|intros e; apply quiet_throw].
  apply quiet_bind.
  - apply quiet_bind; [apply quiet_method_new|]. intros index.
    apply quiet_bind; [apply quiet_method|]. intros _.
    apply quiet_bind; [apply quiet_insert_all|]. intros _. apply quiet_ret.
  - intros index. apply quiet_bind; [apply quiet_logger_log|]. intros _. apply quiet_ret.
Qed.

Lemma quiet_load_buffer (hnswlib : value) (filename : string) (buffer : Buffer.t) :
  quiet (load_buffer hnswlib filename buffer).
Proof.
  intros s r s'. rewrite load_buffer_total.
  destruct (header_error buffer); [apply quiet_throw|apply quiet_rehydrate].
Qed.

Lemma quiet_load_document (hnswlib : value) (filename : string) (data : value) :
  quiet (load_document hnswlib filename data).
Proof.
  unfold load_document.
  apply quiet_bind; [apply quiet_lift|]. intros vectors.
  apply quiet_bind; [apply quiet_throw_if|]. intros _.
  apply quiet_bind; [apply quiet_lift|]. intros numDimensions.
  apply quiet_bind; [apply quiet_throw_if|]. intros _.
  apply quiet_bind; [apply quiet_lift|]. intros spaceName.
  apply quiet_bind; [apply quiet_throw_if|]. intros _.
  apply quiet_try_catch; [|intros e; apply quiet_throw].
  apply quiet_bind; [apply quiet_method_new|]. intros index.
  repeat (apply quiet_bind; [apply quiet_lift|]; intros ?).
  apply quiet_bind; [apply quiet_method|]. intros _.
  apply quiet_bind; [apply quiet_add_vectors|]. intros _.
  apply quiet_bind; [apply quiet_logger_log|]. intros _. apply quiet_ret.
Qed.

End Quiet.

(** ** The extension of a file name *)

Lemma app_String (c : ascii) (a b : string) : String c a +:+ b = String c (a +:+ b).
Proof. reflexivity. Qed.

Lemma length_app_string (a b : string) :
  String.length (a +:+ b) = (String.length a + String.length b)%nat.
Proof. induction a as [|c a IH]; [done|]. rewrite app_String. cbn. by rewrite IH. Qed.

Lemma substring_all (b : string) : String.substring 0 (String.length b) b = b.
Proof. induction b as [|c b IH]; [done|]. cbn. by rewrite IH. Qed.

Lemma substring_app (a b : string) :
  String.substring (String.length a) (String.length b) (a +:+ b) = b.
Proof.
  induction a as [|c a IH]; [apply substring_all|]. rewrite app_String. cbn. apply IH.
Qed.

Lemma substring_split (s : string) :
  forall m, (m <= String.length s)%nat ->
    s = String.substring 0 m s +:+ String.substring m (String.length s - m) s.
Proof.
  induction s as [|c s IH]; intros m Hm.
  - destruct m; [done|]. cbn in Hm. lia.
  - destruct m as [|m].
    + rewrite Nat.sub_0_r, substring_all. done.
    + cbn [String.substring String.length Nat.sub]. rewrite app_String. f_equal.
      apply IH. cbn in Hm. lia.
Qed.

Lemma endsWith_iff (s suffix : string) :
  endsWith s suffix = true <-> exists stem, s = stem +:+ suffix.
Proof.
  unfold endsWith. rewrite andb_true_iff, Nat.leb_le, String.eqb_eq. split.
  - intros [Hle Hs]. exists (String.substring 0 (String.length s - String.length suffix) s).
    pose proof (substring_split s (String.length s - String.length suffix)
                  ltac:(lia)) as Hsplit.
    replace (String.length s - (String.length s - String.length suffix))%nat
      with (String.length suffix) in Hsplit by lia.
    by rewrite Hs in Hsplit.
  - intros [stem ->]. rewrite length_app_string. split; [lia|].
    replace (String.length stem + String.length suffix - String.length suffix)%nat
      with (String.length stem) by lia.
    apply substring_app.
Qed.

Lemma isBinary_iff (name : string) :
  isBinary name = true
  <-> exists stem, name = stem +:+ ".bin" \/ name = stem +:+ ".dat".
Proof.
  unfold isBinary. rewrite orb_true_iff, !endsWith_iff. split.
  - intros [[stem ->]|[stem ->]]; eauto.
  - intros [stem [->| ->]]; eauto.
Qed.

(** ** The requests of the save path *)

Section SavePath.
Context `{Host}.

Lemma saveIndexBinary_requests (index : value) (name : string) (metadata : Options.t)
    (numDimensions : Z) (vectors : list VectorRecord) (s : state)
    (r : error + unit) (s' : state) :
  saveIndexBinary index name metadata numDimensions vectors s = (r, s') ->
  exists events, extends s s' events
    /\ ((fs_requests events = [] /\ r <> inr tt)
        \/ exists buffer, fs_requests events = [WriteFile name buffer]).
Proof.
  unfold saveIndexBinary. munfold.
  destruct (build_buffer index metadata numDimensions vectors s) as [[e|buffer] s1] eqn:E1;
    destruct (quiet_build_buffer _ _ _ _ _ _ _ E1) as (ev1 & He1 & Hf1).
  { intros [= <- <-]. exists ev1. split; [done|]. by left. }
  destruct (ask _ _ s1) as [[e|[]] s2] eqn:E2;
    destruct (ask_extends _ _ _ _ _ E2) as [He2 _].
  { intros [= <- <-]. exists (ev1 ++ [WriteFile name buffer]).
    split; [by eapply extends_trans|]. right. exists buffer.
    by rewrite fs_requests_app, Hf1. }
  destruct (logger_log _ s2) as [[e|[]] s3] eqn:E3;
    destruct (quiet_logger_log _ _ _ _ E3) as (ev3 & He3 & Hf3);
    intros [= <- <-]; exists ((ev1 ++ [WriteFile name buffer]) ++ ev3);
    (split; [eapply extends_trans; [by eapply extends_trans|done]|]);
    right; exists buffer; by rewrite !fs_requests_app, Hf1, Hf3.
Qed.

Lemma saveIndexJSON_requests (index : value) (name : string) (metadata : Options.t)
    (numDimensions : Z) (vectors : list VectorRecord) (s : state)
    (r : error + unit) (s' : state) :
  saveIndexJSON index name metadata numDimensions vectors s = (r, s') ->
  exists events, extends s s' events
    /\ ((fs_requests events = [] /\ r <> inr tt)
        \/ exists content, fs_requests events = [WriteText name content]).
Proof.
  unfold saveIndexJSON. munfold.
  destruct (build_document index metadata numDimensions vectors s) as [[e|data] s1] eqn:E1;
    destruct (quiet_build_document _ _ _ _ _ _ _ E1) as (ev1 & He1 & Hf1).
  { intros [= <- <-]. exists ev1. split; [done|]. by left. }
  destruct (ask _ _ s1) as [[e|[]] s2] eqn:E2;
    destruct (ask_extends _ _ _ _ _ E2) as [He2 _].
  { intros [= <- <-]. exists (ev1 ++ [WriteText name (JSON_stringify data)]).
    split; [by eapply extends_trans|]. right. eexists.
    by rewrite fs_requests_app, Hf1. }
  destruct (logger_log _ s2) as [[e|[]] s3] eqn:E3;
    destruct (quiet_logger_log _ _ _ _ E3) as (ev3 & He3 & Hf3);
    intros [= <- <-]; exists ((ev1 ++ [WriteText name (JSON_stringify data)]) ++ ev3);
    (split; [eapply extends_trans; [by eapply extends_trans|done]|]);
    right; eexists; by rewrite !fs_requests_app, Hf1, Hf3.
Qed.

(** X3: [saveIndexToFile] makes at most one request to the file system, a
    write under the name it was given, and none before the engine has
    answered every query.  The form is chosen by the end of the name, as
    written: [.bin] or [.dat] selects the binary form, anything else
    (also [.BIN]) the text form.  When it returns, the file was written;
    it never reads a file and never changes [logger]. *)
Theorem saveIndexToFile_writes_one_file (index filename : value)
    (metadata : Options.t) (s : state) :
  let name := filename_string filename in
  let r := saveIndexToFile index filename metadata s in
  (exists events, extends s (snd r) events
     /\ (fs_requests events = []
         \/ (if isBinary name
             then exists buffer, fs_requests events = [WriteFile name buffer]
             else exists content, fs_requests events = [WriteText name content]))
     /\ (fst r = inr tt -> fs_requests events <> []))
  /\ (isBinary name = true
      <-> exists stem, name = stem +:+ ".bin" \/ name = stem +:+ ".dat").
Proof.
  intros name r. split; [|apply isBinary_iff].
  subst r. unfold saveIndexToFile. munfold. rewrite validateIndex_spec.
  destruct (truthy index); [|exists []; split; [apply extends_refl|]; by split; [left|]].
  destruct (exposes_checked index);
    [|exists []; split; [apply extends_refl|]; by split; [left|]].
  rewrite validateFilename_spec.
  destruct filename as [| | | |fname| | | |];
    try (exists []; split; [apply extends_refl|]; by split; [left|]).
  destruct (String.eqb fname "");
    [exists []; split; [apply extends_refl|]; by split; [left|]|].
  destruct (blank fname);
    [exists []; split; [apply extends_refl|]; by split; [left|]|].
  cbn [filename_string] in *. subst name.
  destruct (method_count index "getNumDimensions" s) as [[e|numDimensions] s1] eqn:E1;
    destruct (quiet_method_count _ _ _ _ _ E1) as (ev1 & He1 & Hf1).
  { destruct (logger_error _ e s1) as [[e'|[]] s2] eqn:E2;
      destruct (quiet_logger_error _ _ _ _ _ E2) as (ev2 & He2 & Hf2);
      exists (ev1 ++ ev2); (split; [by eapply extends_trans|]);
      rewrite fs_requests_app, Hf1, Hf2; by split; [left|]. }
  destruct (method_count index "getCurrentCount" s1) as [[e|numVectors] s2] eqn:E2;
    destruct (quiet_method_count _ _ _ _ _ E2) as (ev2 & He2 & Hf2).
  { destruct (logger_error _ e s2) as [[e'|[]] s3] eqn:E3;
      destruct (quiet_logger_error _ _ _ _ _ E3) as (ev3 & He3 & Hf3);
      exists ((ev1 ++ ev2) ++ ev3);
      (split; [eapply extends_trans; [by eapply extends_trans|done]|]);
      rewrite !fs_requests_app, Hf1, Hf2, Hf3; by split; [left|]. }
  destruct (numVectors =? 0).
  { destruct (logger_error _ EmptyIndex s2) as [[e'|[]] s3] eqn:E3;
      destruct (quiet_logger_error _ _ _ _ _ E3) as (ev3 & He3 & Hf3);
      exists ((ev1 ++ ev2) ++ ev3);
      (split; [eapply extends_trans; [by eapply extends_trans|done]|]);
      rewrite !fs_requests_app, Hf1, Hf2, Hf3; by split; [left|]. }
  destruct (extractVectorsFromIndex index s2) as [[e|vectors] s3] eqn:E3;
    destruct (quiet_extractVectorsFromIndex _ _ _ _ E3) as (ev3 & He3 & Hf3).
  { destruct (logger_error _ e s3) as [[e'|[]] s4] eqn:E4;
      destruct (quiet_logger_error _ _ _ _ _ E4) as (ev4 & He4 & Hf4);
      exists (((ev1 ++ ev2) ++ ev3) ++ ev4);
      (split; [eapply extends_trans;
                 [eapply extends_trans; [by eapply extends_trans|done]|done]|]);
      rewrite !fs_requests_app, Hf1, Hf2, Hf3, Hf4; by split; [left|]. }
  assert (He123 : extends s s3 ((ev1 ++ ev2) ++ ev3))
    by (eapply extends_trans; [by eapply extends_trans|done]).
  assert (Hf123 : fs_requests ((ev1 ++ ev2) ++ ev3) = [])
    by (by rewrite !fs_requests_app, Hf1, Hf2, Hf3).
  revert He123 Hf123. generalize ((ev1 ++ ev2) ++ ev3). intros ev He Hf.
  destruct (isBinary fname).
  - destruct (saveIndexBinary index fname metadata numDimensions vectors s3)
      as [[e|[]] s4] eqn:E4;
      destruct (saveIndexBinary_requests _ _ _ _ _ _ _ _ E4) as (ev4 & He4 & Hw).
    + destruct (logger_error _ e s4) as [[e'|[]] s5] eqn:E5;
        destruct (quiet_logger_error _ _ _ _ _ E5) as (ev5 & He5 & Hf5);
        exists ((ev ++ ev4) ++ ev5);
        (split; [eapply extends_trans; [by eapply extends_trans|done]|]);
        rewrite !fs_requests_app, Hf, Hf5, app_nil_r; cbn [app];
        (split; [|done]); destruct Hw as [[-> _]|Hw]; [by left|by right|by left|by right].
    + exists (ev ++ ev4). split; [by eapply extends_trans|].
      rewrite !fs_requests_app, Hf. cbn [app].
      destruct Hw as [[_ Hr]|[buffer Hw]]; [done|]. rewrite Hw. split; [right; eauto|done].
  - destruct (saveIndexJSON index fname metadata numDimensions vectors s3)
      as [[e|[]] s4] eqn:E4;
      destruct (saveIndexJSON_requests _ _ _ _ _ _ _ _ E4) as (ev4 & He4 & Hw).
    + destruct (logger_error _ e s4) as [[e'|[]] s5] eqn:E5;
        destruct (quiet_logger_error _ _ _ _ _ E5) as (ev5 & He5 & Hf5);
        exists ((ev ++ ev4) ++ ev5);
        (split; [eapply extends_trans; [by eapply extends_trans|done]|]);
        rewrite !fs_requests_app, Hf, Hf5, app_nil_r; cbn [app];
        (split; [|done]); destruct Hw as [[-> _]|Hw]; [by left|by right|by left|by right].
    + exists (ev ++ ev4). split; [by eapply extends_trans|].
      rewrite !fs_requests_app, Hf. cbn [app].
      destruct Hw as [[_ Hr]|[content Hw]]; [done|]. rewrite Hw. split; [right; eauto|done].
Qed.

End SavePath.

(** ** Saving: the empty index, the extraction, the failures *)

Section Save.
Context `{Host}.

Lemma filename_ok_Str (name : string) : blank name = false -> filename_ok (Str name) = true.
Proof. intros Hb. cbn. by rewrite Hb. Qed.

(** The call of [logger.error] when it is a function: the call is noted,
    and it returns or throws what the sink throws. *)
Lemma logger_error_call (message : string) (e : error) (fe : string) (s : state) :
  logger s !! "error" = Some (Fun fe) ->
  exists r s',
    logger_error message e s = (r, s')
    /\ extends s s' [Call "logger.error" fe [Str message; Exn e]]
    /\ (r = inr tt
        \/ fe <> noop
           /\ r = fst (call_void fe (Obj (logger s)) [Str message; Exn e] (host s))).
Proof.
  intros Hfe. unfold logger_error. rewrite Hfe. cbn [default from_option id invoke].
  destruct (String.eqb fe noop) eqn:E.
  - eexists _, _. split; [done|]. split; [by split|]. by left.
  - unfold ask. destruct (call_void fe _ _ (host s)) as [r h'] eqn:Ec.
    eexists _, _. split; [done|]. split; [by split|]. right. split; [|done].
    intros ->. by rewrite String.eqb_refl in E.
Qed.

(** A call through a function value: the call is noted; the built-in
    no-op returns and leaves the host alone, any other function is the
    host's to run. *)
Lemma invoke_outcome (what f : string) (this : value) (args : list value)
    (s s' : state) (r : error + unit) :
  invoke what (Fun f) this args s = (r, s') ->
  trace s' = trace s ++ [Call what f args]
  /\ logger s' = logger s
  /\ ((f = noop /\ r = inr tt /\ host s' = host s)
      \/ (f <> noop /\ call_void f this args (host s) = (r, host s'))).
Proof.
  unfold invoke. destruct (String.eqb f noop) eqn:E.
  - apply String.eqb_eq in E as ->. intros [= <- <-]. split; [done|]. split; [done|].
    by left.
  - apply String.eqb_neq in E. unfold ask.
    destruct (call_void f this args (host s)) as [r' h'] eqn:Ec. intros [= <- <-].
    split; [done|]. split; [done|]. by right.
Qed.

(** X4: an index without vectors is not saved.  When [getCurrentCount]
    answers 0, [saveIndexToFile] has called [getNumDimensions] and
    [getCurrentCount], passes 'Cannot save empty index' to [logger.error]
    and throws it (or what the sink threw): [getUsedLabels] and [getPoint]
    are not called and no file is written. *)
Theorem empty_index_is_not_saved (index : value) (name : string)
    (metadata : Options.t) (s : state) (fd fc fe : string) (numDimensions : Z)
    (h1 h2 : hstate) :
  truthy index && exposes_checked index = true ->
  blank name = false ->
  get index "getNumDimensions" = inr (Fun fd) ->
  get index "getCurrentCount" = inr (Fun fc) ->
  call_count fd index (host s) = (inr numDimensions, h1) ->
  call_count fc index h1 = (inr 0, h2) ->
  logger s !! "error" = Some (Fun fe) ->
  let message := "Failed to save index to " +:+ name +:+ ":" in
  exists e s',
    saveIndexToFile index (Str name) metadata s = (inl e, s')
    /\ trace s' = trace s ++ [Call "getNumDimensions" fd []; Call "getCurrentCount" fc [];
                              Call "logger.error" fe [Str message; Exn EmptyIndex]]
    /\ (e = EmptyIndex
        \/ fe <> noop
           /\ fst (call_void fe (Obj (logger s)) [Str message; Exn EmptyIndex] h2) = inl e).
Proof.
  intros [Ht Hx]%andb_true_iff Hb Hgd Hgc Hd Hc Hfe message.
  unfold saveIndexToFile. munfold. rewrite validateIndex_spec, Ht, Hx.
  rewrite validateFilename_ok by by apply filename_ok_Str.
  cbn [filename_string]. unfold method_count. munfold. rewrite Hgd, Hgc.
  unfold ask. rewrite Hd. cbn [host]. rewrite Hc. cbn [Z.eqb].
  match goal with |- context [logger_error _ _ ?st] => set (s2 := st) end.
  destruct (logger_error_call message EmptyIndex fe s2 Hfe) as (r & s' & Hl & [_ Ht'] & Hr).
  fold message. rewrite Hl. cbn [trace s2] in Ht'. rewrite <- !app_assoc in Ht'.
  destruct Hr as [->|[Hne ->]].
  - eexists _, _. split; [done|]. split; [done|]. by left.
  - subst s2. cbn [logger host] in *. clear Hl.
    match goal with |- context [match ?x with _ => _ end] =>
      destruct x as [e|[]] eqn:Ec end.
    + eexists _, _. split; [done|]. split; [done|]. by right.
    + eexists _, _. split; [done|]. split; [done|]. by left.
Qed.

(** The loop of [extractVectorsFromIndex]: one call of [getPoint] for each
    label, in order, and one record for each answer. *)
Lemma extract_loop_inv (index : value) (fp : string) (usedLabels : list number) :
  get index "getPoint" = inr (Fun fp) ->
  forall acc s vectors s',
    extract_loop index usedLabels acc s = (inr vectors, s') ->
    exists new, vectors = acc ++ new
      /\ map label new = usedLabels
      /\ extends s s' (map (fun l => Call "getPoint" fp [Num l]) usedLabels)
      /\ Forall (fun r => exists h h', call_point fp index (label r) h = (inr (point r), h'))
           new.
Proof.
  intros Hg. induction usedLabels as [|l rest IH]; intros acc s vectors s';
    cbn [extract_loop].
  - intros [= <- <-]. exists []. rewrite app_nil_r.
    split; [done|]. split; [done|]. split; [apply extends_refl|done].
  - unfold bind at 1. unfold method_point. munfold. rewrite Hg.
    destruct (ask _ _ s) as [[e|p] s1] eqn:E1; [done|].
    destruct (ask_extends _ _ _ _ _ E1) as [He1 Hh1].
    intros (new & -> & Hl & He & Hp)%IH.
    exists ({| label := l; point := p |} :: new). rewrite <- app_assoc.
    split; [done|]. split; [cbn; by rewrite Hl|].
    split; [exact (extends_trans _ _ _ _ _ He1 He)|].
    constructor; [|done]. cbn [label point]. eauto.
Qed.

Lemma extract_loop_without_getPoint (index : value) (usedLabels : list number) :
  (forall fp, get index "getPoint" <> inr (Fun fp)) ->
  forall acc s vectors s',
    extract_loop index usedLabels acc s = (inr vectors, s') ->
    usedLabels = [] /\ vectors = acc /\ s' = s.
Proof.
  intros Hg acc s vectors s'. destruct usedLabels as [|l rest]; cbn [extract_loop].
  - by intros [= <- <-].
  - unfold bind at 1. unfold method_point. munfold.
    destruct (get index "getPoint") as [e|[| | | | | | |fp|]] eqn:E; try done.
    by destruct (Hg fp).
Qed.

(** X5: what [extractVectorsFromIndex] returns.  It calls [getUsedLabels]
    once, then [getPoint] once for each label, in the order of the labels;
    the records it returns are, in that order, each label with the point
    that [getPoint] answered for it.  It does nothing else. *)
Theorem extractVectorsFromIndex_follows_the_labels (index : value) (s s' : state)
    (vectors : list VectorRecord) :
  extractVectorsFromIndex index s = (inr vectors, s') ->
  exists fl fp h',
    get index "getUsedLabels" = inr (Fun fl)
    /\ call_labels fl index (host s) = (inr (map label vectors), h')
    /\ (vectors <> [] -> get index "getPoint" = inr (Fun fp))
    /\ extends s s' (Call "getUsedLabels" fl []
                     :: map (fun r => Call "getPoint" fp [Num (label r)]) vectors)
    /\ Forall (fun r => exists h h', call_point fp index (label r) h = (inr (point r), h'))
         vectors.
Proof.
  unfold extractVectorsFromIndex, method_labels. munfold.
  destruct (get index "getUsedLabels") as [e|[| | | | | | |fl|]] eqn:Hgl; try done.
  destruct (ask _ _ s) as [[e|usedLabels] s1] eqn:E1; [done|].
  destruct (ask_extends _ _ _ _ _ E1) as [He1 Hh1].
  destruct (extract_loop index usedLabels [] s1) as [[e|vectors'] s2] eqn:E2; [done|].
  intros [= <- <-].
  destruct (get index "getPoint") as [e|v] eqn:Hgp.
  - apply extract_loop_without_getPoint in E2 as (-> & -> & ->); [|by rewrite Hgp].
    exists fl, "", (host s1). split; [done|]. split; [by rewrite <- Hh1|].
    split; [done|]. split; [exact He1|done].
  - assert (Hv : (exists fp, v = Fun fp) \/ forall fp, v <> Fun fp)
      by (destruct v; eauto).
    destruct Hv as [[fp ->]|Hn].
    + destruct (extract_loop_inv index fp usedLabels Hgp _ _ _ _ E2)
        as (new & Hvec & Hl & He & Hp).
      cbn [app] in Hvec. subst vectors'.
      exists fl, fp, (host s1). split; [done|].
      split; [by rewrite Hl, <- Hh1|]. split; [done|]. split; [|done].
      rewrite <- Hl, map_map in He. exact (extends_trans _ _ _ _ _ He1 He).
    + apply extract_loop_without_getPoint in E2 as (-> & -> & ->).
      * exists fl, "", (host s1). split; [done|]. split; [by rewrite <- Hh1|].
        split; [done|]. split; [exact He1|done].
      * intros fp Hfp. rewrite Hgp in Hfp. injection Hfp as ->. by apply (Hn fp).
Qed.

(** X6: a failure of [saveIndexToFile] is either a refusal of its
    arguments, thrown before anything is done, or an error [cause] that
    was handed to [logger.error], with the message 'Failed to save index
    to <name>:', as the last thing done.  What is thrown is then [cause]
    itself when the sink returned, and what the sink threw when it threw.
    When [logger.error] is not a function, the TypeError of calling it is
    thrown instead. *)
Theorem saveIndexToFile_logs_what_it_throws (index filename : value)
    (metadata : Options.t) (s s' : state) (e : error) :
  saveIndexToFile index filename metadata s = (inl e, s') ->
  (s' = s
   /\ (e = IndexRequired \/ e = MissingMethods \/ e = FilenameNotString
       \/ e = FilenameEmpty))
  \/ (exists fe cause s1,
        let args := [Str ("Failed to save index to "
                          +:+ filename_string filename +:+ ":"); Exn cause] in
        default Undefined (logger s1 !! "error") = Fun fe
        /\ trace s' = trace s1 ++ [Call "logger.error" fe args]
        /\ logger s' = logger s1
        /\ ((e = cause
             /\ (fe = noop /\ host s' = host s1
                 \/ fe <> noop
                    /\ call_void fe (Obj (logger s1)) args (host s1) = (inr tt, host s')))
            \/ (fe <> noop
                /\ call_void fe (Obj (logger s1)) args (host s1) = (inl e, host s'))))
  \/ (e = NotAFunction "logger.error"
      /\ is_function (default Undefined (logger s' !! "error")) = false).
Proof.
  unfold saveIndexToFile. munfold. rewrite validateIndex_spec.
  destruct (truthy index); [|intros [= <- <-]; left; eauto].
  destruct (exposes_checked index); [|intros [= <- <-]; left; eauto 6].
  rewrite validateFilename_spec.
  assert (Hbad : forall x, (@inl error unit x, s) = (inl e, s') ->
            x = FilenameNotString \/ x = FilenameEmpty ->
            s' = s /\ (e = IndexRequired \/ e = MissingMethods \/ e = FilenameNotString
                       \/ e = FilenameEmpty)).
  { intros x [= <- <-] [->| ->]; eauto 6. }
  destruct filename as [| | | |name| | | |];
    try solve [intros Hr; left; eapply Hbad; eauto].
  destruct (String.eqb name ""); [intros Hr; left; eapply Hbad; eauto|].
  destruct (blank name); [intros Hr; left; eapply Hbad; eauto|].
  cbn [filename_string].
  match goal with |- context [logger_error ?m] => set (message := m) end.
  match goal with |- match ?body with _ => _ end = _ -> _ =>
    destruct body as [[cause|[]] s1] end; [|done].
  unfold logger_error.
  destruct (default Undefined (logger s1 !! "error")) as [| | | | | | |fe|] eqn:Hfe;
    try (intros [= <- <-]; right; right; by rewrite Hfe).
  destruct (invoke "logger.error" (Fun fe) _ _ s1) as [r s2] eqn:Hi.
  apply invoke_outcome in Hi as (Ht & Hl & Hcall).
  intros Hres. right; left. exists fe, cause, s1. cbv zeta.
  destruct r as [e'|[]]; injection Hres as <- <-;
    (split; [done|]); (split; [done|]); (split; [done|]).
  - right. by destruct Hcall as [(_ & ? & _)|Hcall].
  - left. split; [done|]. destruct Hcall as [(-> & _ & Hh)|Hcall]; [by left|by right].
Qed.

End Save.

Lemma empty_index_is_not_saved_witness :
  exists e s',
    @saveIndexToFile MockHost.mock MockHost.index_object (Str "a.bin") MockHost.options
      MockHost.start = (inl e, s')
    /\ trace s'
       = [Call "getNumDimensions" "getNumDimensions" [];
          Call "getCurrentCount" "getCurrentCount" [];
          Call "logger.error" "console.error"
            [Str "Failed to save index to a.bin:"; Exn EmptyIndex]]
    /\ (e = EmptyIndex
        \/ "console.error" <> noop
           /\ fst (MockHost.m_void "console.error" (Obj defaultLogger)
                     [Str "Failed to save index to a.bin:"; Exn EmptyIndex]
                     MockHost.empty) = inl e).
Proof.
  apply (@empty_index_is_not_saved MockHost.mock MockHost.index_object "a.bin"
           MockHost.options MockHost.start "getNumDimensions" "getCurrentCount"
           "console.error" 0 MockHost.empty MockHost.empty); reflexivity.
Defined.

Lemma extractVectorsFromIndex_follows_the_labels_witness :
  exists fl fp h',
    get MockHost.index_object "getUsedLabels" = inr (Fun fl)
    /\ MockHost.m_labels fl MockHost.index_object MockHost.loaded
       = (inr (map label MockHost.unit_vectors), h')
    /\ (MockHost.unit_vectors <> [] -> get MockHost.index_object "getPoint" = inr (Fun fp))
    /\ @extends MockHost.mock MockHost.ready
         (snd (@extractVectorsFromIndex MockHost.mock MockHost.index_object MockHost.ready))
         (Call "getUsedLabels" fl []
          :: map (fun r => Call "getPoint" fp [Num (label r)]) MockHost.unit_vectors)
    /\ Forall (fun r => exists h h',
                 MockHost.m_point fp MockHost.index_object (label r) h
                 = (inr (point r), h'))
         MockHost.unit_vectors.
Proof.
  apply (@extractVectorsFromIndex_follows_the_labels MockHost.mock MockHost.index_object
           MockHost.ready _ MockHost.unit_vectors).
  by_evaluation.
Defined.

Lemma saveIndexToFile_logs_what_it_throws_witness :
  let r := @saveIndexToFile MockHost.mock MockHost.index_object (Str "a.bin")
             MockHost.options MockHost.start in
  fst r = inl EmptyIndex
  /\ ((snd r = MockHost.start
       /\ (EmptyIndex = IndexRequired \/ EmptyIndex = MissingMethods
           \/ EmptyIndex = FilenameNotString \/ EmptyIndex = FilenameEmpty))
      \/ (exists fe cause s1,
            let args := [Str ("Failed to save index to " +:+ "a.bin" +:+ ":");
                         Exn cause] in
            default Undefined (logger s1 !! "error") = Fun fe
            /\ trace (snd r) = trace s1 ++ [Call "logger.error" fe args]
            /\ logger (snd r) = logger s1
            /\ ((EmptyIndex = cause
                 /\ (fe = noop /\ host (snd r) = host s1
                     \/ fe <> noop
                        /\ MockHost.m_void fe (Obj (logger s1)) args (host s1)
                           = (inr tt, host (snd r))))
                \/ (fe <> noop
                    /\ MockHost.m_void fe (Obj (logger s1)) args (host s1)
                       = (inl EmptyIndex, host (snd r)))))
      \/ (EmptyIndex = NotAFunction "logger.error"
          /\ is_function (default Undefined (logger (snd r) !! "error")) = false)).
Proof.
  intros r. split; [by_evaluation|].
  apply (@saveIndexToFile_logs_what_it_throws MockHost.mock MockHost.index_object
           (Str "a.bin") MockHost.options MockHost.start).
  by_evaluation.
Defined.

(** ** The binary encoder on input it refuses *)

Lemma write_point_app_list (good rest : list number) :
  forall (buffer : Buffer.t) (offset : Z),
    write_point buffer offset (good ++ rest)
    = match write_point buffer offset good with
      | inr (buffer', offset') => write_point buffer' offset' rest
      | inl e => inl e
      end.
Proof.
  induction good as [|x good IH]; intros buffer offset; [done|].
  cbn [app write_point]. destruct (negb (isFinite x)); [done|].
  destruct (Buffer.writeFloatLE buffer x offset); [done|]. apply IH.
Qed.

Lemma write_vectors_app_list (numDimensions : Z) (pre rest : list VectorRecord) :
  forall (buffer : Buffer.t) (offset : Z),
    write_vectors numDimensions buffer offset (pre ++ rest)
    = match write_vectors numDimensions buffer offset pre with
      | inr (buffer', offset') => write_vectors numDimensions buffer' offset' rest
      | inl e => inl e
      end.
Proof.
  induction pre as [|r pre IH]; intros buffer offset; [done|].
  cbn [app write_vectors]. destruct (negb _); [done|].
  destruct (Buffer.writeUInt32LE buffer (label r) offset); [done|].
  destruct (write_point _ _ _) as [e|[b o]]; [done|]. apply IH.
Qed.

Lemma length_header_bytes (c nd zE zm zc zs nv : Z) :
  length (header_bytes c nd zE zm zc zs nv) = 40%nat.
Proof. done. Qed.

Lemma length_options_header (md : Options.t) (numDimensions numVectors : Z) :
  length (options_header md numDimensions numVectors) = 40%nat.
Proof. done. Qed.

Section EncodeHeader.
Context `{Host}.

(** With options that are all given, the encoder allocates the buffer,
    writes the header, and goes on to the vectors. *)
Lemma build_buffer_header (index : value) (md : Options.t) (numDimensions : Z)
    (vectors : list VectorRecord) (s : state) :
  valid_options md = true ->
  0 <= numDimensions < 2 ^ 32 ->
  Z.of_nat (length vectors) < 2 ^ 32 ->
  40 + Z.of_nat (length vectors) * (4 + numDimensions * 4) <= kMaxLength ->
  build_buffer index md numDimensions vectors s
  = (match write_vectors numDimensions
             (options_header md numDimensions (Z.of_nat (length vectors))
              ++ replicate (Z.to_nat (Z.of_nat (length vectors) * (4 + numDimensions * 4)))
                   garbage)
             40 vectors with
     | inr written => inr (fst written)
     | inl e => inl e
     end, s).
Proof.
  intros (_ & (zE & HE & HzE) & (zm & Hm & Hzm) & (zc & Hc & Hzc) & (zs & Hs & Hzs))
    %valid_options_inv Hd Hn Hmax.
  destruct (spaceNameCode_of_range (str_or (Options.spaceName md) "l2")) as (c & Hcode & Hcr).
  unfold build_buffer, options_header, header_bytes. munfold.
  rewrite Hcode, HE, Hm, Hc, Hs, !num_or_positive, !stored_u32_Int by lia.
  rewrite (maxElements_or_index_given md index zE) by (done || lia).
  set (N := Z.of_nat (length vectors) * (4 + numDimensions * 4)) in *.
  assert (HN0 : 0 <= N) by (unfold N; nia).
  unfold Buffer.allocUnsafe. rewrite !leb_true by lia. cbn [andb].
  replace (Z.to_nat (40 + N)) with (40 + Z.to_nat N)%nat by lia.
  rewrite replicate_add.
  assert (HN : length (replicate (Z.to_nat N) garbage) = Z.to_nat N)
    by apply length_replicate.
  revert HN. generalize (replicate (Z.to_nat N) garbage). intros body HN.
  assert (H40 : length (replicate 40 garbage) = 40%nat) by apply length_replicate.
  revert H40. generalize (replicate 40 garbage). intros junk H40.
  do 40 (destruct junk as [|? junk]; [by simpl in H40|]). destruct junk; [|by simpl in H40].
  clear H40.
  change (0 + 1) with 1. change (1 + 1) with 2.
  change (2 + 4) with 6. change (6 + 4) with 10. change (10 + 4) with 14.
  change (14 + 4) with 18. change (18 + 4) with 22. change (22 + 4) with 26.
  change (26 + 14) with 40.
  match goal with |- context [Buffer.writeUInt8 ?b (Int 1) 0] => change b with ([] ++ b) end.
  rewrite (writeUInt8_app _ _ _ 1) by (done || (cbn; lia)).
  rewrite (writeUInt8_app _ _ _ c)
    by (done || (cbn; lia) || (cbn [Buffer.checkInt]; rewrite !leb_true by lia; done)).
  rewrite (writeUInt32LE_app _ _ _ numDimensions)
    by (done || (by apply checkInt_u32) || (cbn; lia)).
  rewrite (writeUInt32LE_app _ _ _ zE)
    by (done || (apply checkInt_u32; lia) || (cbn; lia)).
  rewrite (writeUInt32LE_app _ _ _ zm)
    by (done || (apply checkInt_u32; lia) || (cbn; lia)).
  rewrite (writeUInt32LE_app _ _ _ zc)
    by (done || (apply checkInt_u32; lia) || (cbn; lia)).
  rewrite (writeUInt32LE_app _ _ _ zs)
    by (done || (apply checkInt_u32; lia) || (cbn; lia)).
  rewrite (writeUInt32LE_app _ _ _ (Z.of_nat (length vectors)))
    by (done || (apply checkInt_u32; lia) || (cbn; lia)).
  unfold Buffer.fill0. change (Z.to_nat (40 - 26)) with 14%nat.
  rewrite splice_app by (done || (cbn; lia)).
  cbn [drop length replicate app].
  rewrite <- !app_assoc. cbn [app].
  by destruct (write_vectors _ _ _ _).
Qed.

End EncodeHeader.

Section EncodeRefusal.
Context `{Host}.

Lemma saveIndexBinary_build_failed (index : value) (name : string) (md : Options.t)
    (numDimensions : Z) (vectors : list VectorRecord) (s s1 : state) (e : error) :
  build_buffer index md numDimensions vectors s = (inl e, s1) ->
  saveIndexBinary index name md numDimensions vectors s = (inl (WriteBinaryFailed e), s1).
Proof. intros Hb. unfold saveIndexBinary. munfold. by rewrite Hb. Qed.

(** X7: [saveIndexBinary] checks every vector before it writes the file.
    With options that are all given, if the vectors before [r] are valid
    and [r] has a point of the wrong length, the save fails with 'Vector
    dimension mismatch'; if [r] has the right length and a component that
    is not finite, it fails with 'Invalid vector value' for the first such
    component.  Both come wrapped in 'Failed to write binary file', and
    the state is as before: no request to the file system, no log line. *)
Theorem invalid_vector_stops_binary_save (index : value) (name : string)
    (md : Options.t) (numDimensions : Z) (pre : list VectorRecord) (r : VectorRecord)
    (post : list VectorRecord) (s : state) :
  valid_options md = true ->
  0 <= numDimensions < 2 ^ 32 ->
  Z.of_nat (length (pre ++ r :: post)) < 2 ^ 32 ->
  40 + Z.of_nat (length (pre ++ r :: post)) * (4 + numDimensions * 4) <= kMaxLength ->
  forallb (valid_record numDimensions) pre = true ->
  (Z.of_nat (length (point r)) <> numDimensions ->
   saveIndexBinary index name md numDimensions (pre ++ r :: post) s
   = (inl (WriteBinaryFailed
             (DimensionMismatch numDimensions (Z.of_nat (length (point r))))), s))
  /\ (forall good x rest,
        is_u32 (label r) = true ->
        Z.of_nat (length (point r)) = numDimensions ->
        point r = good ++ x :: rest ->
        forallb isFinite good = true ->
        isFinite x = false ->
        saveIndexBinary index name md numDimensions (pre ++ r :: post) s
        = (inl (WriteBinaryFailed (InvalidVectorValue x)), s)).
Proof.
  intros Hmd Hd Hn Hmax Hpre.
  pose proof (length_records_bytes _ _ Hpre) as Hlen.
  assert (Hroom : Z.of_nat (length pre) * (4 + numDimensions * 4)
                  + (4 + numDimensions * 4)
                  <= Z.of_nat (length (pre ++ r :: post)) * (4 + numDimensions * 4)).
  { rewrite length_app. cbn [length]. nia. }
  set (total := Z.of_nat (length (pre ++ r :: post)) * (4 + numDimensions * 4)) in *.
  assert (Hw : write_vectors numDimensions
                 (options_header md numDimensions (Z.of_nat (length (pre ++ r :: post)))
                  ++ replicate (Z.to_nat total) garbage) 40 (pre ++ r :: post)
               = write_vectors numDimensions
                   ((options_header md numDimensions
                       (Z.of_nat (length (pre ++ r :: post)))
                     ++ records_bytes pre)
                    ++ drop (length (records_bytes pre)) (replicate (Z.to_nat total) garbage))
                   (40 + Z.of_nat (length (records_bytes pre))) (r :: post)).
  { rewrite write_vectors_app_list, write_vectors_app; [done|done|done|].
    rewrite length_replicate. lia. }
  split.
  - intros Hbad. apply saveIndexBinary_build_failed.
    rewrite build_buffer_header by done. fold total. rewrite Hw.
    cbn [write_vectors]. apply Z.eqb_neq in Hbad. by rewrite Hbad.
  - intros good x rest (z & Hz & Hzr)%is_u32_inv Hdim Hpoint Hgood Hx.
    apply saveIndexBinary_build_failed.
    rewrite build_buffer_header by done. fold total. rewrite Hw.
    cbn [write_vectors]. rewrite Hdim, Z.eqb_refl. cbn [negb].
    rewrite Hz.
    rewrite (writeUInt32LE_app _ _ _ z).
    + rewrite Hpoint, write_point_app_list.
      rewrite write_point_app.
      * cbn [write_point]. by rewrite Hx.
      * done.
      * rewrite !length_app, length_le_bytes, length_options_header. lia.
      * rewrite !length_drop, length_replicate.
        rewrite Hpoint, length_app in Hdim. cbn [length] in Hdim. lia.
    + by apply checkInt_u32.
    + rewrite !length_app, length_options_header. lia.
    + rewrite !length_drop, length_replicate.
      rewrite Hpoint, length_app in Hdim. cbn [length] in Hdim. lia.
Qed.

End EncodeRefusal.

Lemma invalid_vector_stops_binary_save_witness :
  let bad := {| label := Int 3; point := [Int 1; NaN; Int 0] |} in
  valid_options MockHost.options = true
  /\ forallb (valid_record 3) MockHost.unit_vectors = true
  /\ @saveIndexBinary MockHost.mock MockHost.index_object "a.bin" MockHost.options 3
       (MockHost.unit_vectors ++ bad :: []) MockHost.ready
     = (inl (WriteBinaryFailed (InvalidVectorValue NaN)), MockHost.ready).
Proof.
  intros bad. split; [reflexivity|]. split; [reflexivity|].
  apply (proj2 (@invalid_vector_stops_binary_save MockHost.mock MockHost.index_object
                  "a.bin" MockHost.options 3 MockHost.unit_vectors bad []
                  MockHost.ready eq_refl ltac:(lia) ltac:(simpl; lia)
                  ltac:(apply Z.leb_le; reflexivity) eq_refl)
           [Int 1] NaN [Int 0]); reflexivity.
Defined.

(** ** The components at 32-bit precision *)

Lemma point_bytes_fround (p : list number) :
  forallb isFinite p = true -> point_bytes (map Float32.fround p) = point_bytes p.
Proof.
  induction p as [|x p IH]; [done|]. cbn [forallb]. intros [Hx Hp]%andb_true_iff.
  unfold point_bytes. cbn [map flat_map]. fold (point_bytes (map Float32.fround p)).
  fold (point_bytes p). by rewrite bits_fround, IH.
Qed.

Lemma records_bytes_quantised (numDimensions : Z) (vectors : list VectorRecord) :
  forallb (valid_record numDimensions) vectors = true ->
  records_bytes (map quantised vectors) = records_bytes vectors.
Proof.
  induction vectors as [|r vectors IH]; [done|]. cbn [forallb].
  intros [Hr Hv]%andb_true_iff. apply valid_record_inv in Hr as (_ & _ & Hf).
  unfold records_bytes. cbn [map flat_map]. fold (records_bytes (map quantised vectors)).
  fold (records_bytes vectors). rewrite IH by done. f_equal.
  unfold record_bytes, quantised. cbn [label point]. by rewrite point_bytes_fround.
Qed.

Lemma binary_args_quantised (vectors : list VectorRecord) :
  map (fun r => (Arr (map Num (point r)), Num (label r))) (map quantised vectors)
  = map binary_args vectors.
Proof.
  rewrite map_map. apply map_ext. intros r. unfold binary_args, quantised.
  cbn [label point]. by rewrite map_map.
Qed.

(** X8: a binary save of what a binary load inserted gives the same file.
    Take valid input of the binary encoder, and the buffer it writes.
    [loadIndexBinary] decodes that buffer as the rehydration of the
    records with each component at 32-bit float precision: these are the
    points and labels it hands to [addPoint].  When they are valid input
    again, that is when no component went to an infinity, encoding them
    yields the same buffer, byte for byte, so that a second load inserts
    the same records once more. *)
Theorem binary_encoding_is_stable `{Host} (index : value) (md : Options.t)
    (numDimensions : Z) (vectors : list VectorRecord) (s : state) :
  valid_options md = true ->
  1 <= numDimensions <= 100000 ->
  forallb (valid_record numDimensions) vectors = true ->
  forallb (valid_record numDimensions) (map quantised vectors) = true ->
  Z.of_nat (length vectors) <= 100000000 ->
  40 + Z.of_nat (length vectors) * (4 + numDimensions * 4) <= kMaxLength ->
  exists buffer,
    build_buffer index md numDimensions vectors s = (inr buffer, s)
    /\ decodes_as (fun hnswlib filename => load_buffer hnswlib filename buffer)
         (fun filename => loaded_binary filename (Z.of_nat (length vectors)))
         (options_metadata md numDimensions)
         (map (fun r => (Arr (map Num (point r)), Num (label r)))
            (map quantised vectors))
    /\ build_buffer index md numDimensions (map quantised vectors) s = (inr buffer, s).
Proof.
  intros Hmd Hd Hv Hq Hn Hmax. eexists. split; [apply build_buffer_valid; (done || lia)|].
  split.
  - rewrite binary_args_quantised. by apply binary_round_trip.
  - rewrite build_buffer_valid by (done || lia || rewrite length_map; lia).
    by rewrite length_map, (records_bytes_quantised numDimensions).
Qed.

Lemma binary_encoding_is_stable_witness :
  forallb (valid_record 3) (map quantised MockHost.unit_vectors) = true
  /\ exists buffer,
       @build_buffer MockHost.mock MockHost.index_object MockHost.options 3
         MockHost.unit_vectors MockHost.ready = (inr buffer, MockHost.ready)
       /\ @decodes_as MockHost.mock
            (fun hnswlib filename => load_buffer hnswlib filename buffer)
            (fun filename => loaded_binary filename 3)
            (options_metadata MockHost.options 3)
            (map (fun r => (Arr (map Num (point r)), Num (label r)))
               (map quantised MockHost.unit_vectors))
       /\ @build_buffer MockHost.mock MockHost.index_object MockHost.options 3
            (map quantised MockHost.unit_vectors) MockHost.ready
          = (inr buffer, MockHost.ready).
Proof.
  split; [reflexivity|].
  apply (@binary_encoding_is_stable MockHost.mock MockHost.index_object MockHost.options 3
           MockHost.unit_vectors MockHost.ready).
  - reflexivity.
  - lia.
  - reflexivity.
  - reflexivity.
  - simpl. lia.
  - apply Z.leb_le. reflexivity.
Defined.

(** ** Components beyond the range of binary32 *)

Lemma round_half_even_ge (m k : Z) : Z.shiftr m k <= Float32.round_half_even m k.
Proof. unfold Float32.round_half_even. repeat case_match; lia. Qed.

Lemma magnitude_overflow (m : Z) : 2 ^ 128 <= m -> Float32.magnitude m 0 = Float32.inf_bits.
Proof.
  intros Hm. unfold Float32.magnitude.
  assert (Hl : 128 <= Z.log2 m).
  { change 128 with (Z.log2 (2 ^ 128)). by apply Z.log2_le_mono. }
  destruct (Z.log2_spec m ltac:(lia)) as [Hlo Hhi].
  set (d := Z.log2 m) in *.
  rewrite Z.max_l by lia.
  replace (0 + (d + 1) - 24 - 0) with (d - 23) by lia.
  rewrite Z.add_0_l.
  rewrite leb_false by lia.
  pose proof (round_half_even_ge m (d - 23)) as Hq.
  assert (Hs : 2 ^ 23 <= Z.shiftr m (d - 23)).
  { rewrite Z.shiftr_div_pow2 by lia. apply Z.div_le_lower_bound; [lia|].
    rewrite <- Z.pow_add_r by lia. replace (d - 23 + 23) with d by lia. lia. }
  apply Z.min_r. unfold Float32.inf_bits.
  assert (254 * 2 ^ 23 <= (d + 1 - 24 + 149) * 2 ^ 23) by nia.
  lia.
Qed.

Lemma bits_overflow (z : Z) :
  2 ^ 128 <= Z.abs z -> Float32.bits (Int z) = Float32.bits (Inf (z <? 0)).
Proof.
  intros Hz. destruct z as [|p|p]; [done| |];
    cbn [Float32.bits]; by rewrite magnitude_overflow.
Qed.

Lemma fround_overflow (z : Z) :
  2 ^ 128 <= Z.abs z -> Float32.fround (Int z) = Inf (z <? 0).
Proof.
  intros Hz. unfold Float32.fround. rewrite bits_overflow by done. by destruct (z <? 0).
Qed.

Lemma point_bytes_app (p q : list number) :
  point_bytes (p ++ q) = point_bytes p ++ point_bytes q.
Proof. unfold point_bytes. by rewrite flat_map_app. Qed.

Lemma records_bytes_app (v w : list VectorRecord) :
  records_bytes (v ++ w) = records_bytes v ++ records_bytes w.
Proof. unfold records_bytes. by rewrite flat_map_app. Qed.

Section Overflow.
Context `{Host}.

(** With options that are all given and valid records before it, the first
    component that is not finite stops the binary save. *)
Lemma saveIndexBinary_first_bad_component (index : value) (name : string)
    (md : Options.t) (numDimensions : Z) (pre : list VectorRecord) (r : VectorRecord)
    (post : list VectorRecord) (good : list number) (x : number) (rest : list number)
    (s : state) :
  valid_options md = true ->
  0 <= numDimensions < 2 ^ 32 ->
  Z.of_nat (length (pre ++ r :: post)) < 2 ^ 32 ->
  40 + Z.of_nat (length (pre ++ r :: post)) * (4 + numDimensions * 4) <= kMaxLength ->
  forallb (valid_record numDimensions) pre = true ->
  is_u32 (label r) = true ->
  Z.of_nat (length (point r)) = numDimensions ->
  point r = good ++ x :: rest ->
  forallb isFinite good = true ->
  isFinite x = false ->
  saveIndexBinary index name md numDimensions (pre ++ r :: post) s
  = (inl (WriteBinaryFailed (InvalidVectorValue x)), s).
Proof.
  intros Hmd Hd Hn Hmax Hpre (z & Hz & Hzr)%is_u32_inv Hdim Hpoint Hgood Hx.
  pose proof (length_records_bytes _ _ Hpre) as Hlen.
  assert (Hroom : Z.of_nat (length pre) * (4 + numDimensions * 4)
                  + (4 + numDimensions * 4)
                  <= Z.of_nat (length (pre ++ r :: post)) * (4 + numDimensions * 4)).
  { rewrite length_app. cbn [length]. nia. }
  set (total := Z.of_nat (length (pre ++ r :: post)) * (4 + numDimensions * 4)) in *.
  apply saveIndexBinary_build_failed.
  rewrite build_buffer_header by done. fold total.
  rewrite write_vectors_app_list, write_vectors_app;
    [|done|done|rewrite length_replicate; lia].
  cbn [write_vectors]. rewrite Hdim, Z.eqb_refl. cbn [negb].
  rewrite Hz.
  rewrite (writeUInt32LE_app _ _ _ z).
  - rewrite Hpoint, write_point_app_list.
    rewrite write_point_app.
    + cbn [write_point]. by rewrite Hx.
    + done.
    + rewrite !length_app, length_le_bytes, length_options_header. lia.
    + rewrite !length_drop, length_replicate.
      rewrite Hpoint, length_app in Hdim. cbn [length] in Hdim. lia.
  - by apply checkInt_u32.
  - rewrite !length_app, length_options_header. lia.
  - rewrite !length_drop, length_replicate.
    rewrite Hpoint, length_app in Hdim. cbn [length] in Hdim. lia.
Qed.

(** X9: the finiteness check of [saveIndexBinary] is on the number as
    given, not as stored.  Take valid input of the binary encoder in which
    a record [r] has an integer component [z] of magnitude 2^128 or more.
    The component is finite, so the encoder succeeds.  In the buffer it
    writes, [readFloatLE] at the offset of that component returns the
    infinity of the sign of [z], and [loadIndexBinary] decodes the buffer
    as the rehydration of the records in which that component is the
    infinity: this is what it hands to [addPoint].  When the records
    before [r] and the components before [z] stay finite at 32-bit
    precision, a binary save of the records as loaded fails with 'Invalid
    vector value' for that infinity, wrapped in 'Failed to write binary
    file', with nothing written. *)
Theorem large_component_is_stored_as_infinity (index : value) (name : string)
    (md : Options.t) (numDimensions : Z) (pre : list VectorRecord) (r : VectorRecord)
    (post : list VectorRecord) (good : list number) (z : Z) (rest : list number)
    (s : state) :
  valid_options md = true ->
  1 <= numDimensions <= 100000 ->
  forallb (valid_record numDimensions) (pre ++ r :: post) = true ->
  Z.of_nat (length (pre ++ r :: post)) <= 100000000 ->
  40 + Z.of_nat (length (pre ++ r :: post)) * (4 + numDimensions * 4) <= kMaxLength ->
  point r = good ++ Int z :: rest ->
  2 ^ 128 <= Z.abs z ->
  exists buffer,
    build_buffer index md numDimensions (pre ++ r :: post) s = (inr buffer, s)
    /\ Buffer.readFloatLE buffer
         (40 + Z.of_nat (length pre) * (4 + numDimensions * 4)
          + 4 + 4 * Z.of_nat (length good))
       = inr (Inf (z <? 0))
    /\ decodes_as (fun hnswlib filename => load_buffer hnswlib filename buffer)
         (fun filename => loaded_binary filename (Z.of_nat (length (pre ++ r :: post))))
         (options_metadata md numDimensions)
         (map binary_args pre
          ++ (Arr (map (fun x => Num (Float32.fround x)) good
                   ++ Num (Inf (z <? 0))
                   :: map (fun x => Num (Float32.fround x)) rest),
              Num (label r))
          :: map binary_args post)
    /\ (forallb (valid_record numDimensions) (map quantised pre) = true ->
        forallb isFinite (map Float32.fround good) = true ->
        saveIndexBinary index name md numDimensions (map quantised (pre ++ r :: post)) s
        = (inl (WriteBinaryFailed (InvalidVectorValue (Inf (z <? 0)))), s)).
Proof.
  intros Hmd Hd Hv Hn Hmax Hpoint Hz.
  pose proof Hv as Hv'. rewrite forallb_app in Hv'. cbn [forallb] in Hv'.
  apply andb_true_iff in Hv' as [Hpre [Hr Hpost]%andb_true_iff].
  pose proof (valid_record_inv _ _ Hr) as ((l & Hl & Hlr) & Hdim & Hfin).
  pose proof (length_records_bytes _ _ Hpre) as Hlpre.
  pose proof (length_records_bytes _ _ Hv) as Hlen.
  eexists. split; [apply build_buffer_valid; (done || lia)|]. split; [|split].
  - rewrite readFloatLE_in_bounds.
    + rewrite records_bytes_app. unfold records_bytes at 2. cbn [flat_map].
      fold (records_bytes post). unfold record_bytes at 1.
      rewrite Hpoint, point_bytes_app. unfold point_bytes at 2. cbn [flat_map].
      fold (point_bytes rest).
      rewrite <- !app_assoc.
      rewrite (app_assoc (options_header _ _ _)), (app_assoc (_ ++ records_bytes pre)),
        (app_assoc ((_ ++ records_bytes pre) ++ _)).
      rewrite u32_at_app.
      * rewrite le_value_le_bytes_u32 by apply bits_range.
        f_equal. by apply fround_overflow.
      * rewrite !length_app, length_options_header, length_le_bytes, length_point_bytes.
        lia.
      * apply length_le_bytes.
    + lia.
    + unfold Buffer.size. rewrite length_app, length_options_header.
      rewrite Hpoint, length_app in Hdim. cbn [length] in Hdim.
      rewrite length_app in Hlen. cbn [length] in Hlen. nia.
  - replace (map binary_args pre ++ _ :: map binary_args post)
      with (map binary_args (pre ++ r :: post)); [by apply binary_round_trip|].
    rewrite map_app. cbn [map]. do 2 f_equal. unfold binary_args.
    rewrite Hpoint, map_app. cbn [map]. by rewrite fround_overflow.
  - intros Hqpre Hqgood. rewrite map_app. cbn [map].
    apply (saveIndexBinary_first_bad_component index name md numDimensions
             (map quantised pre) (quantised r) (map quantised post)
             (map Float32.fround good) (Inf (z <? 0)) (map Float32.fround rest)).
    + done.
    + lia.
    + rewrite length_app in *. cbn [length] in *. rewrite !length_map. lia.
    + rewrite length_app in *. cbn [length] in *. rewrite !length_map. lia.
    + done.
    + cbn [quantised label]. rewrite Hl. cbn [is_u32].
      apply andb_true_iff. split; [apply Z.leb_le|apply Z.ltb_lt]; lia.
    + cbn [quantised point]. by rewrite length_map.
    + cbn [quantised point]. rewrite Hpoint, map_app. cbn [map].
      by rewrite fround_overflow.
    + done.
    + done.
Qed.

End Overflow.

Lemma large_component_is_stored_as_infinity_witness :
  let r := {| label := Int 7; point := [Int 1; Int (- 2 ^ 128); Int 0] |} in
  forallb (valid_record 3) (MockHost.unit_vectors ++ r :: []) = true
  /\ exists buffer,
       @build_buffer MockHost.mock MockHost.index_object MockHost.options 3
         (MockHost.unit_vectors ++ r :: []) MockHost.ready = (inr buffer, MockHost.ready)
       /\ Buffer.readFloatLE buffer 96 = inr (Inf true)
       /\ @decodes_as MockHost.mock
            (fun hnswlib filename => load_buffer hnswlib filename buffer)
            (fun filename => loaded_binary filename 4)
            (options_metadata MockHost.options 3)
            (map binary_args MockHost.unit_vectors
             ++ [(Arr [Num (Int 1); Num (Inf true); Num (Int 0)], Num (Int 7))])
       /\ @saveIndexBinary MockHost.mock MockHost.index_object "a.bin" MockHost.options 3
            (map quantised (MockHost.unit_vectors ++ r :: [])) MockHost.ready
          = (inl (WriteBinaryFailed (InvalidVectorValue (Inf true))), MockHost.ready).
Proof.
  intros r. split; [reflexivity|].
  destruct (@large_component_is_stored_as_infinity MockHost.mock MockHost.index_object
              "a.bin" MockHost.options 3 MockHost.unit_vectors r [] [Int 1] (- 2 ^ 128)
              [Int 0] MockHost.ready eq_refl ltac:(lia) eq_refl ltac:(simpl; lia)
              ltac:(apply Z.leb_le; reflexivity) eq_refl ltac:(simpl; lia))
    as (buffer & Hb & Hread & Hdec & Hsave).
  exists buffer. split; [exact Hb|]. split; [exact Hread|]. split; [exact Hdec|].
  apply Hsave; reflexivity.
Defined.

(** ** The text encoder on input the binary encoder refuses *)

Section TextSave.
Context `{Host}.

(** The text encoder does not look at the vectors: with options that are
    all given it writes a document that passes the structural checks of
    the decoder and holds every record it was given. *)
Lemma build_document_any (index : value) (md : Options.t) (numDimensions : Z)
    (vectors : list VectorRecord) (s : state) :
  valid_options md = true -> 0 < numDimensions ->
  exists data doc,
    build_document index md numDimensions vectors s = (inr data, s)
    /\ JSON_stringify data = JSONText doc
    /\ document_ok doc = true
    /\ document_metadata doc = options_metadata md numDimensions
    /\ prop doc "numDimensions" = Num (Int numDimensions)
    /\ document_entries doc
       = map (fun r => default Null (to_json (record_value r))) vectors.
Proof.
  intros ((name & Hname & Hsp) & (zE & HE & HzE) & (zm & Hm & Hzm) & (zc & Hc & Hzc)
          & (zs & Hs & Hzs))%valid_options_inv Hd.
  unfold build_document. munfold.
  rewrite (maxElements_or_index_given md index zE) by (done || lia).
  rewrite Hname, Hm, Hc, Hs, !num_or_positive by lia.
  assert (Hstr : str_or (Some name) "l2" = name).
  { unfold str_or. destruct (String.eqb name "") eqn:E; [|done].
    apply String.eqb_eq in E as ->. done. }
  rewrite Hstr. eexists. eexists. split; [done|].
  unfold JSON_stringify. cbn [to_json]. split; [done|].
  set (P := <["version":=_]> _).
  assert (Hlk : forall k, prop (Obj (omap to_json P)) k
                          = default Undefined (P !! k ≫= to_json)).
  { intros k. unfold prop, get. by rewrite lookup_omap. }
  assert (Hv' : prop (Obj (omap to_json P)) "vectors"
                = Arr (map (fun r => default Null (to_json (record_value r))) vectors)).
  { rewrite Hlk. change (P !! "vectors") with (Some (vectors_value vectors)).
    cbn [mbind option_bind]. by rewrite to_json_vectors. }
  assert (Hn : prop (Obj (omap to_json P)) "numDimensions" = Num (Int numDimensions)).
  { rewrite Hlk. change (P !! "numDimensions") with (Some (Num (Int numDimensions))).
    done. }
  assert (Hs' : prop (Obj (omap to_json P)) "spaceName" = Str name).
  { rewrite Hlk. by change (P !! "spaceName") with (Some (Str name)). }
  repeat apply conj.
  - unfold document_ok.
    assert (Hg : get (Obj (omap to_json P)) "vectors"
                 = inr (prop (Obj (omap to_json P)) "vectors")) by done.
    rewrite Hg, Hv', Hn, Hs', Hsp.
    rewrite (is_space_name_truthy _ Hsp). cbn.
    by rewrite leb_false by lia.
  - unfold document_metadata, options_metadata. rewrite Hn, Hs', !Hlk.
    rewrite Hname, HE, Hm, Hc, Hs.
    change (P !! "maxElements") with (Some (Num (Int zE))).
    change (P !! "m") with (Some (Num (Int zm))).
    change (P !! "efConstruction") with (Some (Num (Int zc))).
    change (P !! "randomSeed") with (Some (Num (Int zs))).
    cbn. unfold or_else. cbn.
    destruct zE, zm, zc, zs; try lia; done.
  - done.
  - unfold document_entries. by rewrite Hv'.
Qed.

(** A record with a finite label and a point of the wrong length, as the
    decoder finds it in the document. *)
Lemma text_entry_wrong_length (numDimensions : Z) (r : VectorRecord) :
  isFinite (label r) = true ->
  Z.of_nat (length (point r)) <> numDimensions ->
  entry_error (Num (Int numDimensions)) (default Null (to_json (record_value r)))
  = Some InvalidVector.
Proof.
  intros (n & Hn)%json_number_finite Hd.
  rewrite to_json_record. cbn [default from_option id].
  unfold entry_error, prop, get.
  rewrite lookup_insert_eq, lookup_insert_ne, lookup_insert_eq by done.
  cbn [default from_option id]. rewrite Hn. cbn [typeof String.eqb negb].
  cbn [bad_point strict_neq_num]. rewrite length_map. unfold Number.strict_eq.
  rewrite bool_decide_eq_false_2 by congruence.
  by destruct numDimensions.
Qed.

(** X10: [saveIndexJSON] writes whatever vectors it is given, where
    [saveIndexBinary] refuses them.  With options that are all given, a
    record whose point has the wrong length does not stop the text
    encoder: the document is built and written.  That document is then
    refused by [loadIndexJSON], with 'Invalid vector', after it has
    constructed an index and inserted the records before the wrong one. *)
Theorem text_save_writes_what_text_load_refuses (index : value) (md : Options.t)
    (numDimensions : Z) (pre : list VectorRecord) (r : VectorRecord)
    (post : list VectorRecord) (s : state) :
  valid_options md = true ->
  0 < numDimensions ->
  forallb (valid_record numDimensions) pre = true ->
  isFinite (label r) = true ->
  Z.of_nat (length (point r)) <> numDimensions ->
  exists data doc,
    build_document index md numDimensions (pre ++ r :: post) s = (inr data, s)
    /\ JSON_stringify data = JSONText doc
    /\ (forall name h',
          fs_writeFile_utf8 name (JSONText doc) (host s) = (inr tt, h') ->
          logger s !! "log" = Some (Fun noop) ->
          exists message,
            saveIndexJSON index name md numDimensions (pre ++ r :: post) s
            = (inr tt, State (logger s)
                         (trace s ++ [WriteText name (JSONText doc);
                                      Call "logger.log" noop [Str message]]) h'))
    /\ forall hnswlib filename s0,
         load_document hnswlib filename doc s0
         = match replay hnswlib (options_metadata md numDimensions)
                   (map text_args pre) s0 with
           | (inl e', s') => (inl (RecreateFailed e'), s')
           | (inr _, s') => (inl (RecreateFailed InvalidVector), s')
           end.
Proof.
  intros Hmd Hd Hpre Hl Hbad.
  destruct (build_document_any index md numDimensions (pre ++ r :: post) s Hmd Hd)
    as (data & doc & Hb & Hj & Hok & Hm & Hnd & He).
  exists data, doc. split; [done|]. split; [done|]. split.
  - intros name h' Hw Hlog. unfold saveIndexJSON. munfold. rewrite Hb, Hj.
    unfold ask. rewrite Hw. unfold logger_log. cbn [logger]. rewrite Hlog.
    cbn [default from_option id invoke]. rewrite String.eqb_refl. unfold call_noop.
    cbn [logger trace host]. rewrite <- app_assoc. by eexists.
  - intros hnswlib filename s0.
    rewrite load_document_checked by done. rewrite He, map_app. cbn [map].
    rewrite <- Hm. unfold replay. munfold.
    change (Metadata.spaceName (document_metadata doc)) with (prop doc "spaceName").
    change (Metadata.numDimensions (document_metadata doc)) with (prop doc "numDimensions").
    destruct (method_new hnswlib _ _ s0) as [[e'|ix] s1]; [done|].
    destruct (method ix "initIndex" _ s1) as [[e'|[]] s2]; [done|].
    rewrite Hnd.
    rewrite (add_vectors_invalid ix _ _ _ _ InvalidVector).
    + rewrite map_map.
      rewrite (map_ext_in (fun x => entry_args (default Null (to_json (record_value x))))
                 text_args).
      * by destruct (insert_all ix _ s2) as [[e'|[]] s3].
      * intros x Hx. apply text_entry_valid with numDimensions.
        rewrite forallb_forall in Hpre. by apply Hpre.
    + apply forallb_forall. intros entry Hin.
      apply in_map_iff in Hin as (x & <- & Hx). apply bool_decide_eq_true.
      apply text_entry_valid. rewrite forallb_forall in Hpre. by apply Hpre.
    + by apply text_entry_wrong_length.
Qed.

End TextSave.

Lemma text_save_writes_what_text_load_refuses_witness :
  let short := {| label := Int 3; point := [Int 1; Int 0] |} in
  exists data doc,
    @build_document MockHost.mock MockHost.index_object MockHost.options 3
      (MockHost.unit_vectors ++ short :: []) MockHost.ready = (inr data, MockHost.ready)
    /\ JSON_stringify data = JSONText doc
    /\ @load_document MockHost.mock MockHost.hnswlib "v.json" doc MockHost.start
       = match @replay MockHost.mock MockHost.hnswlib (options_metadata MockHost.options 3)
                 (map text_args MockHost.unit_vectors) MockHost.start with
         | (inl e', s') => (inl (RecreateFailed e'), s')
         | (inr _, s') => (inl (RecreateFailed InvalidVector), s')
         end.
Proof.
  intros short.
  destruct (@text_save_writes_what_text_load_refuses MockHost.mock MockHost.index_object
              MockHost.options 3 MockHost.unit_vectors short [] MockHost.ready
              eq_refl ltac:(lia) eq_refl eq_refl ltac:(simpl; lia))
    as (data & doc & Hb & Hj & _ & Hload).
  exists data, doc. split; [exact Hb|]. split; [exact Hj|]. apply Hload.
Defined.

(** ** A log sink that cannot be called *)

Section LogAfterWrite.
Context `{Host}.

Lemma logger_log_not_a_function (message : string) (s : state) :
  is_function (default Undefined (logger s !! "log")) = false ->
  logger_log message s = (inl (NotAFunction "logger.log"), s).
Proof.
  unfold logger_log. by destruct (default Undefined (logger s !! "log")).
Qed.

(** X11: the success line is logged inside the [try] of the write.  After
    [setLogger] with a [log] that is not a function (say [{ log: null }]),
    a save whose file was written all the same fails, with 'Failed to
    write JSON file' or 'Failed to write binary file' around the
    TypeError of the call of [logger.log]: the request to write is in the
    trace and the file system has accepted it. *)
Theorem failed_log_is_reported_as_failed_write (customLogger v : value) (s0 : state)
    (index : value) (name : string) (md : Options.t) (numDimensions : Z)
    (vectors : list VectorRecord) :
  spread customLogger !! "log" = Some v ->
  is_function v = false ->
  let s := snd (setLogger customLogger s0) in
  (forall data s1 h2,
     build_document index md numDimensions vectors s = (inr data, s1) ->
     fs_writeFile_utf8 name (JSON_stringify data) (host s1) = (inr tt, h2) ->
     saveIndexJSON index name md numDimensions vectors s
     = (inl (WriteJSONFailed (NotAFunction "logger.log")),
        State (logger s) (trace s1 ++ [WriteText name (JSON_stringify data)]) h2))
  /\ (forall buffer s1 h2,
        build_buffer index md numDimensions vectors s = (inr buffer, s1) ->
        fs_writeFile name buffer (host s1) = (inr tt, h2) ->
        saveIndexBinary index name md numDimensions vectors s
        = (inl (WriteBinaryFailed (NotAFunction "logger.log")),
           State (logger s) (trace s1 ++ [WriteFile name buffer]) h2)).
Proof.
  intros Hv Hf s.
  assert (Hlog : is_function (default Undefined (logger s !! "log")) = false).
  { subst s. cbn [setLogger snd logger]. rewrite lookup_union, Hv.
    by destruct (defaultLogger !! "log"). }
  split.
  - intros data s1 h2 Hb Hw. unfold saveIndexJSON. munfold. rewrite Hb.
    destruct (quiet_build_document _ _ _ _ _ _ _ Hb) as (ev & [Hl _] & _).
    unfold ask. rewrite Hw. rewrite logger_log_not_a_function; [by rewrite Hl|].
    cbn [logger]. by rewrite Hl.
  - intros buffer s1 h2 Hb Hw. unfold saveIndexBinary. munfold. rewrite Hb.
    destruct (quiet_build_buffer _ _ _ _ _ _ _ Hb) as (ev & [Hl _] & _).
    unfold ask. rewrite Hw. rewrite logger_log_not_a_function; [by rewrite Hl|].
    cbn [logger]. by rewrite Hl.
Qed.

End LogAfterWrite.

Lemma failed_log_is_reported_as_failed_write_witness :
  let s := snd (@setLogger MockHost.mock (Obj {[ "log" := Null ]}) MockHost.ready) in
  let r := @saveIndexBinary MockHost.mock MockHost.index_object "a.bin" MockHost.options 3
             MockHost.unit_vectors s in
  fst r = inl (WriteBinaryFailed (NotAFunction "logger.log"))
  /\ MockHost.bin_files (host (snd r)) !! "a.bin" = Some MockHost.encoded.
Proof.
  intros s r.
  assert (Hb : @build_buffer MockHost.mock MockHost.index_object MockHost.options 3
                 MockHost.unit_vectors s = (inr MockHost.encoded, s)) by by_evaluation.
  pose proof (proj2 (@failed_log_is_reported_as_failed_write MockHost.mock
                       (Obj {[ "log" := Null ]}) Null MockHost.ready
                       MockHost.index_object "a.bin" MockHost.options 3
                       MockHost.unit_vectors eq_refl eq_refl)
                MockHost.encoded s _ Hb eq_refl) as Hsave.
  subst r. fold s in Hsave. rewrite Hsave. split; [reflexivity|]. by_evaluation.
Defined.

(** ** The checks of the text decoder *)

Section TextChecks.
Context `{Host}.

(** X12: the structural checks of [loadIndexJSON] come in a fixed order,
    and each failure is thrown before anything is done.  A document that
    is [null] fails with the TypeError of reading [data.vectors], not
    with a format error.  Otherwise: no [vectors] array gives 'missing or
    invalid vectors array', whatever else is wrong; then a [numDimensions]
    that is not a number above zero gives 'invalid numDimensions'; then a
    [spaceName] that is not one of the three names gives 'Invalid
    spaceName'. *)
Theorem text_decode_checks_in_order (hnswlib : value) (filename : string)
    (doc : value) (s : state) :
  (doc = Null -> load_document hnswlib filename doc s = (inl NoProperties, s))
  /\ (doc <> Null -> doc <> Undefined -> isArray (prop doc "vectors") = false ->
      load_document hnswlib filename doc s = (inl MissingVectors, s))
  /\ (isArray (prop doc "vectors") = true ->
      not_positive_number (prop doc "numDimensions") = true ->
      load_document hnswlib filename doc s = (inl InvalidNumDimensionsJSON, s))
  /\ (isArray (prop doc "vectors") = true ->
      not_positive_number (prop doc "numDimensions") = false ->
      is_space_name (prop doc "spaceName") = false ->
      load_document hnswlib filename doc s = (inl InvalidSpaceName, s))
  /\ classify NoProperties <> FormatError.
Proof.
  assert (Hget : doc <> Null -> doc <> Undefined -> forall q, get doc q = inr (prop doc q)).
  { intros H1 H2 q. unfold prop. by destruct doc. }
  assert (Harr : isArray (prop doc "vectors") = true -> doc <> Null /\ doc <> Undefined).
  { by destruct doc. }
  repeat apply conj.
  - by intros ->.
  - intros H1 H2 Hv. unfold load_document. munfold. rewrite !Hget by done.
    rewrite Hv. by rewrite orb_true_r.
  - intros Hv Hn. destruct (Harr Hv) as [H1 H2].
    unfold load_document. munfold. rewrite !Hget by done.
    destruct (prop doc "vectors"); try done. cbn. by rewrite Hn.
  - intros Hv Hn Hs. destruct (Harr Hv) as [H1 H2].
    unfold load_document. munfold. rewrite !Hget by done.
    destruct (prop doc "vectors"); try done. cbn. rewrite Hn. cbn.
    rewrite Hs. by rewrite orb_true_r.
  - done.
Qed.

Lemma add_vectors_checked (index numDimensions : value) (entries : list value) :
  forall s s', add_vectors index numDimensions entries s = (inr tt, s') ->
    Forall (fun entry => entry_error numDimensions entry = None) entries.
Proof.
  induction entries as [|entry entries IH]; intros s s'; [done|].
  cbn [add_vectors]. munfold.
  destruct (get entry "label") as [e|l] eqn:Hl; [done|].
  rewrite (get_prop entry "label" "point" l Hl).
  destruct (negb (String.eqb (typeof l) "number")) eqn:Ht; [done|].
  destruct (bad_point (prop entry "point") numDimensions) eqn:Hb; [done|].
  destruct (method index "addPoint" _ s) as [[e|[]] s1]; [done|].
  intros Hrest%IH. constructor; [|done].
  unfold entry_error. by rewrite Hl, Ht, Hb.
Qed.

Lemma entry_checked (numDimensions entry : value) :
  not_positive_number numDimensions = false ->
  entry_error numDimensions entry = None ->
  exists n, numDimensions = Num (Int n) /\ checked_insertion n (entry_args entry) = true.
Proof.
  intros Hpos. unfold entry_error, entry_args.
  destruct (get entry "label") as [e|l] eqn:Hl; [done|].
  rewrite (get_prop entry "label" "label" l Hl) in Hl. injection Hl as <-.
  destruct (prop entry "label") as [| | |l| | | | |]; try done. cbn [typeof String.eqb negb].
  destruct (prop entry "point") as [| | | | |items| | |]; try done. cbn [bad_point].
  destruct numDimensions as [| | |n| | | | |]; try done. cbn [strict_neq_num].
  destruct (Number.strict_eq n (Int (Z.of_nat (length items)))) eqn:E; [|done].
  intros _. exists (Z.of_nat (length items)). split; [|by apply Z.eqb_refl].
  unfold Number.strict_eq in E. destruct n as [z| | | |]; try done.
  - destruct z; apply bool_decide_eq_true in E; congruence.
Qed.

Lemma or_else_truthy (a d : value) : truthy d = true -> truthy (or_else a d) = true.
Proof. intros Hd. unfold or_else. by destruct (truthy a) eqn:E. Qed.

(** X13: what a successful [loadIndexJSON] has checked.  The metadata it
    returns has one of the three space names, a [numDimensions] that is a
    number above zero, and options that are all truthy; every insertion
    it made has a numeric label and a point that is an array of exactly
    [numDimensions] elements (the elements themselves are not looked at);
    and it made no request to the file system. *)
Theorem text_load_inserts_checked_records (hnswlib : value) (filename : string)
    (doc : value) (s s' : state) (index : value) (md : Metadata.t) :
  load_document hnswlib filename doc s = (inr (index, md), s') ->
  is_space_name (Metadata.spaceName md) = true
  /\ not_positive_number (Metadata.numDimensions md) = false
  /\ truthy (Metadata.maxElements md) && truthy (Metadata.m md)
     && truthy (Metadata.efConstruction md) && truthy (Metadata.randomSeed md) = true
  /\ exists events, extends s s' events
       /\ fs_requests events = []
       /\ Forall (fun r => exists n, Metadata.numDimensions md = Num (Int n)
                            /\ checked_insertion n r = true) (inserted events).
Proof.
  intros Hload.
  destruct (load_document_accepted _ _ _ _ _ _ _ Hload) as (Hok & -> & events & Ht & Hi).
  destruct (document_ok_inv doc Hok) as (_ & _ & _ & Hpos & _ & Hsp).
  destruct (quiet_load_document _ _ _ _ _ _ Hload) as (events' & [Hlog Ht'] & Hfs).
  assert (events' = events) as -> by (rewrite Ht in Ht'; by apply app_inv_head in Ht').
  split; [done|]. split; [done|]. split.
  { cbn [document_metadata Metadata.maxElements Metadata.m Metadata.efConstruction
         Metadata.randomSeed]. by rewrite !or_else_truthy. }
  exists events. split; [done|]. split; [done|]. rewrite Hi.
  rewrite load_document_checked in Hload by done. revert Hload. munfold.
  destruct (method_new hnswlib _ _ s) as [[e|ix] s1]; [done|].
  destruct (method ix "initIndex" _ s1) as [[e|[]] s2]; [done|].
  destruct (add_vectors ix _ _ s2) as [[e|[]] s3] eqn:Ea; [done|]. intros _.
  apply add_vectors_checked in Ea. apply Forall_map. eapply Forall_impl; [exact Ea|].
  intros entry He. by apply entry_checked.
Qed.

End TextChecks.

Lemma text_load_inserts_checked_records_witness :
  let r := @load_document MockHost.mock MockHost.hnswlib "v.json" Samples.doc_count5
             MockHost.start in
  is_space_name (Metadata.spaceName (returned_metadata r)) = true
  /\ not_positive_number (Metadata.numDimensions (returned_metadata r)) = false
  /\ truthy (Metadata.maxElements (returned_metadata r))
     && truthy (Metadata.m (returned_metadata r))
     && truthy (Metadata.efConstruction (returned_metadata r))
     && truthy (Metadata.randomSeed (returned_metadata r)) = true
  /\ exists events, @extends MockHost.mock MockHost.start (snd r) events
       /\ fs_requests events = []
       /\ Forall (fun x => exists n,
                    Metadata.numDimensions (returned_metadata r) = Num (Int n)
                    /\ checked_insertion n x = true) (inserted events).
Proof.
  intros r.
  apply (@text_load_inserts_checked_records MockHost.mock MockHost.hnswlib "v.json"
           Samples.doc_count5 MockHost.start (snd r) (returned_index r)).
  by_evaluation.
Defined.

(** ** The checks of the binary decoder *)

Lemma u32_at_range (buffer : Buffer.t) (offset : Z) : 0 <= u32_at buffer offset < 2 ^ 32.
Proof.
  unfold u32_at. pose proof (le_value_range (take 4 (drop (Z.to_nat offset) buffer))) as Hr.
  assert (Hl : (length (take 4 (drop (Z.to_nat offset) buffer)) <= 4)%nat).
  { rewrite length_take. lia. }
  split; [lia|]. eapply Z.lt_le_trans; [apply Hr|].
  apply Z.pow_le_mono_r; lia.
Qed.

Lemma length_point_at (buffer : Buffer.t) (n : nat) :
  forall offset, length (point_at buffer n offset) = n.
Proof. induction n as [|n IH]; intros offset; [done|]. cbn. by rewrite IH. Qed.

Lemma point_at_numbers (buffer : Buffer.t) (n : nat) :
  forall offset,
    forallb (fun x => String.eqb (typeof x) "number") (point_at buffer n offset) = true.
Proof. induction n as [|n IH]; intros offset; [done|]. cbn. apply IH. Qed.

Lemma records_at_binary (buffer : Buffer.t) (numDimensions : Z) (n : nat) :
  0 <= numDimensions ->
  forall offset,
    Forall (fun r => binary_insertion numDimensions r = true)
      (records_at buffer numDimensions n offset).
Proof.
  intros Hd. induction n as [|n IH]; intros offset; [done|].
  cbn [records_at]. constructor; [|apply IH].
  cbn [binary_insertion]. rewrite length_point_at, point_at_numbers.
  pose proof (u32_at_range buffer offset) as Hr.
  cbn [is_u32]. rewrite Z2Nat.id, Z.eqb_refl by done.
  rewrite (leb_true 0), (ltb_true (u32_at buffer offset)) by lia. done.
Qed.

Lemma is_space_name_spaceName_of (code : Z) : is_space_name (Str (spaceName_of code)) = true.
Proof. unfold spaceName_of. by destruct (Z.to_nat code) as [|[|[|n]]]. Qed.

(** X14: what a successful [loadIndexBinary] has checked.  The metadata it
    returns has one of the three space names, a dimension between 1 and
    100000 and options that are unsigned 32-bit integers; it made at most
    100000000 insertions, each with an unsigned 32-bit label and a point
    of exactly [numDimensions] numbers; and it made no request to the
    file system. *)
Theorem binary_load_inserts_checked_records `{Host} (hnswlib : value)
    (filename : string) (buffer : Buffer.t) (s s' : state) (index : value)
    (md : Metadata.t) :
  load_buffer hnswlib filename buffer s = (inr (index, md), s') ->
  exists n,
    Metadata.numDimensions md = Num (Int n) /\ 1 <= n <= 100000
    /\ is_space_name (Metadata.spaceName md) = true
    /\ is_u32_value (Metadata.maxElements md) && is_u32_value (Metadata.m md)
       && is_u32_value (Metadata.efConstruction md)
       && is_u32_value (Metadata.randomSeed md) = true
    /\ exists events, extends s s' events
         /\ fs_requests events = []
         /\ Z.of_nat (length (inserted events)) <= 100000000
         /\ Forall (fun r => binary_insertion n r = true) (inserted events).
Proof.
  intros Hload.
  destruct (load_buffer_accepted _ _ _ _ _ _ Hload) as [Hok Hsize].
  destruct (quiet_load_buffer _ _ _ _ _ _ Hload) as (events' & [Hlog Ht'] & Hfs).
  rewrite load_buffer_spec in Hload by done. rewrite ltb_false in Hload by lia.
  apply rehydrate_inv in Hload as (-> & events & Ht & Hi).
  assert (events' = events) as -> by (rewrite Ht in Ht'; by apply app_inv_head in Ht').
  destruct (header_ok_inv buffer Hok) as (_ & _ & Hd & Hn).
  exists (u32_at buffer 2). split; [done|]. split; [lia|].
  split; [apply is_space_name_spaceName_of|]. split.
  { cbn [header_metadata Metadata.maxElements Metadata.m Metadata.efConstruction
         Metadata.randomSeed is_u32_value is_u32].
    pose proof (u32_at_range buffer 6). pose proof (u32_at_range buffer 10).
    pose proof (u32_at_range buffer 14). pose proof (u32_at_range buffer 18).
    by rewrite !leb_true, !ltb_true by lia. }
  exists events. split; [done|]. split; [done|]. rewrite Hi. split.
  - unfold buffer_records. rewrite length_records_at. lia.
  - apply records_at_binary. lia.
Qed.

Lemma binary_load_inserts_checked_records_witness :
  let r := @load_buffer MockHost.mock MockHost.hnswlib "v.bin" MockHost.encoded
             MockHost.start in
  exists n,
    Metadata.numDimensions (returned_metadata r) = Num (Int n) /\ 1 <= n <= 100000
    /\ is_space_name (Metadata.spaceName (returned_metadata r)) = true
    /\ is_u32_value (Metadata.maxElements (returned_metadata r))
       && is_u32_value (Metadata.m (returned_metadata r))
       && is_u32_value (Metadata.efConstruction (returned_metadata r))
       && is_u32_value (Metadata.randomSeed (returned_metadata r)) = true
    /\ exists events, @extends MockHost.mock MockHost.start (snd r) events
         /\ fs_requests events = []
         /\ Z.of_nat (length (inserted events)) <= 100000000
         /\ Forall (fun x => binary_insertion n x = true) (inserted events).
Proof.
  intros r.
  apply (@binary_load_inserts_checked_records MockHost.mock MockHost.hnswlib "v.bin"
           MockHost.encoded MockHost.start (snd r) (returned_index r)).
  by_evaluation.
Defined.

(** ** Loading: the requests, the refusals, the failures *)

Section LoadPath.
Context `{Host}.

(** The two loaders read the file, then decode what they read. *)
Lemma loadIndexBinary_read (hnswlib : value) (name : string) (s : state) :
  loadIndexBinary hnswlib name s
  = match fs_readFile name (host s) with
    | (inr buffer, h') =>
        load_buffer hnswlib name buffer (State (logger s) (trace s ++ [ReadFile name]) h')
    | (inl cause, h') =>
        (inl (ReadFailed cause), State (logger s) (trace s ++ [ReadFile name]) h')
    end.
Proof.
  unfold loadIndexBinary, ask. munfold. by destruct (fs_readFile name (host s)) as [[e|b] h'].
Qed.

Lemma loadIndexJSON_read (hnswlib : value) (name : string) (s : state) :
  loadIndexJSON hnswlib name s
  = let after h' := State (logger s) (trace s ++ [ReadText name]) h' in
    match fs_readFile_utf8 name (host s) with
    | (inr (JSONText doc), h') => load_document hnswlib name doc (after h')
    | (inr Garbled, h') => (inl (InvalidJSON SyntaxError), after h')
    | (inl SyntaxError, h') => (inl (InvalidJSON SyntaxError), after h')
    | (inl cause, h') => (inl (ReadFailed cause), after h')
    end.
Proof.
  unfold loadIndexJSON, ask. munfold.
  destruct (fs_readFile_utf8 name (host s)) as [[e|[doc|]] h']; try done.
  by destruct e.
Qed.

Lemma loadIndexBinary_requests (hnswlib : value) (name : string) (s : state)
    (r : error + value * Metadata.t) (s' : state) :
  loadIndexBinary hnswlib name s = (r, s') ->
  exists events, extends s s' events /\ fs_requests events = [ReadFile name].
Proof.
  rewrite loadIndexBinary_read.
  destruct (fs_readFile name (host s)) as [[e|buffer] h'].
  - intros [= <- <-]. exists [ReadFile name]. by split.
  - intros (ev & [Hl Ht] & Hf)%quiet_load_buffer. exists ([ReadFile name] ++ ev).
    cbn [logger trace] in Hl, Ht.
    split; [split; [done|]; by rewrite Ht, <- app_assoc|].
    by rewrite fs_requests_app, Hf.
Qed.

Lemma loadIndexJSON_requests (hnswlib : value) (name : string) (s : state)
    (r : error + value * Metadata.t) (s' : state) :
  loadIndexJSON hnswlib name s = (r, s') ->
  exists events, extends s s' events /\ fs_requests events = [ReadText name].
Proof.
  rewrite loadIndexJSON_read. cbv zeta.
  destruct (fs_readFile_utf8 name (host s)) as [[e|[doc|]] h'].
  - intros Hr. exists [ReadText name]. split; [|done]. by destruct e; injection Hr as <- <-.
  - intros (ev & [Hl Ht] & Hf)%quiet_load_document. exists ([ReadText name] ++ ev).
    cbn [logger trace] in Hl, Ht.
    split; [split; [done|]; by rewrite Ht, <- app_assoc|].
    by rewrite fs_requests_app, Hf.
  - intros [= <- <-]. exists [ReadText name]. by split.
Qed.

(** The module check of [loadIndexFromFile]. *)
Lemma module_check (hnswlib : value) (s : state) :
  (HierarchicalNSW <- (if truthy hnswlib then lift (get hnswlib "HierarchicalNSW")
                       else ret Undefined) ;;
   throw_if (negb (truthy hnswlib) || negb (is_function HierarchicalNSW)) InvalidHnswlib) s
  = (if truthy hnswlib && exposes hnswlib "HierarchicalNSW" then inr tt
     else inl InvalidHnswlib, s).
Proof.
  munfold. unfold exposes. destruct (truthy hnswlib) eqn:Ht; [|done].
  destruct (get hnswlib "HierarchicalNSW") as [e|v] eqn:Hg; [by destruct hnswlib|].
  cbn. by destruct (is_function v).
Qed.

(** The function after its two validations. *)
Lemma loadIndexFromFile_validated (hnswlib : value) (name : string) (s : state) :
  blank name = false ->
  truthy hnswlib && exposes hnswlib "HierarchicalNSW" = true ->
  loadIndexFromFile hnswlib (Str name) s
  = match fs_access name (host s) with
    | (inl _, h') => (inl (FileNotFound name), State (logger s) (trace s ++ [Access name]) h')
    | (inr _, h') =>
        try_catch
          (if isBinary name then loadIndexBinary hnswlib name
           else loadIndexJSON hnswlib name)
          (fun error =>
             logger_error ("Failed to load index from " +:+ name +:+ ":") error ;;;
             throw error)
          (State (logger s) (trace s ++ [Access name]) h')
    end.
Proof.
  intros Hb [Ht Hx]%andb_true_iff. unfold loadIndexFromFile. munfold.
  rewrite validateFilename_ok by by apply filename_ok_Str.
  rewrite Ht. unfold exposes in Hx.
  destruct (get hnswlib "HierarchicalNSW") as [e|v]; [done|]. rewrite Hx.
  cbn [negb orb filename_string]. unfold ask.
  by destruct (fs_access name (host s)) as [[e|[]] h'].
Qed.

Lemma loadIndexFromFile_bad_module (hnswlib : value) (name : string) (s : state) :
  blank name = false ->
  truthy hnswlib && exposes hnswlib "HierarchicalNSW" = false ->
  loadIndexFromFile hnswlib (Str name) s = (inl InvalidHnswlib, s).
Proof.
  intros Hb Hm. unfold loadIndexFromFile. munfold.
  rewrite validateFilename_ok by by apply filename_ok_Str.
  unfold exposes in Hm. destruct (truthy hnswlib) eqn:Ht; [|done].
  destruct (get hnswlib "HierarchicalNSW") as [e|v] eqn:Hg; [by destruct hnswlib|].
  cbn in Hm. by rewrite Hm.
Qed.

(** X15: before it touches the file system, [loadIndexFromFile] checks
    the module it was given: a value that is falsy or has no function
    [HierarchicalNSW] is refused with 'Invalid hnswlib module', and
    nothing is done.  A file that cannot be accessed then gives 'File not
    found: <name>', whatever the cause was; the file is not read, no index
    is constructed, and the failure is not logged. *)
Theorem loadIndexFromFile_checks_before_reading (hnswlib : value) (name : string)
    (s : state) :
  blank name = false ->
  (truthy hnswlib && exposes hnswlib "HierarchicalNSW" = false ->
   loadIndexFromFile hnswlib (Str name) s = (inl InvalidHnswlib, s))
  /\ (truthy hnswlib && exposes hnswlib "HierarchicalNSW" = true ->
      forall cause h',
        fs_access name (host s) = (inl cause, h') ->
        loadIndexFromFile hnswlib (Str name) s
        = (inl (FileNotFound name), State (logger s) (trace s ++ [Access name]) h')).
Proof.
  intros Hb. split.
  - by apply loadIndexFromFile_bad_module.
  - intros Hm cause h' Ha. by rewrite loadIndexFromFile_validated, Ha.
Qed.

(** X16: the requests of [loadIndexFromFile] to the file system are, in
    order, at most one access check and one read of the file it was
    given, as bytes when the name ends in [.bin] or [.dat] and as text
    otherwise; it never writes and never changes [logger].  When it
    returns an index it has made both requests. *)
Theorem loadIndexFromFile_reads_one_file (hnswlib filename : value) (s : state) :
  let name := filename_string filename in
  let r := loadIndexFromFile hnswlib filename s in
  exists events, extends s (snd r) events
    /\ (fs_requests events = [] \/ fs_requests events = [Access name]
        \/ fs_requests events = [Access name; read_request name])
    /\ (forall x, fst r = inr x -> fs_requests events = [Access name; read_request name]).
Proof.
  intros name r.
  destruct (filename_ok filename) eqn:Hok.
  2: { destruct (validateFilename_bad filename s Hok) as (e & _ & Hv).
       subst r. unfold loadIndexFromFile. munfold. rewrite Hv.
       exists []. split; [apply extends_refl|]. by split; [left|]. }
  destruct filename as [| | | |fname| | | |]; try done.
  cbn [filename_ok] in Hok. apply negb_true_iff in Hok. cbn [filename_string] in name.
  subst name.
  destruct (truthy hnswlib && exposes hnswlib "HierarchicalNSW") eqn:Hm.
  2: { subst r. rewrite loadIndexFromFile_bad_module by done.
       exists []. split; [apply extends_refl|]. by split; [left|]. }
  subst r. rewrite loadIndexFromFile_validated by done.
  destruct (fs_access fname (host s)) as [[e|[]] h1].
  { exists [Access fname]. split; [by split|]. by split; [right; left|]. }
  set (s1 := State (logger s) (trace s ++ [Access fname]) h1).
  assert (He1 : extends s s1 [Access fname]) by by split.
  assert (Hinner : forall r' s2,
            (if isBinary fname then loadIndexBinary hnswlib fname
             else loadIndexJSON hnswlib fname) s1 = (r', s2) ->
            exists events, extends s1 s2 events
              /\ fs_requests events = [read_request fname]).
  { intros r' s2. unfold read_request. destruct (isBinary fname).
    - apply loadIndexBinary_requests.
    - apply loadIndexJSON_requests. }
  unfold try_catch.
  destruct ((if isBinary fname then loadIndexBinary hnswlib fname
             else loadIndexJSON hnswlib fname) s1) as [[e|x] s2] eqn:E2;
    destruct (Hinner _ _ eq_refl) as (ev2 & He2 & Hf2).
  - unfold bind.
    destruct (logger_error _ e s2) as [[e'|[]] s3] eqn:E3;
      destruct (quiet_logger_error _ _ _ _ _ E3) as (ev3 & He3 & Hf3);
      exists (([Access fname] ++ ev2) ++ ev3);
      (split; [eapply extends_trans; [by eapply extends_trans|done]|]);
      rewrite !fs_requests_app, Hf2, Hf3; by split; [right; right|].
  - exists ([Access fname] ++ ev2). split; [by eapply extends_trans|].
    rewrite !fs_requests_app, Hf2. by split; [right; right|].
Qed.

(** X17: a failure of [loadIndexFromFile] is a refusal of its arguments,
    thrown before anything is done; or 'File not found', thrown right
    after the access check; or the failure [cause] of the loader chosen by
    the name, which was handed to [logger.error], with the message 'Failed
    to load index from <name>:', as the last thing done.  What is thrown
    is then [cause] itself when the sink returned, and what the sink threw
    when it threw.  When [logger.error] is not a function, the TypeError
    of calling it is thrown instead. *)
Theorem loadIndexFromFile_logs_what_it_throws (hnswlib filename : value)
    (s s' : state) (e : error) :
  loadIndexFromFile hnswlib filename s = (inl e, s') ->
  let name := filename_string filename in
  (s' = s /\ (e = FilenameNotString \/ e = FilenameEmpty \/ e = InvalidHnswlib))
  \/ (e = FileNotFound name /\ extends s s' [Access name])
  \/ (exists fe cause s0 s1,
        let args := [Str ("Failed to load index from " +:+ name +:+ ":"); Exn cause] in
        extends s s0 [Access name]
        /\ (if isBinary name then loadIndexBinary hnswlib name
            else loadIndexJSON hnswlib name) s0 = (inl cause, s1)
        /\ default Undefined (logger s1 !! "error") = Fun fe
        /\ trace s' = trace s1 ++ [Call "logger.error" fe args]
        /\ logger s' = logger s1
        /\ ((e = cause
             /\ (fe = noop /\ host s' = host s1
                 \/ fe <> noop
                    /\ call_void fe (Obj (logger s1)) args (host s1) = (inr tt, host s')))
            \/ (fe <> noop
                /\ call_void fe (Obj (logger s1)) args (host s1) = (inl e, host s'))))
  \/ (e = NotAFunction "logger.error"
      /\ is_function (default Undefined (logger s' !! "error")) = false).
Proof.
  intros Hload name.
  destruct (filename_ok filename) eqn:Hok.
  2: { destruct (validateFilename_bad filename s Hok) as (e' & He' & Hv).
       revert Hload. unfold loadIndexFromFile. munfold. rewrite Hv.
       intros [= <- <-]. left. split; [done|]. destruct He' as [->| ->]; eauto. }
  destruct filename as [| | | |fname| | | |]; try done.
  cbn [filename_ok] in Hok. apply negb_true_iff in Hok. cbn [filename_string] in name.
  subst name.
  destruct (truthy hnswlib && exposes hnswlib "HierarchicalNSW") eqn:Hm.
  2: { rewrite loadIndexFromFile_bad_module in Hload by done.
       injection Hload as <- <-. left. eauto. }
  rewrite loadIndexFromFile_validated in Hload by done.
  destruct (fs_access fname (host s)) as [[c|[]] h1].
  { injection Hload as <- <-. right; left. by split. }
  set (s0 := State (logger s) (trace s ++ [Access fname]) h1) in *.
  revert Hload. munfold.
  destruct ((if isBinary fname then loadIndexBinary hnswlib fname
             else loadIndexJSON hnswlib fname) s0) as [[cause|x] s1] eqn:Hbody; [|done].
  unfold logger_error.
  destruct (default Undefined (logger s1 !! "error")) as [| | | | | | |fe|] eqn:Hfe;
    try (intros [= <- <-]; right; right; right; by rewrite Hfe).
  destruct (invoke "logger.error" (Fun fe) _ _ s1) as [r s2] eqn:Hi.
  apply invoke_outcome in Hi as (Ht & Hl & Hcall).
  intros Hres. right; right; left. exists fe, cause, s0, s1. cbv zeta.
  split; [by split|]. split; [done|].
  destruct r as [e'|[]]; injection Hres as <- <-;
    (split; [done|]); (split; [done|]); (split; [done|]).
  - right. by destruct Hcall as [(_ & ? & _)|Hcall].
  - left. split; [done|]. destruct Hcall as [(-> & _ & Hh)|Hcall]; [by left|by right].
Qed.

(** X18: a text file that is not JSON.  When the file exists and its
    content does not parse, [loadIndexFromFile] has asked for the access
    check and for the text of the file, hands 'Invalid JSON file' to
    [logger.error] and throws it (or what the sink threw); the engine is
    not called. *)
Theorem garbled_text_file_is_refused (hnswlib : value) (name : string) (s : state)
    (h1 h2 : hstate) (fe : string) :
  blank name = false ->
  isBinary name = false ->
  truthy hnswlib && exposes hnswlib "HierarchicalNSW" = true ->
  fs_access name (host s) = (inr tt, h1) ->
  fs_readFile_utf8 name h1 = (inr Garbled, h2) ->
  logger s !! "error" = Some (Fun fe) ->
  let message := "Failed to load index from " +:+ name +:+ ":" in
  exists e s',
    loadIndexFromFile hnswlib (Str name) s = (inl e, s')
    /\ trace s' = trace s ++ [Access name; ReadText name;
                              Call "logger.error" fe
                                [Str message; Exn (InvalidJSON SyntaxError)]]
    /\ (e = InvalidJSON SyntaxError
        \/ fe <> noop
           /\ fst (call_void fe (Obj (logger s))
                     [Str message; Exn (InvalidJSON SyntaxError)] h2) = inl e).
Proof.
  intros Hb Hbin Hm Ha Hr Hfe message.
  rewrite loadIndexFromFile_validated, Ha, Hbin by done.
  unfold try_catch. rewrite loadIndexJSON_read. cbv zeta. cbn [host logger trace].
  rewrite Hr. unfold bind.
  match goal with |- context [logger_error _ _ ?st] => set (s2 := st) end.
  destruct (logger_error_call message (InvalidJSON SyntaxError) fe s2 Hfe)
    as (r & s' & Hl & [_ Ht'] & Hres).
  fold message. rewrite Hl. cbn [trace s2] in Ht'. rewrite <- !app_assoc in Ht'.
  destruct Hres as [->|[Hne ->]].
  - eexists _, _. split; [done|]. split; [done|]. by left.
  - subst s2. cbn [logger host] in *. clear Hl.
    match goal with |- context [match ?x with _ => _ end] =>
      destruct x as [e|[]] eqn:Ec end.
    + eexists _, _. split; [done|]. split; [done|]. by right.
    + eexists _, _. split; [done|]. split; [done|]. by left.
Qed.

End LoadPath.

Lemma loadIndexFromFile_checks_before_reading_witness :
  @loadIndexFromFile MockHost.mock (Obj ∅) (Str "a.bin") MockHost.start
  = (inl InvalidHnswlib, MockHost.start)
  /\ @loadIndexFromFile MockHost.mock MockHost.hnswlib (Str "a.bin") MockHost.start
     = (inl (FileNotFound "a.bin"),
        @State MockHost.mock (logger MockHost.start)
          (trace MockHost.start ++ [Access "a.bin"]) MockHost.empty).
Proof.
  split.
  - apply (proj1 (@loadIndexFromFile_checks_before_reading MockHost.mock (Obj ∅) "a.bin"
                    MockHost.start eq_refl)).
    reflexivity.
  - apply (proj2 (@loadIndexFromFile_checks_before_reading MockHost.mock MockHost.hnswlib
                    "a.bin" MockHost.start eq_refl) eq_refl (Thrown "ENOENT")).
    reflexivity.
Defined.

Lemma loadIndexFromFile_logs_what_it_throws_witness :
  let s := @State MockHost.mock defaultLogger []
             (MockHost.Build_mstate 0 0 [] ∅ {[ "a.json" := Garbled ]}) in
  let r := @loadIndexFromFile MockHost.mock MockHost.hnswlib (Str "a.json") s in
  let e := InvalidJSON SyntaxError in
  fst r = inl e
  /\ ((snd r = s /\ (e = FilenameNotString \/ e = FilenameEmpty \/ e = InvalidHnswlib))
      \/ (e = FileNotFound "a.json" /\ @extends MockHost.mock s (snd r) [Access "a.json"])
      \/ (exists fe cause s0 s1,
            let args := [Str ("Failed to load index from " +:+ "a.json" +:+ ":");
                         Exn cause] in
            @extends MockHost.mock s s0 [Access "a.json"]
            /\ (if isBinary "a.json"
                then @loadIndexBinary MockHost.mock MockHost.hnswlib "a.json"
                else @loadIndexJSON MockHost.mock MockHost.hnswlib "a.json") s0
               = (inl cause, s1)
            /\ default Undefined (logger s1 !! "error") = Fun fe
            /\ trace (snd r) = trace s1 ++ [Call "logger.error" fe args]
            /\ logger (snd r) = logger s1
            /\ ((e = cause
                 /\ (fe = noop /\ host (snd r) = host s1
                     \/ fe <> noop
                        /\ MockHost.m_void fe (Obj (logger s1)) args (host s1)
                           = (inr tt, host (snd r))))
                \/ (fe <> noop
                    /\ MockHost.m_void fe (Obj (logger s1)) args (host s1)
                       = (inl e, host (snd r)))))
      \/ (e = NotAFunction "logger.error"
          /\ is_function (default Undefined (logger (snd r) !! "error")) = false)).
Proof.
  intros s r e. split; [by_evaluation|].
  apply (@loadIndexFromFile_logs_what_it_throws MockHost.mock MockHost.hnswlib
           (Str "a.json") s (snd r) e).
  by_evaluation.
Defined.

Lemma garbled_text_file_is_refused_witness :
  let h := MockHost.Build_mstate 0 0 [] ∅ {[ "a.json" := Garbled ]} in
  let message := "Failed to load index from " +:+ "a.json" +:+ ":" in
  exists e s',
    @loadIndexFromFile MockHost.mock MockHost.hnswlib (Str "a.json")
      (@State MockHost.mock defaultLogger [] h) = (inl e, s')
    /\ trace s' = [] ++ [Access "a.json"; ReadText "a.json";
                         Call "logger.error" "console.error"
                           [Str message; Exn (InvalidJSON SyntaxError)]]
    /\ (e = InvalidJSON SyntaxError
        \/ "console.error" <> noop
           /\ fst (MockHost.m_void "console.error" (Obj defaultLogger)
                     [Str message; Exn (InvalidJSON SyntaxError)] h) = inl e).
Proof.
  intros h message.
  apply (@garbled_text_file_is_refused MockHost.mock MockHost.hnswlib "a.json"
           (@State MockHost.mock defaultLogger [] h) h h "console.error"); reflexivity.
Defined.

(** ** Saving and loading on the in-memory host *)

Section OnMock.
Local Existing Instance MockHost.mock.

Lemma mock_get (name : string) :
  In name ["initIndex"; "addPoint"; "getNumDimensions"; "getCurrentCount";
           "getUsedLabels"; "getPoint"; "getMaxElements"] ->
  get MockHost.index_object name = inr (Fun name).
Proof. intros [<-|[<-|[<-|[<-|[<-|[<-|[<-|[]]]]]]]]; reflexivity. Qed.

Lemma mock_getNumDimensions (st : state) :
  method_count MockHost.index_object "getNumDimensions" st
  = (inr (MockHost.dims (host st)),
     State (logger st) (trace st ++ [Call "getNumDimensions" "getNumDimensions" []])
       (host st)).
Proof.
  unfold method_count. munfold. rewrite mock_get by (cbn; tauto). reflexivity.
Qed.

Lemma mock_getCurrentCount (st : state) :
  method_count MockHost.index_object "getCurrentCount" st
  = (inr (Z.of_nat (length (MockHost.points (host st)))),
     State (logger st) (trace st ++ [Call "getCurrentCount" "getCurrentCount" []])
       (host st)).
Proof.
  unfold method_count. munfold. rewrite mock_get by (cbn; tauto). reflexivity.
Qed.

Lemma mock_find (vectors : list VectorRecord) (r : VectorRecord) :
  NoDup (map label vectors) -> In r vectors ->
  default [] (point <$> list_find (fun r' => label r' = label r) vectors ≫= Some ∘ snd)
  = point r.
Proof.
  induction vectors as [|a rest IH]; [done|]. cbn [map]. intros Hnd Hin.
  apply NoDup_cons in Hnd as [Hna Hnd]. cbn [list_find].
  destruct (decide (label a = label r)) as [Heq|Hne].
  - cbn. destruct Hin as [->|Hin]; [done|]. exfalso. apply Hna. rewrite Heq.
    apply list_elem_of_In. by apply in_map.
  - destruct Hin as [->|Hin]; [done|]. rewrite <- (IH Hnd Hin).
    by destruct (list_find _ rest) as [[i x]|].
Qed.

Lemma mock_getPoint (st : state) (r : VectorRecord) :
  NoDup (map label (MockHost.points (host st))) -> In r (MockHost.points (host st)) ->
  method_point MockHost.index_object "getPoint" (label r) st
  = (inr (point r),
     State (logger st) (trace st ++ [Call "getPoint" "getPoint" [Num (label r)]]) (host st)).
Proof.
  intros Hnd Hin. unfold method_point. munfold. rewrite mock_get by (cbn; tauto).
  unfold ask. cbn [call_point MockHost.mock]. unfold MockHost.m_point.
  by rewrite mock_find.
Qed.

Lemma mock_extract_loop (rest : list VectorRecord) :
  forall (acc : list VectorRecord) (st : state),
    NoDup (map label (MockHost.points (host st))) ->
    (forall r, In r rest -> In r (MockHost.points (host st))) ->
    exists events,
      extract_loop MockHost.index_object (map label rest) acc st
      = (inr (acc ++ rest), State (logger st) (trace st ++ events) (host st)).
Proof.
  induction rest as [|r rest IH]; intros acc st Hnd Hin.
  - exists []. cbn. rewrite !app_nil_r. by destruct st.
  - cbn [map extract_loop]. unfold bind at 1.
    rewrite mock_getPoint by (done || (apply Hin; by left)).
    destruct (IH (acc ++ [{| label := label r; point := point r |}])
                (State (logger st)
                   (trace st ++ [Call "getPoint" "getPoint" [Num (label r)]]) (host st))
                Hnd ltac:(intros x Hx; apply Hin; by right))
      as (events & ->).
    eexists. cbn [logger trace host]. rewrite <- !app_assoc. cbn [app].
    by destruct r.
Qed.

Lemma mock_extractVectorsFromIndex (st : state) :
  NoDup (map label (MockHost.points (host st))) ->
  exists events,
    extractVectorsFromIndex MockHost.index_object st
    = (inr (MockHost.points (host st)),
       State (logger st) (trace st ++ events) (host st)).
Proof.
  intros Hnd. unfold extractVectorsFromIndex, method_labels. munfold.
  rewrite mock_get by (cbn; tauto). unfold ask. cbn [call_labels MockHost.mock].
  unfold MockHost.m_labels.
  destruct (mock_extract_loop (MockHost.points (host st)) []
              (State (logger st) (trace st ++ [Call "getUsedLabels" "getUsedLabels" []])
                 (host st)) Hnd ltac:(done)) as (events & ->).
  eexists. cbn [logger trace host app]. by rewrite <- app_assoc.
Qed.

Lemma mock_logger_log (message : string) (st : state) :
  logger st = defaultLogger ->
  logger_log message st
  = (inr tt, State (logger st) (trace st ++ [Call "logger.log" noop [Str message]])
               (host st)).
Proof. destruct st as [lg tr h]. cbn [logger]. intros ->. reflexivity. Qed.

Lemma mock_addPoint (p l : value) (st : state) :
  method MockHost.index_object "addPoint" [p; l; Bool false] st
  = (inr tt,
     State (logger st) (trace st ++ [Call "addPoint" "addPoint" [p; l; Bool false]])
       (MockHost.Build_mstate (MockHost.dims (host st)) (MockHost.capacity (host st))
          (MockHost.points (host st) ++ [stored_record (p, l)])
          (MockHost.bin_files (host st)) (MockHost.text_files (host st)))).
Proof. unfold method. munfold. rewrite mock_get by (cbn; tauto). reflexivity. Qed.

Lemma mock_insert_all (records : list (value * value)) :
  forall st, exists events,
    insert_all MockHost.index_object records st
    = (inr tt,
       State (logger st) (trace st ++ events)
         (MockHost.Build_mstate (MockHost.dims (host st)) (MockHost.capacity (host st))
            (MockHost.points (host st) ++ map stored_record records)
            (MockHost.bin_files (host st)) (MockHost.text_files (host st)))).
Proof.
  induction records as [|[p l] records IH]; intros st.
  - exists []. cbn. rewrite !app_nil_r. by destruct st as [lg tr []].
  - cbn [insert_all map]. unfold bind. rewrite mock_addPoint.
    match goal with |- context [insert_all _ _ ?st1] =>
      destruct (IH st1) as (events & ->) end.
    eexists. cbn [logger trace host MockHost.dims MockHost.capacity MockHost.points
                  MockHost.bin_files MockHost.text_files].
    by rewrite <- !app_assoc.
Qed.

Lemma mock_rehydrate (message : string) (md : Metadata.t)
    (records : list (value * value)) (st : state) :
  logger st = defaultLogger ->
  exists events,
    rehydrate MockHost.hnswlib message md records st
    = (inr (MockHost.index_object, md),
       State (logger st) (trace st ++ events)
         (MockHost.Build_mstate (MockHost.as_int (Metadata.numDimensions md))
            (MockHost.as_int (Metadata.maxElements md))
            (map stored_record records)
            (MockHost.bin_files (host st)) (MockHost.text_files (host st)))).
Proof.
  intros Hl. unfold rehydrate, replay, method_new, method. munfold.
  change (get MockHost.hnswlib "HierarchicalNSW") with (@inr error _ (Fun "HierarchicalNSW")).
  unfold ask at 1. cbn [construct MockHost.mock MockHost.m_construct].
  rewrite mock_get by (cbn; tauto).
  change (invoke "initIndex" (Fun "initIndex") ?a ?b)
    with (ask (Call "initIndex" "initIndex" b) (call_void "initIndex" a b)).
  unfold ask at 1. cbn [call_void MockHost.mock host logger trace].
  change (MockHost.m_void "initIndex" ?a ?b ?h)
    with (@inr error _ tt,
          MockHost.Build_mstate (MockHost.dims h)
            (MockHost.as_int (default Undefined (b !! 0%nat)))
            (MockHost.points h) (MockHost.bin_files h) (MockHost.text_files h)).
  cbn [MockHost.dims MockHost.points MockHost.bin_files MockHost.text_files lookup
       list_lookup default from_option id].
  match goal with |- context [insert_all _ _ ?st1] =>
    destruct (mock_insert_all records st1) as (events & ->) end.
  cbn [logger trace host MockHost.dims MockHost.capacity MockHost.points
       MockHost.bin_files MockHost.text_files app].
  rewrite mock_logger_log by done.
  eexists. cbn [logger trace host]. by rewrite <- !app_assoc.
Qed.

Lemma stored_binary_args (r : VectorRecord) : stored_record (binary_args r) = quantised r.
Proof.
  unfold stored_record, binary_args, quantised. cbn [fst snd items_of MockHost.as_number].
  by rewrite map_map.
Qed.

Lemma stored_text_args (r : VectorRecord) : stored_record (text_args r) = as_json_reads r.
Proof.
  unfold stored_record, text_args, as_json_reads. cbn [fst snd items_of MockHost.as_number].
  by rewrite map_map.
Qed.

(** What [saveIndexToFile] does on the in-memory host, up to the choice
    of the form. *)
Lemma mock_save_front (name : string) (md : Options.t) (st : state) :
  blank name = false ->
  MockHost.points (host st) <> [] ->
  NoDup (map label (MockHost.points (host st))) ->
  exists events,
    saveIndexToFile MockHost.index_object (Str name) md st
    = try_catch
        (if isBinary name
         then saveIndexBinary MockHost.index_object name md (MockHost.dims (host st))
                (MockHost.points (host st))
         else saveIndexJSON MockHost.index_object name md (MockHost.dims (host st))
                (MockHost.points (host st)))
        (fun error =>
           logger_error ("Failed to save index to " +:+ name +:+ ":") error ;;;
           throw error)
        (State (logger st) (trace st ++ events) (host st)).
Proof.
  intros Hb Hne Hnd. unfold saveIndexToFile. unfold bind at 1.
  rewrite validateIndex_spec.
  change (truthy MockHost.index_object) with true.
  assert (Hx : exposes_checked MockHost.index_object = true) by reflexivity.
  rewrite Hx. unfold bind at 1.
  rewrite validateFilename_ok by by apply filename_ok_Str.
  cbn [filename_string]. unfold try_catch, bind at 1.
  rewrite mock_getNumDimensions. unfold bind at 1. rewrite mock_getCurrentCount.
  cbn [host logger trace]. unfold bind at 1, throw_if.
  destruct (MockHost.points (host st)) as [|r0 rest] eqn:Hp; [done|].
  change (Z.of_nat (length (r0 :: rest)) =? 0) with false. cbv iota. unfold ret at 1.
  unfold bind at 1.
  match goal with |- context [extractVectorsFromIndex _ ?st1] =>
    destruct (mock_extractVectorsFromIndex st1) as (events & ->) end.
  { cbn [host]. by rewrite Hp. }
  cbn [host logger trace]. rewrite Hp. rewrite <- !app_assoc. by eexists.
Qed.

Lemma mock_save_binary (name : string) (md : Options.t)
    (numDimensions : Z) (vectors : list VectorRecord) (st : state) :
  valid_options md = true ->
  1 <= numDimensions <= 100000 ->
  vectors <> [] ->
  forallb (valid_record numDimensions) vectors = true ->
  NoDup (map label vectors) ->
  Z.of_nat (length vectors) <= 100000000 ->
  40 + Z.of_nat (length vectors) * (4 + numDimensions * 4) <= 2 ^ 32 ->
  blank name = false ->
  isBinary name = true ->
  logger st = defaultLogger ->
  MockHost.dims (host st) = numDimensions ->
  MockHost.points (host st) = vectors ->
  exists st1,
    saveIndexToFile MockHost.index_object (Str name) md st = (inr tt, st1)
    /\ logger st1 = defaultLogger
    /\ MockHost.bin_files (host st1) !! name
       = Some (options_header md numDimensions (Z.of_nat (length vectors))
               ++ records_bytes vectors).
Proof.
  intros Hmd Hd Hne Hv Hnd Hn Hmax Hb Hbin Hlog Hdims Hpoints.
  destruct (mock_save_front name md st Hb) as (ev0 & Hfront);
    [by rewrite Hpoints|by rewrite Hpoints|].
  eexists. split.
  { rewrite Hfront, Hbin, Hdims, Hpoints. unfold try_catch, saveIndexBinary. munfold.
    rewrite build_buffer_valid by (done || lia).
    unfold ask at 1.
    cbn [fs_writeFile MockHost.mock MockHost.m_writeFile host logger trace].
    rewrite mock_logger_log by done. cbn [host logger trace]. reflexivity. }
  cbn [logger host MockHost.bin_files].
  split; [done|]. by rewrite lookup_insert_eq.
Qed.

Lemma mock_load_binary (name : string) (md : Options.t)
    (numDimensions : Z) (vectors : list VectorRecord) (st1 : state) :
  valid_options md = true ->
  1 <= numDimensions <= 100000 ->
  forallb (valid_record numDimensions) vectors = true ->
  Z.of_nat (length vectors) <= 100000000 ->
  blank name = false ->
  isBinary name = true ->
  logger st1 = defaultLogger ->
  MockHost.bin_files (host st1) !! name
  = Some (options_header md numDimensions (Z.of_nat (length vectors))
          ++ records_bytes vectors) ->
  exists st2,
    loadIndexFromFile MockHost.hnswlib (Str name) st1
    = (inr (MockHost.index_object, options_metadata md numDimensions), st2)
    /\ MockHost.points (host st2) = map quantised vectors
    /\ MockHost.dims (host st2) = numDimensions
    /\ Num (Int (MockHost.capacity (host st2)))
       = Metadata.maxElements (options_metadata md numDimensions).
Proof.
  intros Hmd Hd Hv Hn Hb Hbin Hlog Hfile.
  set (s1 := State (logger st1) ((trace st1 ++ [Access name]) ++ [ReadFile name])
               (host st1)).
  destruct (mock_rehydrate (loaded_binary name (Z.of_nat (length vectors)))
              (options_metadata md numDimensions) (map binary_args vectors) s1 Hlog)
    as (events & Hre).
  destruct (binary_round_trip md numDimensions vectors Hmd Hd Hv Hn MockHost.hnswlib
              name s1) as (Heq & _ & _).
  eexists. split.
  { rewrite loadIndexFromFile_validated by done.
    cbn [fs_access MockHost.mock]. unfold MockHost.m_access.
    unfold try_catch. rewrite Hbin, loadIndexBinary_read.
    cbn [fs_readFile MockHost.mock host logger trace]. unfold MockHost.m_readFile.
    revert Hfile. destruct (MockHost.bin_files (host st1) !! name) as [b|]; [|done].
    intros Hfile.
    assert (b = options_header md numDimensions (Z.of_nat (length vectors))
                ++ records_bytes vectors) as -> by congruence.
    cbv beta iota. fold s1. rewrite Heq, Hre. reflexivity. }
  cbn [host MockHost.points MockHost.dims MockHost.capacity].
  split; [|split; [done|]].
  - rewrite map_map. apply map_ext. intros r. apply stored_binary_args.
  - destruct (valid_options_inv md Hmd) as (_ & (zE & HE & _) & _).
    cbn [options_metadata Metadata.maxElements]. by rewrite HE.
Qed.

(** X19: the binary form restores the index.  On the in-memory host (an
    engine that keeps the points it is given, a file system that returns
    what was written), take an index of dimension [numDimensions] holding
    valid records with distinct labels.  [saveIndexToFile] under a name
    in [.bin] or [.dat] returns, and [loadIndexFromFile] under the same
    name then returns the metadata that was passed, having rebuilt an
    index of the same dimension and capacity, with the same labels in the
    same order and each point at 32-bit float precision. *)
Theorem save_then_load_binary (name : string) (md : Options.t)
    (numDimensions : Z) (vectors : list VectorRecord) (st : state) :
  valid_options md = true ->
  1 <= numDimensions <= 100000 ->
  vectors <> [] ->
  forallb (valid_record numDimensions) vectors = true ->
  NoDup (map label vectors) ->
  Z.of_nat (length vectors) <= 100000000 ->
  40 + Z.of_nat (length vectors) * (4 + numDimensions * 4) <= 2 ^ 32 ->
  blank name = false ->
  isBinary name = true ->
  logger st = defaultLogger ->
  MockHost.dims (host st) = numDimensions ->
  MockHost.points (host st) = vectors ->
  exists st1 st2,
    saveIndexToFile MockHost.index_object (Str name) md st = (inr tt, st1)
    /\ loadIndexFromFile MockHost.hnswlib (Str name) st1
       = (inr (MockHost.index_object, options_metadata md numDimensions), st2)
    /\ MockHost.points (host st2) = map quantised vectors
    /\ MockHost.dims (host st2) = numDimensions
    /\ Num (Int (MockHost.capacity (host st2)))
       = Metadata.maxElements (options_metadata md numDimensions).
Proof.
  intros Hmd Hd Hne Hv Hnd Hn Hmax Hb Hbin Hlog Hdims Hpoints.
  destruct (mock_save_binary name md numDimensions vectors st)
    as (st1 & Hsave & Hlog1 & Hfile); try done.
  destruct (mock_load_binary name md numDimensions vectors st1)
    as (st2 & Hload); try done.
  by exists st1, st2.
Qed.

Lemma mock_save_text (name : string) (md : Options.t)
    (numDimensions : Z) (vectors : list VectorRecord) (st : state) :
  valid_options md = true ->
  0 < numDimensions ->
  vectors <> [] ->
  forallb (valid_record numDimensions) vectors = true ->
  NoDup (map label vectors) ->
  blank name = false ->
  isBinary name = false ->
  logger st = defaultLogger ->
  MockHost.dims (host st) = numDimensions ->
  MockHost.points (host st) = vectors ->
  exists st1 doc,
    saveIndexToFile MockHost.index_object (Str name) md st = (inr tt, st1)
    /\ logger st1 = defaultLogger
    /\ MockHost.text_files (host st1) !! name = Some (JSONText doc)
    /\ document_ok doc = true
    /\ document_metadata doc = options_metadata md numDimensions
    /\ prop doc "numDimensions" = Num (Int numDimensions)
    /\ document_entries doc
       = map (fun r => default Null (to_json (record_value r))) vectors.
Proof.
  intros Hmd Hd Hne Hv Hnd Hb Hbin Hlog Hdims Hpoints.
  destruct (mock_save_front name md st Hb) as (ev0 & Hfront);
    [by rewrite Hpoints|by rewrite Hpoints|].
  destruct (build_document_valid MockHost.index_object md numDimensions vectors
              (State (logger st) (trace st ++ ev0) (host st)) Hmd Hd Hv)
    as (data & doc & Hbuild & Hj & Hok & Hm & Hdim & He).
  eexists. exists doc. split.
  { rewrite Hfront, Hbin, Hdims, Hpoints. unfold saveIndexJSON. munfold.
    rewrite Hbuild, Hj. unfold ask at 1.
    cbn [fs_writeFile_utf8 MockHost.mock MockHost.m_writeFile_utf8 host logger trace].
    rewrite mock_logger_log by done. cbn [host logger trace]. reflexivity. }
  cbn [logger host MockHost.text_files].
  split; [done|]. split; [by rewrite lookup_insert_eq|]. done.
Qed.

Lemma mock_load_text (name : string) (md : Options.t)
    (numDimensions : Z) (vectors : list VectorRecord) (doc : value) (st1 : state) :
  forallb (valid_record numDimensions) vectors = true ->
  valid_options md = true ->
  blank name = false ->
  isBinary name = false ->
  logger st1 = defaultLogger ->
  MockHost.text_files (host st1) !! name = Some (JSONText doc) ->
  document_ok doc = true ->
  document_metadata doc = options_metadata md numDimensions ->
  prop doc "numDimensions" = Num (Int numDimensions) ->
  document_entries doc
  = map (fun r => default Null (to_json (record_value r))) vectors ->
  exists st2,
    loadIndexFromFile MockHost.hnswlib (Str name) st1
    = (inr (MockHost.index_object, options_metadata md numDimensions), st2)
    /\ MockHost.points (host st2) = map as_json_reads vectors
    /\ MockHost.dims (host st2) = numDimensions
    /\ Num (Int (MockHost.capacity (host st2)))
       = Metadata.maxElements (options_metadata md numDimensions).
Proof.
  intros Hv Hmd Hb Hbin Hlog Hfile Hok Hm Hdim He.
  set (s1 := State (logger st1) ((trace st1 ++ [Access name]) ++ [ReadText name])
               (host st1)).
  destruct (mock_rehydrate (loaded_json name (Z.of_nat (length vectors)))
              (options_metadata md numDimensions) (map text_args vectors) s1 Hlog)
    as (events & Hre).
  destruct (text_round_trip md numDimensions vectors doc Hok Hm Hdim He Hv
              MockHost.hnswlib name s1) as (Heq & _ & _).
  eexists. split.
  { rewrite loadIndexFromFile_validated by done.
    cbn [fs_access MockHost.mock]. unfold MockHost.m_access.
    unfold try_catch. rewrite Hbin, loadIndexJSON_read. cbv zeta.
    cbn [fs_readFile_utf8 MockHost.mock host logger trace].
    unfold MockHost.m_readFile_utf8.
    revert Hfile. destruct (MockHost.text_files (host st1) !! name) as [t|]; [|done].
    intros Hfile. assert (t = JSONText doc) as -> by congruence.
    destruct (MockHost.bin_files (host st1) !! name);
      cbv beta iota; fold s1; rewrite Heq, Hre; reflexivity. }
  cbn [host MockHost.points MockHost.dims MockHost.capacity].
  split; [|split; [done|]].
  - rewrite map_map. apply map_ext. intros r. apply stored_text_args.
  - destruct (valid_options_inv md Hmd) as (_ & (zE & HE & _) & _).
    cbn [options_metadata Metadata.maxElements]. by rewrite HE.
Qed.

(** X20: the text form restores the index.  On the in-memory host, with
    the same index, [saveIndexToFile] under a name that does not end in
    [.bin] or [.dat] returns, and [loadIndexFromFile] under the same name
    then returns the metadata that was passed, having rebuilt an index of
    the same dimension and capacity, with the same labels in the same
    order and each component as JSON writes it: the component itself,
    except that negative zero comes back as zero. *)
Theorem save_then_load_text (name : string) (md : Options.t)
    (numDimensions : Z) (vectors : list VectorRecord) (st : state) :
  valid_options md = true ->
  0 < numDimensions ->
  vectors <> [] ->
  forallb (valid_record numDimensions) vectors = true ->
  NoDup (map label vectors) ->
  blank name = false ->
  isBinary name = false ->
  logger st = defaultLogger ->
  MockHost.dims (host st) = numDimensions ->
  MockHost.points (host st) = vectors ->
  (exists st1 st2,
     saveIndexToFile MockHost.index_object (Str name) md st = (inr tt, st1)
     /\ loadIndexFromFile MockHost.hnswlib (Str name) st1
        = (inr (MockHost.index_object, options_metadata md numDimensions), st2)
     /\ MockHost.points (host st2) = map as_json_reads vectors
     /\ MockHost.dims (host st2) = numDimensions
     /\ Num (Int (MockHost.capacity (host st2)))
        = Metadata.maxElements (options_metadata md numDimensions))
  /\ Forall (fun r => Forall (fun x => x <> NegZero) (point r) -> as_json_reads r = r)
       vectors.
Proof.
  intros Hmd Hd Hne Hv Hnd Hb Hbin Hlog Hdims Hpoints. split.
  - destruct (mock_save_text name md numDimensions vectors st)
      as (st1 & doc & Hsave & Hlog1 & Hfile & Hok & Hm & Hdim & He); try done.
    destruct (mock_load_text name md numDimensions vectors doc st1)
      as (st2 & Hload); try done.
    by exists st1, st2.
  - apply Forall_forall. intros r Hr Hnz. apply list_elem_of_In in Hr.
    rewrite forallb_forall in Hv. apply Hv in Hr.
    apply valid_record_inv in Hr as (_ & _ & Hf).
    destruct r as [l p]. unfold as_json_reads. cbn [label point] in *. f_equal.
    induction p as [|x p IH]; [done|]. cbn [map forallb] in *.
    apply andb_true_iff in Hf as [Hx Hf]. apply Forall_cons in Hnz as [Hxz Hnz].
    rewrite IH by done. f_equal. by destruct x.
Qed.

End OnMock.

Lemma unit_vectors_distinct : NoDup (map label MockHost.unit_vectors).
Proof.
  cbn. repeat (apply NoDup_cons; split); try apply NoDup_nil_2;
    rewrite ?not_elem_of_cons; repeat split; try discriminate; apply not_elem_of_nil.
Qed.

Lemma save_then_load_binary_witness :
  exists st1 st2,
    @saveIndexToFile MockHost.mock MockHost.index_object (Str "a.bin") MockHost.options
      MockHost.ready = (inr tt, st1)
    /\ @loadIndexFromFile MockHost.mock MockHost.hnswlib (Str "a.bin") st1
       = (inr (MockHost.index_object, options_metadata MockHost.options 3), st2)
    /\ MockHost.points (host st2) = map quantised MockHost.unit_vectors
    /\ MockHost.dims (host st2) = 3
    /\ Num (Int (MockHost.capacity (host st2)))
       = Metadata.maxElements (options_metadata MockHost.options 3).
Proof.
  apply (save_then_load_binary "a.bin" MockHost.options 3 MockHost.unit_vectors
           MockHost.ready eq_refl ltac:(lia) ltac:(discriminate) eq_refl
           unit_vectors_distinct ltac:(simpl; lia) ltac:(simpl; lia)
           eq_refl eq_refl eq_refl eq_refl eq_refl).
Defined.

Lemma save_then_load_text_witness :
  exists st1 st2,
    @saveIndexToFile MockHost.mock MockHost.index_object (Str "a.json") MockHost.options
      MockHost.ready = (inr tt, st1)
    /\ @loadIndexFromFile MockHost.mock MockHost.hnswlib (Str "a.json") st1
       = (inr (MockHost.index_object, options_metadata MockHost.options 3), st2)
    /\ MockHost.points (host st2) = map as_json_reads MockHost.unit_vectors
    /\ MockHost.dims (host st2) = 3
    /\ Num (Int (MockHost.capacity (host st2)))
       = Metadata.maxElements (options_metadata MockHost.options 3).
Proof.
  apply (proj1 (save_then_load_text "a.json" MockHost.options 3 MockHost.unit_vectors
                  MockHost.ready eq_refl ltac:(lia) ltac:(discriminate) eq_refl
                  unit_vectors_distinct eq_refl eq_refl eq_refl eq_refl eq_refl)).
Defined.

(** ** What the encoders write when options are missing *)

Lemma is_u32_checkInt (n : number) :
  is_u32 n = true -> Buffer.checkInt n 0xffffffff = inr (stored_u32 n).
Proof.
  intros (z & -> & Hz)%is_u32_inv. by rewrite stored_u32_Int, checkInt_u32.
Qed.

Lemma stored_u32_range (n : number) : is_u32 n = true -> 0 <= stored_u32 n < 2 ^ 32.
Proof. intros (z & -> & Hz)%is_u32_inv. by rewrite stored_u32_Int. Qed.

Section EncodeAny.
Context `{Host}.

(** The encoder up to the vectors, for any options whose numbers fit an
    unsigned 32-bit integer, with the capacity given or asked from the
    index. *)
Lemma build_buffer_general (index : value) (md : Options.t) (numDimensions : Z)
    (vectors : list VectorRecord) (s s1 : state) (maxElements : number) :
  maxElements_or_index md index s = (inr maxElements, s1) ->
  is_u32 maxElements = true ->
  is_u32 (num_or (Options.m md) (Int 16)) = true ->
  is_u32 (num_or (Options.efConstruction md) (Int 200)) = true ->
  is_u32 (num_or (Options.randomSeed md) (Int 100)) = true ->
  0 <= numDimensions < 2 ^ 32 ->
  Z.of_nat (length vectors) < 2 ^ 32 ->
  40 + Z.of_nat (length vectors) * (4 + numDimensions * 4) <= kMaxLength ->
  build_buffer index md numDimensions vectors s
  = (match write_vectors numDimensions
             (header_bytes
                (stored_u32 (spaceNameCode_of (str_or (Options.spaceName md) "l2")))
                numDimensions (stored_u32 maxElements)
                (stored_u32 (num_or (Options.m md) (Int 16)))
                (stored_u32 (num_or (Options.efConstruction md) (Int 200)))
                (stored_u32 (num_or (Options.randomSeed md) (Int 100)))
                (Z.of_nat (length vectors))
              ++ replicate (Z.to_nat (Z.of_nat (length vectors) * (4 + numDimensions * 4)))
                   garbage)
             40 vectors with
     | inr written => inr (fst written)
     | inl e => inl e
     end, s1).
Proof.
  intros HE HuE Hum Huc Hus Hd Hn Hmax.
  destruct (spaceNameCode_of_range (str_or (Options.spaceName md) "l2")) as (c & Hcode & Hcr).
  unfold build_buffer, header_bytes. munfold.
  rewrite Hcode, HE, stored_u32_Int by lia.
  set (N := Z.of_nat (length vectors) * (4 + numDimensions * 4)) in *.
  assert (HN0 : 0 <= N) by (unfold N; nia).
  unfold Buffer.allocUnsafe. rewrite !leb_true by lia. cbn [andb].
  replace (Z.to_nat (40 + N)) with (40 + Z.to_nat N)%nat by lia.
  rewrite replicate_add.
  assert (HN : length (replicate (Z.to_nat N) garbage) = Z.to_nat N)
    by apply length_replicate.
  revert HN. generalize (replicate (Z.to_nat N) garbage). intros body HN.
  assert (H40 : length (replicate 40 garbage) = 40%nat) by apply length_replicate.
  revert H40. generalize (replicate 40 garbage). intros junk H40.
  do 40 (destruct junk as [|? junk]; [by simpl in H40|]). destruct junk; [|by simpl in H40].
  clear H40.
  change (0 + 1) with 1. change (1 + 1) with 2.
  change (2 + 4) with 6. change (6 + 4) with 10. change (10 + 4) with 14.
  change (14 + 4) with 18. change (18 + 4) with 22. change (22 + 4) with 26.
  change (26 + 14) with 40.
  match goal with |- context [Buffer.writeUInt8 ?b (Int 1) 0] => change b with ([] ++ b) end.
  rewrite (writeUInt8_app _ _ _ 1) by (done || (cbn; lia)).
  rewrite (writeUInt8_app _ _ _ c)
    by (done || (cbn; lia) || (cbn [Buffer.checkInt]; rewrite !leb_true by lia; done)).
  rewrite (writeUInt32LE_app _ _ _ numDimensions)
    by (done || (by apply checkInt_u32) || (cbn; lia)).
  rewrite (writeUInt32LE_app _ _ _ (stored_u32 maxElements))
    by (done || (by apply is_u32_checkInt) || (cbn; lia)).
  rewrite (writeUInt32LE_app _ _ _ (stored_u32 (num_or (Options.m md) (Int 16))))
    by (done || (by apply is_u32_checkInt) || (cbn; lia)).
  rewrite (writeUInt32LE_app _ _ _
             (stored_u32 (num_or (Options.efConstruction md) (Int 200))))
    by (done || (by apply is_u32_checkInt) || (cbn; lia)).
  rewrite (writeUInt32LE_app _ _ _ (stored_u32 (num_or (Options.randomSeed md) (Int 100))))
    by (done || (by apply is_u32_checkInt) || (cbn; lia)).
  rewrite (writeUInt32LE_app _ _ _ (Z.of_nat (length vectors)))
    by (done || (apply checkInt_u32; lia) || (cbn; lia)).
  unfold Buffer.fill0. change (Z.to_nat (40 - 26)) with 14%nat.
  rewrite splice_app by (done || (cbn; lia)).
  cbn [drop length replicate app].
  rewrite <- !app_assoc. cbn [app].
  by destruct (write_vectors _ _ _ _).
Qed.

End EncodeAny.

Section Defaults.
Context `{Host}.

Lemma maxElements_or_index_absent (index : value) (s s1 : state) (capacity : Z) :
  method_count index "getMaxElements" s = (inr capacity, s1) ->
  maxElements_or_index Options.empty index s = (inr (Int capacity), s1).
Proof. intros Hc. unfold maxElements_or_index. cbn. munfold. by rewrite Hc. Qed.

(** X21: what is written when no metadata is passed.  With
    [metadata = {}], the capacity is asked from the index
    ([getMaxElements]) and the other options take their defaults: both
    forms record the space name 'l2', [m = 16], [efConstruction = 200],
    [randomSeed = 100] and the capacity the index answered, beside the
    dimension and the number of vectors. *)
Theorem missing_options_are_written_as_defaults (index : value) (numDimensions : Z)
    (vectors : list VectorRecord) (s s1 : state) (capacity : Z) :
  method_count index "getMaxElements" s = (inr capacity, s1) ->
  0 <= capacity < 2 ^ 32 ->
  1 <= numDimensions <= 100000 ->
  forallb (valid_record numDimensions) vectors = true ->
  Z.of_nat (length vectors) <= 100000000 ->
  40 + Z.of_nat (length vectors) * (4 + numDimensions * 4) <= kMaxLength ->
  (exists buffer,
     build_buffer index Options.empty numDimensions vectors s = (inr buffer, s1)
     /\ buffer = header_bytes 0 numDimensions capacity 16 200 100
                   (Z.of_nat (length vectors)) ++ records_bytes vectors
     /\ header_metadata buffer
        = {| Metadata.spaceName := Str "l2";
             Metadata.numDimensions := Num (Int numDimensions);
             Metadata.maxElements := Num (Int capacity);
             Metadata.m := Num (Int 16);
             Metadata.efConstruction := Num (Int 200);
             Metadata.randomSeed := Num (Int 100) |})
  /\ (exists data doc,
        build_document index Options.empty numDimensions vectors s = (inr data, s1)
        /\ JSON_stringify data = JSONText doc
        /\ prop doc "version" = Num (Int 1)
        /\ prop doc "spaceName" = Str "l2"
        /\ prop doc "numDimensions" = Num (Int numDimensions)
        /\ prop doc "maxElements" = Num (Int capacity)
        /\ prop doc "m" = Num (Int 16)
        /\ prop doc "efConstruction" = Num (Int 200)
        /\ prop doc "randomSeed" = Num (Int 100)
        /\ prop doc "numVectors" = Num (Int (Z.of_nat (length vectors)))).
Proof.
  intros Hc Hcap Hd Hv Hn Hmax.
  pose proof (maxElements_or_index_absent index s s1 capacity Hc) as HE.
  split.
  - eexists. split; [|split; [reflexivity|]].
    + rewrite (build_buffer_general index Options.empty numDimensions vectors s s1
                 (Int capacity)) by (done || lia || (cbn; by rewrite !leb_true, ?ltb_true by lia)).
      rewrite stored_u32_Int by done.
      change (stored_u32 (spaceNameCode_of (str_or (Options.spaceName Options.empty) "l2")))
        with 0.
      change (stored_u32 (num_or (Options.m Options.empty) (Int 16))) with 16.
      change (stored_u32 (num_or (Options.efConstruction Options.empty) (Int 200))) with 200.
      change (stored_u32 (num_or (Options.randomSeed Options.empty) (Int 100))) with 100.
      rewrite write_vectors_app.
      * cbn [fst]. rewrite drop_ge, app_nil_r; [done|].
        rewrite length_replicate. pose proof (length_records_bytes _ _ Hv). lia.
      * done.
      * done.
      * rewrite length_replicate. lia.
    + destruct (header_fields 0 numDimensions capacity 16 200 100
                  (Z.of_nat (length vectors)) (records_bytes vectors))
        as (_ & H1 & H2 & H6 & H10 & H14 & H18 & _); try lia.
      unfold header_metadata. by rewrite H1, H2, H6, H10, H14, H18.
  - unfold build_document. munfold. rewrite HE. eexists. eexists.
    split; [reflexivity|]. unfold JSON_stringify. cbn [to_json]. split; [reflexivity|].
    set (P := <["version":=_]> _).
    assert (Hlk : forall k, prop (Obj (omap to_json P)) k
                            = default Undefined (P !! k ≫= to_json)).
    { intros k. unfold prop, get. by rewrite lookup_omap. }
    rewrite !Hlk. repeat apply conj; reflexivity.
Qed.

(** X22: the binary file holds nothing but what was written.  The buffer
    comes from [Buffer.allocUnsafe], whose content is arbitrary; on valid
    input every byte of it is overwritten: the result is the 40-byte
    header followed by the records, label then components, each as 4
    little-endian bytes, with the 14 reserved bytes at offset 26 set to
    zero.  The content does not depend on the host. *)
Theorem written_buffer_is_header_then_records (index : value) (md : Options.t)
    (numDimensions : Z) (vectors : list VectorRecord) (s : state) :
  valid_options md = true ->
  1 <= numDimensions <= 100000 ->
  forallb (valid_record numDimensions) vectors = true ->
  Z.of_nat (length vectors) <= 100000000 ->
  40 + Z.of_nat (length vectors) * (4 + numDimensions * 4) <= kMaxLength ->
  let buffer := options_header md numDimensions (Z.of_nat (length vectors))
                ++ flat_map (fun r => Buffer.le_bytes 4 (stored_u32 (label r))
                                      ++ flat_map (fun x => Buffer.le_bytes 4 (Float32.bits x))
                                           (point r)) vectors in
  build_buffer index md numDimensions vectors s = (inr buffer, s)
  /\ take 14 (drop 26 buffer) = replicate 14 x00
  /\ u8_at buffer 0 = 1
  /\ u32_at buffer 2 = numDimensions
  /\ u32_at buffer 22 = Z.of_nat (length vectors).
Proof.
  intros Hmd Hd Hv Hn Hmax buffer.
  split; [by apply build_buffer_valid; (done || lia)|].
  split; [done|].
  destruct (valid_options_inv md Hmd)
    as (_ & (zE & HE & HzE) & (zm & Hm & Hzm) & (zc & Hc & Hzc) & (zs & Hs & Hzs)).
  destruct (spaceNameCode_of_range (str_or (Options.spaceName md) "l2"))
    as (c & Hcode & Hcr).
  subst buffer. unfold options_header.
  rewrite Hcode, HE, Hm, Hc, Hs, !num_or_positive, !stored_u32_Int by lia.
  match goal with |- context [header_bytes _ _ _ _ _ _ _ ++ ?body] =>
    destruct (header_fields c numDimensions zE zm zc zs (Z.of_nat (length vectors)) body)
      as (H0 & _ & H2 & _ & _ & _ & _ & H22 & _); [lia..|]
  end.
  done.
Qed.

End Defaults.

Lemma missing_options_are_written_as_defaults_witness :
  exists buffer,
    @build_buffer MockHost.mock MockHost.index_object Options.empty 3
      MockHost.unit_vectors MockHost.ready
    = (inr buffer,
       @State MockHost.mock defaultLogger [Call "getMaxElements" "getMaxElements" []]
         MockHost.loaded)
    /\ buffer = header_bytes 0 3 10 16 200 100 3 ++ records_bytes MockHost.unit_vectors
    /\ header_metadata buffer
       = {| Metadata.spaceName := Str "l2";
            Metadata.numDimensions := Num (Int 3);
            Metadata.maxElements := Num (Int 10);
            Metadata.m := Num (Int 16);
            Metadata.efConstruction := Num (Int 200);
            Metadata.randomSeed := Num (Int 100) |}.
Proof.
  apply (proj1 (@missing_options_are_written_as_defaults MockHost.mock
                  MockHost.index_object 3 MockHost.unit_vectors MockHost.ready
                  (@State MockHost.mock defaultLogger
                     [Call "getMaxElements" "getMaxElements" []] MockHost.loaded)
                  10 eq_refl ltac:(lia) ltac:(lia) eq_refl ltac:(simpl; lia)
                  ltac:(apply Z.leb_le; reflexivity))).
Defined.

Lemma written_buffer_is_header_then_records_witness :
  @build_buffer MockHost.mock MockHost.index_object MockHost.options 3
    MockHost.unit_vectors MockHost.ready = (inr MockHost.encoded, MockHost.ready)
  /\ take 14 (drop 26 MockHost.encoded) = replicate 14 x00
  /\ u8_at MockHost.encoded 0 = 1
  /\ u32_at MockHost.encoded 2 = 3
  /\ u32_at MockHost.encoded 22 = 3.
Proof.
  apply (@written_buffer_is_header_then_records MockHost.mock MockHost.index_object
           MockHost.options 3 MockHost.unit_vectors MockHost.ready eq_refl ltac:(lia)
           eq_refl ltac:(simpl; lia) ltac:(apply Z.leb_le; reflexivity)).
Defined.

(** ** The capacity of the index *)

Section Capacity.
Context `{Host}.

Lemma maxElements_or_index_asks (md : Options.t) (index : value) (s : state) :
  no_maxElements md = true ->
  maxElements_or_index md index s
  = (c <- method_count index "getMaxElements" ;; ret (Int c)) s.
Proof.
  unfold no_maxElements, maxElements_or_index.
  destruct (Options.maxElements md) as [n|]; [|done]. by destruct (Number.truthy n).
Qed.

(** X23: when [metadata.maxElements] is missing or falsy the capacity is
    asked from the index, and a failure of that call is reported
    differently by the two forms: [saveIndexJSON] reads the capacity before its [try],
    so the failure is thrown as it is, where [saveIndexBinary] throws it
    inside 'Failed to write binary file'.  In both cases nothing is
    written.  This is what happens with an adapter that passes
    [validateIndex] and has no [getMaxElements]. *)
Theorem failed_capacity_query (index : value) (name : string) (md : Options.t)
    (numDimensions : Z) (vectors : list VectorRecord) (s s1 : state) (cause : error) :
  no_maxElements md = true ->
  method_count index "getMaxElements" s = (inl cause, s1) ->
  0 <= numDimensions < 2 ^ 32 ->
  40 + Z.of_nat (length vectors) * (4 + numDimensions * 4) <= kMaxLength ->
  saveIndexJSON index name md numDimensions vectors s = (inl cause, s1)
  /\ saveIndexBinary index name md numDimensions vectors s
     = (inl (WriteBinaryFailed cause), s1)
  /\ fs_requests (drop (length (trace s)) (trace s1)) = []
  /\ ((forall f, get index "getMaxElements" <> inr (Fun f)) ->
      get index "getMaxElements" <> inl NoProperties ->
      cause = NotAFunction "getMaxElements" /\ s1 = s).
Proof.
  intros Hno Hc Hd Hmax.
  assert (HE : maxElements_or_index md index s = (inl cause, s1)).
  { rewrite maxElements_or_index_asks by done. munfold. by rewrite Hc. }
  split; [|split; [|split]].
  - unfold saveIndexJSON, build_document. munfold. by rewrite HE.
  - apply saveIndexBinary_build_failed.
    destruct (spaceNameCode_of_range (str_or (Options.spaceName md) "l2"))
      as (c & Hcode & Hcr).
    unfold build_buffer. munfold. rewrite Hcode.
    set (N := Z.of_nat (length vectors) * (4 + numDimensions * 4)) in *.
    assert (HN0 : 0 <= N) by (unfold N; nia).
    unfold Buffer.allocUnsafe. rewrite !leb_true by lia. cbn [andb].
    replace (Z.to_nat (40 + N)) with (40 + Z.to_nat N)%nat by lia.
    rewrite replicate_add. generalize (replicate (Z.to_nat N) garbage). intros body.
    assert (H40 : length (replicate 40 garbage) = 40%nat) by apply length_replicate.
    revert H40. generalize (replicate 40 garbage). intros junk H40.
    do 40 (destruct junk as [|? junk]; [by simpl in H40|]).
    destruct junk; [|by simpl in H40]. clear H40.
    change (0 + 1) with 1. change (1 + 1) with 2. change (2 + 4) with 6.
    match goal with |- context [Buffer.writeUInt8 ?b (Int 1) 0] =>
      change b with ([] ++ b) end.
    rewrite (writeUInt8_app _ _ _ 1) by (done || (cbn; lia)).
    rewrite (writeUInt8_app _ _ _ c)
      by (done || (cbn; lia) || (cbn [Buffer.checkInt]; rewrite !leb_true by lia; done)).
    rewrite (writeUInt32LE_app _ _ _ numDimensions)
      by (done || (by apply checkInt_u32) || (cbn; lia)).
    by rewrite HE.
  - destruct (quiet_method_count _ _ _ _ _ Hc) as (ev & [_ Ht] & Hf).
    by rewrite Ht, drop_app_length.
  - intros Hnf Hnp. revert Hc. unfold method_count. munfold.
    destruct (get index "getMaxElements") as [e|[| | | | | | |f|]] eqn:Hg;
      try (by intros [= <- <-]).
    + destruct index; try done.
    + by destruct (Hnf f).
Qed.

End Capacity.

Lemma failed_capacity_query_witness :
  exposes_checked Samples.adapter_four = true
  /\ @saveIndexJSON MockHost.mock Samples.adapter_four "a.json" Options.empty 3
       MockHost.unit_vectors MockHost.ready
     = (inl (NotAFunction "getMaxElements"), MockHost.ready)
  /\ @saveIndexBinary MockHost.mock Samples.adapter_four "a.bin" Options.empty 3
       MockHost.unit_vectors MockHost.ready
     = (inl (WriteBinaryFailed (NotAFunction "getMaxElements")), MockHost.ready).
Proof.
  split; [reflexivity|].
  assert (Hc : @method_count MockHost.mock Samples.adapter_four "getMaxElements"
                 MockHost.ready = (inl (NotAFunction "getMaxElements"), MockHost.ready))
    by reflexivity.
  split.
  - apply (@failed_capacity_query MockHost.mock Samples.adapter_four "a.json"
             Options.empty 3 MockHost.unit_vectors MockHost.ready MockHost.ready
             (NotAFunction "getMaxElements") eq_refl Hc ltac:(lia)
             ltac:(apply Z.leb_le; reflexivity)).
  - apply (@failed_capacity_query MockHost.mock Samples.adapter_four "a.bin"
             Options.empty 3 MockHost.unit_vectors MockHost.ready MockHost.ready
             (NotAFunction "getMaxElements") eq_refl Hc ltac:(lia)
             ltac:(apply Z.leb_le; reflexivity)).
Defined.

(** ** The reserved bytes of the binary form *)

Lemma u32_at_drop (buffer : Buffer.t) (k : nat) (offset : Z) :
  Z.of_nat k <= offset ->
  u32_at buffer offset = u32_at (drop k buffer) (offset - Z.of_nat k).
Proof.
  intros Hk. unfold u32_at. rewrite drop_drop. do 3 f_equal. lia.
Qed.

Lemma point_at_drop (buffer : Buffer.t) (k : nat) (n : nat) :
  forall offset, Z.of_nat k <= offset ->
    point_at buffer n offset = point_at (drop k buffer) n (offset - Z.of_nat k).
Proof.
  induction n as [|n IH]; intros offset Hk; [done|]. cbn [point_at].
  rewrite (u32_at_drop buffer k) by done. f_equal.
  rewrite IH by (clear IH; lia). f_equal. clear IH. lia.
Qed.

Lemma records_at_drop (buffer : Buffer.t) (k : nat) (numDimensions : Z) (n : nat) :
  0 <= numDimensions ->
  forall offset, Z.of_nat k <= offset ->
    records_at buffer numDimensions n offset
    = records_at (drop k buffer) numDimensions n (offset - Z.of_nat k).
Proof.
  intros Hd. induction n as [|n IH]; intros offset Hk; [done|]. cbn [records_at].
  rewrite (u32_at_drop buffer k offset) by done.
  rewrite (point_at_drop buffer k) by (clear IH; lia).
  rewrite IH by (clear IH; lia).
  replace (offset + 4 - Z.of_nat k) with (offset - Z.of_nat k + 4) by (clear IH; lia).
  replace (offset + 4 + 4 * numDimensions - Z.of_nat k)
    with (offset - Z.of_nat k + 4 + 4 * numDimensions) by (clear IH; lia).
  done.
Qed.

(** X24: the 14 reserved bytes of the header are not read.  Two buffers
    of the same length that agree on the first 26 bytes and from offset 40
    on are decoded alike by [loadIndexBinary]: same result, same calls. *)
Theorem reserved_bytes_are_not_read `{Host} (hnswlib : value) (filename : string)
    (buffer buffer' : Buffer.t) (s : state) :
  length buffer' = length buffer ->
  take 26 buffer' = take 26 buffer ->
  drop 40 buffer' = drop 40 buffer ->
  load_buffer hnswlib filename buffer' s = load_buffer hnswlib filename buffer s.
Proof.
  intros Hlen Htake Hdrop.
  assert (H32 : forall o, 0 <= o -> o + 4 <= 26 -> u32_at buffer' o = u32_at buffer o).
  { intros o H0 H4.
    rewrite <- (u32_at_take buffer' 26 o), <- (u32_at_take buffer 26 o) by lia.
    by rewrite Htake. }
  assert (H8 : forall o, 0 <= o -> o + 1 <= 26 -> u8_at buffer' o = u8_at buffer o).
  { intros o H0 H4.
    rewrite <- (u8_at_take buffer' 26 o), <- (u8_at_take buffer 26 o) by lia.
    by rewrite Htake. }
  assert (Hsize : Buffer.size buffer' = Buffer.size buffer)
    by (unfold Buffer.size; by rewrite Hlen).
  assert (Hexp : expected_size buffer' = expected_size buffer).
  { unfold expected_size. by rewrite !H32 by lia. }
  assert (Hrec : buffer_records buffer' = buffer_records buffer).
  { unfold buffer_records. rewrite !H32 by lia.
    rewrite (records_at_drop buffer' 40), (records_at_drop buffer 40)
      by (apply u32_at_nonneg || lia).
    by rewrite Hdrop. }
  rewrite !load_buffer_total. unfold header_error, header_metadata.
  by rewrite Hsize, Hexp, Hrec, !H8, !H32 by lia.
Qed.

Lemma reserved_bytes_are_not_read_witness :
  let marked := take 26 MockHost.encoded ++ replicate 14 "x"%byte
                ++ drop 40 MockHost.encoded in
  marked <> MockHost.encoded
  /\ @load_buffer MockHost.mock MockHost.hnswlib "v.bin" marked MockHost.start
     = @load_buffer MockHost.mock MockHost.hnswlib "v.bin" MockHost.encoded MockHost.start.
Proof.
  intros marked. split; [discriminate|].
  apply (@reserved_bytes_are_not_read MockHost.mock MockHost.hnswlib "v.bin"
           MockHost.encoded marked MockHost.start); reflexivity.
Defined.

(** ** The environment of the engine *)

(** X25: [setupNodeEnvironment] only fills in what is missing.  A global
    whose type is not ['undefined'] is left as it is, [indexedDB] and
    [window] included; no other global is touched; afterwards [indexedDB]
    and [window] are defined; and running it again changes nothing. *)
Theorem setupNodeEnvironment_fills_in_what_is_missing (global : gmap string value) :
  (forall name, typeof_global global name <> "undefined" ->
     setupNodeEnvironment global !! name = global !! name)
  /\ (forall name, name <> "indexedDB" -> name <> "window" ->
        setupNodeEnvironment global !! name = global !! name)
  /\ typeof_global (setupNodeEnvironment global) "indexedDB" <> "undefined"
  /\ typeof_global (setupNodeEnvironment global) "window" <> "undefined"
  /\ setupNodeEnvironment (setupNodeEnvironment global) = setupNodeEnvironment global.
Proof.
  assert (Hi : typeof_global (<["indexedDB" := indexedDB_polyfill]> global) "window"
               = typeof_global global "window").
  { unfold typeof_global. by rewrite lookup_insert_ne. }
  assert (Hdef : forall g k v, typeof v <> "undefined" ->
            String.eqb (typeof_global (<[k := v]> g) k) "undefined" = false).
  { intros g k v Hv. unfold typeof_global. rewrite lookup_insert_eq. cbn.
    by apply String.eqb_neq. }
  unfold setupNodeEnvironment.
  destruct (String.eqb (typeof_global global "indexedDB") "undefined") eqn:E1;
    [rewrite Hi|]; destruct (String.eqb (typeof_global global "window") "undefined") eqn:E2.
  - apply String.eqb_eq in E1, E2. repeat apply conj.
    + intros name Hn. rewrite !lookup_insert_ne; [done| |]; by intros <-.
    + intros name H1 H2. by rewrite !lookup_insert_ne.
    + unfold typeof_global. by rewrite lookup_insert_ne, lookup_insert_eq.
    + unfold typeof_global. by rewrite lookup_insert_eq.
    + assert (Ha : String.eqb
                     (typeof_global (<["window" := Obj ∅]>
                                       (<["indexedDB" := indexedDB_polyfill]> global))
                        "indexedDB") "undefined" = false).
      { unfold typeof_global. by rewrite lookup_insert_ne, lookup_insert_eq. }
      rewrite Ha. by rewrite Hdef.
  - apply String.eqb_eq in E1. apply String.eqb_neq in E2. repeat apply conj.
    + intros name Hn. rewrite lookup_insert_ne; [done|]. by intros <-.
    + intros name H1 H2. by rewrite lookup_insert_ne.
    + unfold typeof_global. by rewrite lookup_insert_eq.
    + by rewrite Hi.
    + rewrite Hdef by done. rewrite Hi. apply String.eqb_neq in E2. by rewrite E2.
  - apply String.eqb_neq in E1. apply String.eqb_eq in E2. repeat apply conj.
    + intros name Hn. rewrite lookup_insert_ne; [done|]. by intros <-.
    + intros name H1 H2. by rewrite lookup_insert_ne.
    + unfold typeof_global. by rewrite lookup_insert_ne.
    + unfold typeof_global. by rewrite lookup_insert_eq.
    + assert (Ha : String.eqb (typeof_global (<["window" := Obj ∅]> global) "indexedDB")
                     "undefined" = false).
      { unfold typeof_global. rewrite lookup_insert_ne by done. by apply String.eqb_neq. }
      rewrite Ha. by rewrite Hdef.
  - repeat apply conj; try done.
    + by apply String.eqb_neq in E1.
    + by apply String.eqb_neq in E2.
    + by rewrite E1, E2.
Qed.
